(** * TEI management of mISDN (drivers/isdn/mISDN/tei.c)

    A shallow embedding of the TEI manager: the outbound queue with its
    one-frame-in-flight discipline ([new_id], [do_send], [do_ack],
    [mgr_send_down], [dl_unit_data]), the frame codec ([put_tei_msg],
    the checks of [ph_data_ind]), the TEI state machine ([TeiFnList] and
    its handlers) and the entry points of the manager ([mgr_send],
    [mgr_ctrl], [l2_tei], [create_teimgr], [release_tei]).

    Conventions.
    - C integers are [Z]; a store into a [u_char], [u16] or [u_int] is
      written out with [u8], [u16], [u32].
    - Bit fields ([mgr->options], [l2->flag]) are [Z] words read with
      [Z.testbit] and written with [Z.setbit] and [Z.clearbit].
    - The list [mgr->layer2] is a [list layer2]; a pointer to an entity
      (to its [teimgr], to its [FsmInst]) is its position in that list.
    - Everything the code consumes from outside is part of the [world]:
      the bytes of [get_random_bytes], the return codes of
      [mgr->ch.recv]; everything it emits is appended to [out].
    - Debug printing ([printk], [printdebug]) has no effect on the state
      and is left out. *)

From Stdlib Require Import ZArith Lia Bool List.
From stdpp Require Import base option list.
Import ListNotations.
Local Open Scope Z_scope.

(** ** Constants of tei.c *)

Definition ID_REQUEST : Z := 1.
Definition ID_ASSIGNED : Z := 2.
Definition ID_DENIED : Z := 3.
Definition ID_CHK_REQ : Z := 4.
Definition ID_CHK_RES : Z := 5.
Definition ID_REMOVE : Z := 6.
Definition ID_VERIFY : Z := 7.

Definition TEI_ENTITY_ID : Z := 0xf.

Definition MGR_PH_ACTIVE : Z := 16.
Definition MGR_PH_NOTREADY : Z := 17.

Inductive tei_state := ST_TEI_NOP | ST_TEI_IDREQ | ST_TEI_IDVERIFY.

Inductive tei_event :=
  | EV_IDREQ | EV_ASSIGN | EV_ASSIGN_REQ | EV_DENIED
  | EV_CHKREQ | EV_REMOVE | EV_VERIFY | EV_TIMER.

#[global] Instance tei_state_eq_dec : EqDecision tei_state.
Proof. solve_decision. Defined.

#[global] Instance tei_event_eq_dec : EqDecision tei_event.
Proof. solve_decision. Defined.

(** Errno values of the kernel. *)
Definition EINVAL : Z := 22.
Definition ENOMEM : Z := 12.
Definition EPROTONOSUPPORT : Z := 93.

(** Modelled from the spec: GROUP_TEI is declared in a header that is not
    part of the sources; the glossary gives the sentinel value 127. *)
Definition GROUP_TEI : Z := 127.

(** ** Constants of headers that are not part of the sources

    [TEI_SAPI], [UI], [MISDN_ID_NONE], the bit numbers of the manager
    options and of the layer-2 flags, the option bits handed to
    [create_l2] and the protocol numbers are taken as parameters. *)

Class header := {
  TEI_SAPI : Z;
  UI : Z;
  MISDN_ID_NONE : Z;
  MGR_OPT_USER : Z;
  MGR_OPT_NETWORK : Z;
  FLG_FIXED_TEI : Z;
  FLG_LAPD_NET : Z;
  OPTION_L2_FIXEDTEI : Z;
  OPTION_L2_PTP : Z;
  OPTION_L2_PMX : Z;
  ISDN_P_LAPD_TE : Z;
  ISDN_P_LAPD_NT : Z
}.

(** ** Machine arithmetic and bit operations *)

Definition u8 (x : Z) : Z := x mod 256.
Definition u16 (x : Z) : Z := x mod 65536.
Definition u32 (x : Z) : Z := x mod 4294967296.

Definition test_bit (nr : Z) (addr : Z) : bool := Z.testbit addr nr.
Definition set_bit (nr : Z) (addr : Z) : Z := Z.setbit addr nr.
Definition clear_bit (nr : Z) (addr : Z) : Z := Z.clearbit addr nr.

#[global] Arguments u8 : simpl never.
#[global] Arguments u16 : simpl never.
#[global] Arguments u32 : simpl never.
#[global] Arguments test_bit : simpl never.
#[global] Arguments set_bit : simpl never.
#[global] Arguments clear_bit : simpl never.

(** ** Data model *)

(** Primitives carried in [mISDNhead.prim]; the enumeration lists the
    ones tei.c names, [PRIM_OTHER] stands for any other value. *)
Inductive prim :=
  | PH_DATA_IND | PH_DATA_CNF | PH_DATA_REQ
  | PH_ACTIVATE_IND | PH_DEACTIVATE_IND | PH_ACTIVATE_REQ
  | DL_UNITDATA_REQ | PRIM_OTHER (n : Z).

(** Commands exchanged with layer 2. *)
Inductive mdl :=
  | MDL_ASSIGN_IND | MDL_ERROR_IND
  | MDL_ASSIGN_REQ | MDL_REMOVE_REQ | MDL_ERROR_RSP
  | MDL_OTHER (n : Z).

(** [struct sk_buff] with its [mISDNhead]. *)
Record sk_buff := {
  head_prim : prim;
  head_id : Z;
  data : list Z
}.

(** [struct teimgr]: [tei_m_state] is [tei_m.state], [timer_pending]
    tells whether [timer] is armed. *)
Record teimgr := {
  ri : Z;
  nval : Z;
  tval : Z;
  tei_m_state : tei_state;
  timer_pending : bool
}.

(** [struct layer2], the fields tei.c reads. *)
Record layer2 := {
  sapi : Z;
  tei : Z;
  flag : Z;
  tm : teimgr
}.

(** [struct mISDNmanager]; [mgr_layer2] is the list headed by
    [mgr->layer2], [nrbchan] is [mgr->ch.dev->nrbchan]. *)
Record mISDNmanager := {
  options : Z;
  lastid : Z;
  nextid : Z;
  sendq : list sk_buff;
  mgr_layer2 : list layer2;
  nrbchan : Z
}.

(** What the manager emits. *)
Inductive output :=
  | Out_recv (skb : sk_buff) (rc : Z)
      (* mgr->ch.recv(mgr->ch.rst, skb) and the code it returned *)
  | Out_activate_req
      (* _queue_data(&mgr->ch, PH_ACTIVATE_REQ, MISDN_ID_ANY, ...) *)
  | Out_tei_l2 (l2 : nat) (cmd : mdl) (arg : Z).
      (* tei_l2(l2, cmd, arg) *)

(** The manager in its environment. [inflight] is the state of the lower
    transport: the frames it accepted and has not confirmed yet. *)
Record world := {
  mgr : mISDNmanager;
  inflight : list sk_buff;
  out : list output;
  entropy : nat -> Z;
  recv_rc : nat -> Z
}.

(** *** Field updates *)

Definition set_tm (t : teimgr) (l2 : layer2) : layer2 :=
  {| sapi := sapi l2; tei := tei l2; flag := flag l2; tm := t |}.

Definition set_tei (t : Z) (l2 : layer2) : layer2 :=
  {| sapi := sapi l2; tei := t; flag := flag l2; tm := tm l2 |}.

Definition set_ri (r : Z) (t : teimgr) : teimgr :=
  {| ri := r; nval := nval t; tval := tval t;
     tei_m_state := tei_m_state t; timer_pending := timer_pending t |}.

Definition set_nval (n : Z) (t : teimgr) : teimgr :=
  {| ri := ri t; nval := n; tval := tval t;
     tei_m_state := tei_m_state t; timer_pending := timer_pending t |}.

Definition set_state (s : tei_state) (t : teimgr) : teimgr :=
  {| ri := ri t; nval := nval t; tval := tval t;
     tei_m_state := s; timer_pending := timer_pending t |}.

Definition set_timer (b : bool) (t : teimgr) : teimgr :=
  {| ri := ri t; nval := nval t; tval := tval t;
     tei_m_state := tei_m_state t; timer_pending := b |}.

Definition set_options (o : Z) (m : mISDNmanager) : mISDNmanager :=
  {| options := o; lastid := lastid m; nextid := nextid m;
     sendq := sendq m; mgr_layer2 := mgr_layer2 m; nrbchan := nrbchan m |}.

Definition set_lastid (i : Z) (m : mISDNmanager) : mISDNmanager :=
  {| options := options m; lastid := i; nextid := nextid m;
     sendq := sendq m; mgr_layer2 := mgr_layer2 m; nrbchan := nrbchan m |}.

Definition set_nextid (i : Z) (m : mISDNmanager) : mISDNmanager :=
  {| options := options m; lastid := lastid m; nextid := i;
     sendq := sendq m; mgr_layer2 := mgr_layer2 m; nrbchan := nrbchan m |}.

Definition set_sendq (q : list sk_buff) (m : mISDNmanager) : mISDNmanager :=
  {| options := options m; lastid := lastid m; nextid := nextid m;
     sendq := q; mgr_layer2 := mgr_layer2 m; nrbchan := nrbchan m |}.

Definition set_layer2 (l : list layer2) (m : mISDNmanager) : mISDNmanager :=
  {| options := options m; lastid := lastid m; nextid := nextid m;
     sendq := sendq m; mgr_layer2 := l; nrbchan := nrbchan m |}.

Definition upd_mgr (f : mISDNmanager -> mISDNmanager) (w : world) : world :=
  {| mgr := f (mgr w); inflight := inflight w; out := out w;
     entropy := entropy w; recv_rc := recv_rc w |}.

Definition emit (o : output) (w : world) : world :=
  {| mgr := mgr w; inflight := inflight w; out := out w ++ [o];
     entropy := entropy w; recv_rc := recv_rc w |}.

Definition upd_l2 (i : nat) (f : layer2 -> layer2) (w : world) : world :=
  upd_mgr (fun m => set_layer2 (alter f i (mgr_layer2 m)) m) w.

Definition upd_tm (i : nat) (f : teimgr -> teimgr) (w : world) : world :=
  upd_l2 i (fun l2 => set_tm (f (tm l2)) l2) w.

Definition get_l2 (i : nat) (w : world) : option layer2 :=
  mgr_layer2 (mgr w) !! i.

Section Model.
Context {hdr : header}.

(** ** Collaborators outside tei.c *)

(** [get_random_bytes] of the kernel: the next value of the entropy
    source. *)
Definition get_random (w : world) : Z * world :=
  (entropy w 0%nat,
   {| mgr := mgr w; inflight := inflight w; out := out w;
      entropy := fun n => entropy w (S n); recv_rc := recv_rc w |}).

(** Modelled from the spec: mgr->ch.recv(mgr->ch.rst, skb) is the hand-off
    to the lower transport, which is not part of the sources (section 6:
    it accepts a frame or fails, and confirms what it accepted). The
    return code is the next one the environment gives; on 0 the transport
    holds the frame until it confirms it. *)
Definition ch_recv (skb : sk_buff) (w : world) : Z * world :=
  let rc := recv_rc w 0%nat in
  (rc,
   {| mgr := mgr w;
      inflight := if rc =? 0 then inflight w ++ [skb] else inflight w;
      out := out w ++ [Out_recv skb rc];
      entropy := entropy w;
      recv_rc := fun n => recv_rc w (S n) |}).

(** Modelled from the spec: _queue_data with PH_ACTIVATE_REQ is an inline
    helper of a header that is not part of the sources; the spec has it
    raise a link-activation request (section 4.4, enqueue). *)
Definition queue_PH_ACTIVATE_REQ (w : world) : world :=
  emit Out_activate_req w.

(** Modelled from the spec: _alloc_mISDN_skb is an inline helper of a
    header that is not part of the sources; the spec has the encoder
    always produce the frame (section 4.1), so the buffer is always
    obtained: the primitive, the id and a copy of the bytes. *)
Definition _alloc_mISDN_skb (p : prim) (id : Z) (bp : list Z) : option sk_buff :=
  Some {| head_prim := p; head_id := id; data := bp |}.

(** Modelled from the spec: tei_l2 lives in layer2.c, which is not part of
    the sources. It notifies the owner of the entity (section 6);
    MDL_ASSIGN_REQ moreover binds the entity to the TEI it carries
    (section 4.2, RequestingId x FrameAssigned); the reaction of the owner
    to the other notifications is not defined by the spec. *)
Definition tei_l2 (l2 : nat) (cmd : mdl) (arg : Z) (w : world) : world :=
  let w := emit (Out_tei_l2 l2 cmd arg) w in
  match cmd with
  | MDL_ASSIGN_REQ => upd_l2 l2 (set_tei arg) w
  | _ => w
  end.

(** Modelled from the spec: mISDN_FsmChangeState lives in fsm.c, which is
    not part of the sources; it sets the state of the instance. *)
Definition mISDN_FsmChangeState (fi : nat) (s : tei_state) (w : world) : world :=
  upd_tm fi (set_state s) w.

(** Modelled from the spec: mISDN_FsmAddTimer (fsm.c, not part of the
    sources) schedules the one timer of the session (section 6); the
    interval, the event EV_TIMER and the place of the call are not kept. *)
Definition mISDN_FsmAddTimer (fi : nat) (w : world) : world :=
  upd_tm fi (set_timer true) w.

(** Modelled from the spec: mISDN_FsmDelTimer (fsm.c, not part of the
    sources) cancels the timer of the session (section 6). *)
Definition mISDN_FsmDelTimer (fi : nat) (w : world) : world :=
  upd_tm fi (set_timer false) w.

(** ** Outbound queue *)

Definition new_id (m : mISDNmanager) : Z * mISDNmanager :=
  let id := nextid m in
  let m := set_nextid (u32 (nextid m + 1)) m in
  let m := if id =? 0x7fff then set_nextid 1 m else m in
  let id := u32 (Z.shiftl id 16) in
  let id := u32 (Z.lor id (Z.shiftl GROUP_TEI 8)) in
  let id := u32 (Z.lor id TEI_SAPI) in
  (id, m).

Definition do_send (w : world) : world :=
  if negb (test_bit MGR_PH_ACTIVE (options (mgr w))) then w
  else
    let was_set := test_bit MGR_PH_NOTREADY (options (mgr w)) in
    let w := upd_mgr (fun m => set_options (set_bit MGR_PH_NOTREADY (options m)) m) w in
    if negb was_set then
      match sendq (mgr w) with
      | [] =>
          upd_mgr (fun m => set_options (clear_bit MGR_PH_NOTREADY (options m)) m) w
      | skb :: rest =>
          let w := upd_mgr (set_sendq rest) w in
          let w := upd_mgr (set_lastid (head_id skb)) w in
          let '(rc, w) := ch_recv skb w in
          if negb (rc =? 0) then
            let w := upd_mgr (fun m => set_options (clear_bit MGR_PH_NOTREADY (options m)) m) w in
            upd_mgr (set_lastid MISDN_ID_NONE) w
          else w
      end
    else w.

Definition do_ack (id : Z) (w : world) : world :=
  if test_bit MGR_PH_NOTREADY (options (mgr w)) then
    if id =? lastid (mgr w) then
      let finish (w : world) : world :=
        let w := upd_mgr (set_lastid MISDN_ID_NONE) w in
        upd_mgr (fun m => set_options (clear_bit MGR_PH_NOTREADY (options m)) m) w in
      if test_bit MGR_PH_ACTIVE (options (mgr w)) then
        match sendq (mgr w) with
        | skb :: rest =>
            let w := upd_mgr (set_sendq rest) w in
            let w := upd_mgr (set_lastid (head_id skb)) w in
            let '(rc, w) := ch_recv skb w in
            if rc =? 0 then w else finish w
        | [] => finish w
        end
      else finish w
    else w
  else w.

Definition mgr_send_down (skb : sk_buff) (w : world) : world :=
  let w := upd_mgr (fun m => set_sendq (sendq m ++ [skb]) m) w in
  if negb (test_bit MGR_PH_ACTIVE (options (mgr w))) then
    queue_PH_ACTIVATE_REQ w
  else do_send w.

Definition dl_unit_data (skb : sk_buff) (w : world) : Z * world :=
  if negb (test_bit MGR_OPT_NETWORK (options (mgr w))) then (- EINVAL, w)
  else
    let w := if negb (test_bit MGR_PH_ACTIVE (options (mgr w)))
             then queue_PH_ACTIVATE_REQ w else w in
    let '(id, m) := new_id (mgr w) in
    let w := upd_mgr (fun _ => m) w in
    let skb := {| head_prim := PH_DATA_REQ; head_id := id;
                  data := 0x02 :: 0xff :: u8 UI :: data skb |} in
    let w := upd_mgr (fun m => set_sendq (sendq m ++ [skb]) m) w in
    (0, do_send w).

Definition random_ri (w : world) : Z * world :=
  let '(x, w) := get_random w in (u16 x, w).

(** ** Registry lookup *)

Definition findtei (m : mISDNmanager) (t : Z) : option nat :=
  fst <$> list_find
    (fun l2 => sapi l2 = 0 /\ tei l2 > 0 /\ tei l2 <> GROUP_TEI /\ tei l2 = t)
    (mgr_layer2 m).

(** ** Frame codec *)

(** The eight octets [bp] that [put_tei_msg] builds; [l2flag] is
    [tm->l2->flag]. *)
Definition tei_msg_bp (l2flag : Z) (m_id ri tei : Z) : list Z :=
  let m_id := u8 m_id in
  let ri := u32 ri in
  let tei := u8 tei in
  let bp0 := u8 (Z.shiftl TEI_SAPI 2) in
  let bp0 := if test_bit FLG_LAPD_NET l2flag then u8 (Z.lor bp0 2) else bp0 in
  [ bp0;
    u8 (Z.lor (Z.shiftl GROUP_TEI 1) 0x1);
    u8 UI;
    u8 TEI_ENTITY_ID;
    u8 (Z.shiftr ri 8);
    u8 (Z.land ri 0xff);
    m_id;
    u8 (Z.lor (Z.shiftl tei 1) 1) ].

Definition put_tei_msg (tmi : nat) (m_id ri tei : Z) (w : world) : world :=
  match get_l2 tmi w with
  | None => w
  | Some l2 =>
      let bp := tei_msg_bp (flag l2) m_id ri tei in
      let '(id, m) := new_id (mgr w) in
      let w := upd_mgr (fun _ => m) w in
      match _alloc_mISDN_skb PH_DATA_REQ id bp with
      | None => w
      | Some skb => mgr_send_down skb w
      end
  end.

(** The reference value and the TEI that the handlers read from the
    information field: [ri = *dp++ << 8; ri += *dp++; dp++; tei = *dp >> 1]
    where [dp] points at octet 4 of the frame. The octets are below 256,
    so that no wrap-around occurs. *)
Definition dp_ri (dp : list Z) : Z :=
  Z.shiftl (nth 0 dp 0) 8 + nth 1 dp 0.

Definition dp_tei (dp : list Z) : Z :=
  Z.shiftr (nth 3 dp 0) 1.

(** ** The TEI state machine *)

(** A handler gets the dispatcher to raise events with, the state machine
    instance [fi] (the position of its entity), the event and its
    argument ([NULL] is the empty list). *)
Definition dispatcher := nat -> tei_event -> list Z -> world -> world.
Definition FSMFNPTR := dispatcher -> nat -> tei_event -> list Z -> world -> world.

Definition tei_id_request : FSMFNPTR := fun _ fi event arg w =>
  match get_l2 fi w with
  | None => w
  | Some l2 =>
      if negb (tei l2 =? GROUP_TEI) then w
      else
        let '(r, w) := random_ri w in
        let w := upd_tm fi (set_ri r) w in
        let w := put_tei_msg fi ID_REQUEST r GROUP_TEI w in
        let w := mISDN_FsmChangeState fi ST_TEI_IDREQ w in
        let w := mISDN_FsmAddTimer fi w in
        upd_tm fi (set_nval 3) w
  end.

Definition tei_assign_req : FSMFNPTR := fun _ fi event arg w =>
  match get_l2 fi w with
  | None => w
  | Some l2 =>
      if tei l2 =? GROUP_TEI then w
      else
        let r := dp_ri arg in
        let w := upd_tm fi (set_ri r) w in
        let w := put_tei_msg fi ID_ASSIGNED r (tei l2) w in
        mISDN_FsmChangeState fi ST_TEI_NOP w
  end.

Definition tei_id_assign : FSMFNPTR := fun _ fi event arg w =>
  match get_l2 fi w with
  | None => w
  | Some me =>
      let r := dp_ri arg in
      let t := dp_tei arg in
      match findtei (mgr w) t with
      | Some o =>
          match get_l2 o w with
          | Some l2 =>
              if negb (r =? ri (tm l2)) then tei_l2 o MDL_ERROR_RSP 0 w else w
          | None => w
          end
      | None =>
          if r =? ri (tm me) then
            let w := mISDN_FsmDelTimer fi w in
            let w := mISDN_FsmChangeState fi ST_TEI_NOP w in
            tei_l2 fi MDL_ASSIGN_REQ t w
          else w
      end
  end.

Definition tei_id_test_dup : FSMFNPTR := fun mISDN_FsmEvent fi event arg w =>
  match get_l2 fi w with
  | None => w
  | Some me =>
      let r := dp_ri arg in
      let t := dp_tei arg in
      match findtei (mgr w) t with
      | Some o =>
          match get_l2 o w with
          | Some l2 =>
              if negb (r =? ri (tm l2)) then mISDN_FsmEvent o EV_VERIFY [] w else w
          | None => w
          end
      | None => w
      end
  end.

Definition tei_id_denied : FSMFNPTR := fun _ fi event arg w => w.

Definition tei_id_chk_req : FSMFNPTR := fun _ fi event arg w =>
  match get_l2 fi w with
  | None => w
  | Some l2 =>
      let t := dp_tei arg in
      if negb (tei l2 =? GROUP_TEI) && ((t =? GROUP_TEI) || (t =? tei l2)) then
        let w := mISDN_FsmDelTimer fi w in
        let w := mISDN_FsmChangeState fi ST_TEI_NOP w in
        let '(r, w) := random_ri w in
        put_tei_msg fi ID_CHK_RES r (tei l2) w
      else w
  end.

Definition tei_id_remove : FSMFNPTR := fun _ fi event arg w =>
  match get_l2 fi w with
  | None => w
  | Some l2 =>
      let t := dp_tei arg in
      if negb (tei l2 =? GROUP_TEI) && ((t =? GROUP_TEI) || (t =? tei l2)) then
        let w := mISDN_FsmDelTimer fi w in
        let w := mISDN_FsmChangeState fi ST_TEI_NOP w in
        tei_l2 fi MDL_REMOVE_REQ 0 w
      else w
  end.

Definition tei_id_verify : FSMFNPTR := fun _ fi event arg w =>
  match get_l2 fi w with
  | None => w
  | Some l2 =>
      let w := put_tei_msg fi ID_VERIFY 0 (tei l2) w in
      let w := mISDN_FsmChangeState fi ST_TEI_IDVERIFY w in
      let w := mISDN_FsmAddTimer fi w in
      upd_tm fi (set_nval 2) w
  end.

Definition tei_id_req_tout : FSMFNPTR := fun _ fi event arg w =>
  match get_l2 fi w with
  | None => w
  | Some l2 =>
      let n := nval (tm l2) - 1 in
      let w := upd_tm fi (set_nval n) w in
      if negb (n =? 0) then
        let '(r, w) := random_ri w in
        let w := upd_tm fi (set_ri r) w in
        let w := put_tei_msg fi ID_REQUEST r GROUP_TEI w in
        mISDN_FsmAddTimer fi w
      else
        let w := tei_l2 fi MDL_ERROR_RSP 0 w in
        mISDN_FsmChangeState fi ST_TEI_NOP w
  end.

Definition tei_id_ver_tout : FSMFNPTR := fun _ fi event arg w =>
  match get_l2 fi w with
  | None => w
  | Some l2 =>
      let n := nval (tm l2) - 1 in
      let w := upd_tm fi (set_nval n) w in
      if negb (n =? 0) then
        let w := put_tei_msg fi ID_VERIFY 0 (tei l2) w in
        mISDN_FsmAddTimer fi w
      else
        let w := tei_l2 fi MDL_REMOVE_REQ 0 w in
        mISDN_FsmChangeState fi ST_TEI_NOP w
  end.

Definition TeiFnList : list (tei_state * tei_event * FSMFNPTR) :=
  [ (ST_TEI_NOP, EV_IDREQ, tei_id_request);
    (ST_TEI_NOP, EV_ASSIGN, tei_id_test_dup);
    (ST_TEI_NOP, EV_ASSIGN_REQ, tei_assign_req);
    (ST_TEI_NOP, EV_VERIFY, tei_id_verify);
    (ST_TEI_NOP, EV_REMOVE, tei_id_remove);
    (ST_TEI_NOP, EV_CHKREQ, tei_id_chk_req);
    (ST_TEI_IDREQ, EV_TIMER, tei_id_req_tout);
    (ST_TEI_IDREQ, EV_ASSIGN, tei_id_assign);
    (ST_TEI_IDREQ, EV_DENIED, tei_id_denied);
    (ST_TEI_IDVERIFY, EV_TIMER, tei_id_ver_tout);
    (ST_TEI_IDVERIFY, EV_REMOVE, tei_id_remove);
    (ST_TEI_IDVERIFY, EV_CHKREQ, tei_id_chk_req) ].

(** The routine registered for a state and an event, if any. *)
Fixpoint jump (fns : list (tei_state * tei_event * FSMFNPTR))
    (s : tei_state) (e : tei_event) : option FSMFNPTR :=
  match fns with
  | [] => None
  | (s', e', r) :: fns =>
      if bool_decide (s' = s) && bool_decide (e' = e) then Some r
      else jump fns s e
  end.

(** Modelled from the spec: mISDN_FsmEvent lives in fsm.c, which is not
    part of the sources: the routine registered for the current state and
    the event runs, and an event with no routine is ignored (section 4.2).
    [depth] bounds the nesting of events raised from inside a routine. *)
Fixpoint mISDN_FsmEvent_n (depth : nat) (fi : nat) (event : tei_event)
    (arg : list Z) (w : world) : world :=
  match depth with
  | O => w
  | S depth =>
      match get_l2 fi w with
      | None => w
      | Some l2 =>
          match jump TeiFnList (tei_m_state (tm l2)) event with
          | Some r => r (mISDN_FsmEvent_n depth) fi event arg w
          | None => w
          end
      end
  end.

(** Only [tei_id_test_dup] raises an event, [EV_VERIFY], whose routines
    raise none: a nesting of two is all that ever occurs (see
    [mISDN_FsmEvent_depth]). *)
Definition mISDN_FsmEvent : dispatcher := mISDN_FsmEvent_n 2.

(** Modelled from the spec: the expiry of the timer of a session (fsm.c,
    not part of the sources): the timer is no longer pending and its event
    is delivered to the session (section 6). *)
Definition FsmExpireTimer (fi : nat) (w : world) : world :=
  let w := upd_tm fi (set_timer false) w in
  mISDN_FsmEvent fi EV_TIMER [] w.

(** ** Inbound dispatch *)

Definition tei_ph_data_ind (tmi : nat) (mt : Z) (dp : list Z) (len : Z)
    (w : world) : world :=
  match get_l2 tmi w with
  | None => w
  | Some l2 =>
      if test_bit FLG_FIXED_TEI (flag l2) && negb (test_bit FLG_LAPD_NET (flag l2))
      then w
      else if mt =? ID_ASSIGNED then mISDN_FsmEvent tmi EV_ASSIGN dp w
      else if mt =? ID_DENIED then mISDN_FsmEvent tmi EV_DENIED dp w
      else if mt =? ID_CHK_REQ then mISDN_FsmEvent tmi EV_CHKREQ dp w
      else if mt =? ID_REMOVE then mISDN_FsmEvent tmi EV_REMOVE dp w
      else w
  end.

Definition new_tei_req (dp : list Z) (w : world) : world := w.

(** [list_for_each_entry(l2, &mgr->layer2, list) tei_ph_data_ind(l2->tm, ...)] *)
Definition for_each_layer2 (f : nat -> world -> world) (w : world) : world :=
  fold_left (fun w i => f i w) (seq 0 (length (mgr_layer2 (mgr w)))) w.

(** The checks that [ph_data_ind] makes on the frame before it reads the
    message type; a failing one leaves through [done] with [-EINVAL]. *)
Definition tei_frame_ok (skb : sk_buff) : bool :=
  let d (n : nat) := nth n (data skb) 0 in
  if Z.of_nat (length (data skb)) <? 8 then false
  else if negb (Z.shiftr (d 0%nat) 2 =? TEI_SAPI) then false (* not for us *)
  else if negb (Z.land (d 0%nat) 1 =? 0) then false (* EA0 formal error *)
  else if Z.land (d 1%nat) 1 =? 0 then false (* EA1 formal error *)
  else if negb (Z.shiftr (d 1%nat) 1 =? GROUP_TEI) then false (* not for us *)
  else if negb (Z.land (d 2%nat) 0xef =? UI) then false (* not UI *)
  else if negb (d 3%nat =? TEI_ENTITY_ID) then false (* not tei entity *)
  else true.

Definition ph_data_ind (skb : sk_buff) (w : world) : Z * world :=
  if negb (tei_frame_ok skb) then (- EINVAL, w)
  else
    let mt := nth 6 (data skb) 0 in
    let dp := skipn 4 (data skb) in
    let len := Z.of_nat (length (data skb)) in
    let net := test_bit MGR_OPT_NETWORK (options (mgr w)) in
    let deliver :=
      if mt =? ID_REQUEST then (0, new_tei_req dp w)
      else (0, for_each_layer2 (fun i => tei_ph_data_ind i mt dp (len - 4)) w) in
    if (mt =? ID_REQUEST) || (mt =? ID_CHK_RES) || (mt =? ID_VERIFY) then
      if negb net then (- EINVAL, w) else deliver
    else if (mt =? ID_ASSIGNED) || (mt =? ID_DENIED) || (mt =? ID_CHK_REQ)
            || (mt =? ID_REMOVE) then
      if net then (- EINVAL, w) else deliver
    else (- EINVAL, w).

(** ** Entry points *)

Definition l2_tei (l2i : nat) (cmd : mdl) (arg : Z) (w : world) : Z * world :=
  match get_l2 l2i w with
  | None => (0, w)
  | Some l2 =>
      match cmd with
      | MDL_ASSIGN_IND =>
          if test_bit FLG_FIXED_TEI (flag l2)
          then (0, tei_l2 l2i MDL_ASSIGN_REQ (tei l2) w)
          else (0, mISDN_FsmEvent l2i EV_IDREQ [] w)
      | MDL_ERROR_IND =>
          if negb (test_bit FLG_FIXED_TEI (flag l2))
          then (0, mISDN_FsmEvent l2i EV_VERIFY [] w)
          else (0, w)
      | _ => (0, w)
      end
  end.

Definition release_tei (l2i : nat) (w : world) : world :=
  let w := mISDN_FsmDelTimer l2i w in
  upd_mgr (fun m => set_layer2 (delete l2i (mgr_layer2 m)) m) w.

(** [struct channel_req], the fields [create_teimgr] reads. *)
Record channel_req := {
  protocol : Z;
  adr_sapi : Z;
  adr_tei : Z
}.

(** [create_l2] (layer2.c, not part of the sources) and the outcome of
    [kzalloc] are given by the caller. *)
Definition create_teimgr (create_l2 : Z -> Z -> Z -> option layer2)
    (kzalloc_ok : bool) (crq : channel_req) (w : world) : Z * world :=
  let opts := options (mgr w) in
  let opt := 0 in
  if negb (adr_sapi crq =? 0) then (- EINVAL, w)
  else if adr_tei crq >? GROUP_TEI then (- EINVAL, w)
  else
    let opt := if adr_tei crq <? 64 then set_bit OPTION_L2_FIXEDTEI opt else opt in
    let opt := if adr_tei crq =? 0 then set_bit OPTION_L2_PTP opt else opt in
    if test_bit MGR_OPT_NETWORK opts && (protocol crq =? ISDN_P_LAPD_TE)
    then (- EPROTONOSUPPORT, w)
    else if test_bit MGR_OPT_USER opts && (protocol crq =? ISDN_P_LAPD_NT)
    then (- EPROTONOSUPPORT, w)
    else if test_bit MGR_OPT_USER opts && (adr_tei crq >=? 64)
            && (adr_tei crq <? GROUP_TEI)
    then (- EINVAL, w)
    else
      let opt := if nrbchan (mgr w) >? 2 then set_bit OPTION_L2_PMX opt else opt in
      match create_l2 (protocol crq) opt (adr_tei crq) with
      | None => (- ENOMEM, w)
      | Some l2 =>
          if negb kzalloc_ok then (- ENOMEM, w)
          else
            let t := {| ri := 0; nval := 0;
                        tval := if protocol crq =? ISDN_P_LAPD_TE then 1000 else 2000;
                        tei_m_state := ST_TEI_NOP;
                        timer_pending := false |} in
            (0, upd_mgr (fun m => set_layer2 (mgr_layer2 m ++ [set_tm t l2]) m) w)
      end.

Definition mgr_send (skb : sk_buff) (w : world) : Z * world :=
  match head_prim skb with
  | PH_DATA_IND => ph_data_ind skb w
  | PH_DATA_CNF => (0, do_ack (head_id skb) w)
  | PH_ACTIVATE_IND =>
      (0, do_send (upd_mgr (fun m => set_options (set_bit MGR_PH_ACTIVE (options m)) m) w))
  | PH_DEACTIVATE_IND =>
      (0, upd_mgr (fun m => set_options (clear_bit MGR_PH_ACTIVE (options m)) m) w)
  | DL_UNITDATA_REQ => dl_unit_data skb w
  | _ => (- EINVAL, w)
  end.

(** Commands of [mgr_ctrl]. *)
Inductive ctrl_cmd := CREATE_CHANNEL | CTRL_OTHER (n : Z).

Definition mgr_ctrl (create_l2 : Z -> Z -> Z -> option layer2)
    (kzalloc_ok : bool) (cmd : ctrl_cmd) (arg : channel_req) (w : world) : Z * world :=
  match cmd with
  | CREATE_CHANNEL => create_teimgr create_l2 kzalloc_ok arg w
  | _ => (- EINVAL, w)
  end.

(** [mISDN_create_manager]: [kzalloc] clears the structure; [nrb] is the
    number of B channels of the device the manager is attached to. *)
Definition mISDN_create_manager (nrb : Z) : mISDNmanager :=
  {| options := 0; lastid := MISDN_ID_NONE; nextid := 1;
     sendq := []; mgr_layer2 := []; nrbchan := nrb |}.

(** ** The manager in operation *)

Definition init_world (nrb : Z) (rnd rcs : nat -> Z) : world :=
  {| mgr := mISDN_create_manager nrb; inflight := []; out := [];
     entropy := rnd; recv_rc := rcs |}.

(** Modelled from the spec: the lower transport (not part of the sources)
    hands a message up; with PH_DATA_CNF it confirms, and forgets, the
    frames it holds under that id (section 6). *)
Definition transport_up (skb : sk_buff) (w : world) : world :=
  match head_prim skb with
  | PH_DATA_CNF =>
      {| mgr := mgr w;
         inflight := filter (fun f => head_id f <> head_id skb) (inflight w);
         out := out w; entropy := entropy w; recv_rc := recv_rc w |}
  | _ => w
  end.

(** One step of the system: a call into the manager from the transport,
    from layer 2, from the timer service, or an event raised on a
    session. *)
Inductive step : world -> world -> Prop :=
  | step_mgr_send skb w :
      step w (mgr_send skb (transport_up skb w)).2
  | step_mgr_ctrl create_l2 kz cmd crq w :
      step w (mgr_ctrl create_l2 kz cmd crq w).2
  | step_release i w :
      step w (release_tei i w)
  | step_l2_tei i cmd arg w :
      step w (l2_tei i cmd arg w).2
  | step_timer i l2 w :
      get_l2 i w = Some l2 -> timer_pending (tm l2) = true ->
      step w (FsmExpireTimer i w)
  | step_event i ev arg w :
      ev <> EV_TIMER ->
      step w (mISDN_FsmEvent i ev arg w).

Inductive reachable : world -> Prop :=
  | reachable_init nrb rnd rcs : reachable (init_world nrb rnd rcs)
  | reachable_step w w' : reachable w -> step w w' -> reachable w'.

(** ** Reading the output *)

(** The frames handed to the transport, accepted or not. *)
Definition handed (o : list output) : list sk_buff :=
  omap (fun e => match e with Out_recv skb _ => Some skb | _ => None end) o.

(** The notifications given to layer 2. *)
Definition notes (o : list output) : list output :=
  omap (fun e => match e with Out_tei_l2 _ _ _ => Some e | _ => None end) o.

Definition AssignmentComplete (l2 : nat) (t : Z) : output := Out_tei_l2 l2 MDL_ASSIGN_REQ t.
Definition AssignmentFailed (l2 : nat) : output := Out_tei_l2 l2 MDL_ERROR_RSP 0.
Definition RemovalRequested (l2 : nat) : output := Out_tei_l2 l2 MDL_REMOVE_REQ 0.

(** The frame that [put_tei_msg] queues on the manager [m] for an entity
    with flags [l2flag]. *)
Definition tei_frame (m : mISDNmanager) (l2flag : Z) (m_id ri tei : Z) : sk_buff :=
  {| head_prim := PH_DATA_REQ; head_id := (new_id m).1;
     data := tei_msg_bp l2flag m_id ri tei |}.

(** From [w] to [w'] the manager took in exactly the frames [frames], in
    this order: each of them is now in the send queue or was handed to
    the transport; and it gave layer 2 exactly the notifications [ns]. *)
Definition emitted (w w' : world) (frames : list sk_buff) (ns : list output) : Prop :=
  exists evs,
    out w' = out w ++ evs /\ notes evs = ns /\
    handed evs ++ sendq (mgr w') = sendq (mgr w) ++ frames.

(** ** Invariants *)

(** The timer of a session is pending exactly in the two waiting states. *)
Definition timer_ok (t : teimgr) : Prop :=
  timer_pending t = true <->
  (tei_m_state t = ST_TEI_IDREQ \/ tei_m_state t = ST_TEI_IDVERIFY).

Definition inv_timer (w : world) : Prop :=
  forall i l2, get_l2 i w = Some l2 -> timer_ok (tm l2).

(** The outbound queue: NOTREADY tells that a frame is outstanding, the
    transport holds at most that frame, and no queued frame carries the
    id MISDN_ID_NONE. *)
Definition inv_queue (w : world) : Prop :=
  (test_bit MGR_PH_NOTREADY (options (mgr w)) = true <->
   lastid (mgr w) <> MISDN_ID_NONE)
  /\ Forall (fun skb => head_id skb <> MISDN_ID_NONE) (sendq (mgr w))
  /\ (test_bit MGR_PH_NOTREADY (options (mgr w)) = false -> inflight w = [])
  /\ (length (inflight w) <= 1)%nat
  /\ Forall (fun f => head_id f = lastid (mgr w)) (inflight w).

(** Every session but [i] satisfies the invariant. *)
Definition inv_timer_but (i : nat) (w : world) : Prop :=
  forall j l2, j <> i -> get_l2 j w = Some l2 -> timer_ok (tm l2).

(** Every routine of the state machine keeps the queue invariant, if the
    dispatcher it raises events with does. *)
Definition keeps_queue (d : dispatcher) : Prop :=
  forall fi ev arg w, inv_queue w -> inv_queue (d fi ev arg w).

(** A dispatcher that keeps the timer invariant, for the events that are
    not the expiry of the timer. *)
Definition keeps_timer (d : dispatcher) : Prop :=
  forall fi ev arg w, ev <> EV_TIMER -> inv_timer w -> inv_timer (d fi ev arg w).

(** ** Four sentences of the specification, as they are written

    They are stated here, over the reachable worlds, to be compared with
    the code; each of them fails on a concrete run (see [linux_header] and
    the runs below), and holds in the amended form proved further down. *)

(** A matching ID_ASSIGNED always completes the assignment. *)
Definition assign_completes_unconditionally : Prop :=
  forall (w : world) i l2 dp,
    reachable w ->
    get_l2 i w = Some l2 ->
    tei_m_state (tm l2) = ST_TEI_IDREQ ->
    dp_ri dp = ri (tm l2) ->
    let w' := mISDN_FsmEvent i EV_ASSIGN dp w in
    exists l2',
      get_l2 i w' = Some l2' /\
      timer_pending (tm l2') = false /\
      tei_m_state (tm l2') = ST_TEI_NOP /\
      tei l2' = dp_tei dp /\
      emitted w w' [] [AssignmentComplete i (dp_tei dp)].

(** An ID_ASSIGNED for a TEI bound to another entity, with another
    reference value, leaves that entity as EV_VERIFY does and the
    receiving session, which is in state [s], as it was. *)
Definition duplicate_raises_verify (s : tei_state) : Prop :=
  forall (w : world) i me o other dp,
    reachable w ->
    get_l2 i w = Some me -> tei_m_state (tm me) = s ->
    get_l2 o w = Some other -> o <> i ->
    tei other = dp_tei dp -> ri (tm other) <> dp_ri dp ->
    let w' := mISDN_FsmEvent i EV_ASSIGN dp w in
    get_l2 o w' = get_l2 o (mISDN_FsmEvent o EV_VERIFY [] w) /\
    get_l2 i w' = Some me.

(** With a matching id, a queued frame and an active link, [do_ack] hands
    the next frame over and [lastid] becomes its id. *)
Definition ack_chains_unconditionally : Prop :=
  forall (w : world) id skb rest,
    reachable w ->
    test_bit MGR_PH_NOTREADY (options (mgr w)) = true ->
    id = lastid (mgr w) ->
    test_bit MGR_PH_ACTIVE (options (mgr w)) = true ->
    sendq (mgr w) = skb :: rest ->
    let w' := do_ack id w in
    handed (out w') = handed (out w) ++ [skb] /\
    lastid (mgr w') = head_id skb.

(** On a manager without the network option, a message for an entity with
    a fixed TEI changes neither the entity nor what layer 2 is told. *)
Definition fixed_tei_discards_by_manager_role : Prop :=
  forall (w : world) i l2 mt dp len,
    reachable w ->
    get_l2 i w = Some l2 ->
    test_bit FLG_FIXED_TEI (flag l2) = true ->
    test_bit MGR_OPT_NETWORK (options (mgr w)) = false ->
    let w' := tei_ph_data_ind i mt dp len w in
    get_l2 i w' = Some l2 /\ notes (out w') = notes (out w).

(** The notifications given to layer 2 about the entity [i]. *)
Definition notes_of (i : nat) (o : list output) : list output :=
  omap (fun e => match e with
                 | Out_tei_l2 k _ _ => if decide (k = i) then Some e else None
                 | _ => None
                 end) o.

(** The sentence about the fixed TEI once more, read over a whole inbound
    frame and for an entity that has not the flag FLG_LAPD_NET either: the frame changes neither
    the entity nor what layer 2 is told about it. *)
Definition fixed_tei_discards_whole_frame : Prop :=
  forall (w : world) i l2 skb,
    reachable w ->
    get_l2 i w = Some l2 ->
    test_bit FLG_FIXED_TEI (flag l2) = true ->
    test_bit FLG_LAPD_NET (flag l2) = false ->
    test_bit MGR_OPT_NETWORK (options (mgr w)) = false ->
    let w' := (ph_data_ind skb w).2 in
    get_l2 i w' = Some l2 /\ notes_of i (out w') = notes_of i (out w).

(** ** Further invariants *)

(** The counter behind [new_id] stays between 1 and 0x7fff. *)
Definition inv_nextid (w : world) : Prop :=
  1 <= nextid (mgr w) <= 0x7fff.

(** A session that waits for an identity has none and has tries left; a
    session that verifies its identity has tries left. *)
Definition session_ok (l2 : layer2) : Prop :=
  match tei_m_state (tm l2) with
  | ST_TEI_NOP => True
  | ST_TEI_IDREQ => tei l2 = GROUP_TEI /\ 1 <= nval (tm l2) <= 3
  | ST_TEI_IDVERIFY => 1 <= nval (tm l2) <= 2
  end.

Definition inv_session (w : world) : Prop :=
  forall i l2, get_l2 i w = Some l2 -> session_ok l2.

(** The link is not active and the frames handed to the transport so
    far are [H]. *)
Definition quiet (H : list sk_buff) (w : world) : Prop :=
  test_bit MGR_PH_ACTIVE (options (mgr w)) = false /\ handed (out w) = H.

End Model.

(** ** A concrete header and concrete runs

    The values these constants have in the headers of the Linux kernel,
    and a few runs of the manager from [mISDN_create_manager] on, used
    below to evaluate the model on concrete inputs. *)

Definition linux_header : header :=
  {| TEI_SAPI := 63; UI := 0x03; MISDN_ID_NONE := 0xfffe;
     MGR_OPT_USER := 24; MGR_OPT_NETWORK := 25;
     FLG_FIXED_TEI := 15; FLG_LAPD_NET := 18;
     OPTION_L2_FIXEDTEI := 3; OPTION_L2_PTP := 2; OPTION_L2_PMX := 1;
     ISDN_P_LAPD_TE := 0x10; ISDN_P_LAPD_NT := 0x11 |}.

Section Examples.
#[local] Existing Instance linux_header.

(** A [create_l2] for the runs: the entity gets the requested TEI, the
    flag FLG_LAPD_NET for the network protocol and the flag FLG_FIXED_TEI
    with the option OPTION_L2_FIXEDTEI. *)
Definition example_create_l2 (proto opt t : Z) : option layer2 :=
  let f := if proto =? ISDN_P_LAPD_NT then set_bit FLG_LAPD_NET 0 else 0 in
  let f := if test_bit OPTION_L2_FIXEDTEI opt then set_bit FLG_FIXED_TEI f else f in
  Some {| sapi := 0; tei := t; flag := f;
          tm := {| ri := 0; nval := 0; tval := 0;
                   tei_m_state := ST_TEI_NOP; timer_pending := false |} |}.

Definition crq_TE (t : Z) : channel_req :=
  {| protocol := ISDN_P_LAPD_TE; adr_sapi := 0; adr_tei := t |}.

Definition crq_NT (t : Z) : channel_req :=
  {| protocol := ISDN_P_LAPD_NT; adr_sapi := 0; adr_tei := t |}.

Definition session (t fl r n tv : Z) (s : tei_state) (p : bool) : layer2 :=
  {| sapi := 0; tei := t; flag := fl;
     tm := {| ri := r; nval := n; tval := tv;
              tei_m_state := s; timer_pending := p |} |}.

Definition msg (p : prim) (id : Z) (d : list Z) : sk_buff :=
  {| head_prim := p; head_id := id; data := d |}.

(** The information field of ID_ASSIGNED(ri, tei), from octet 4 on. *)
Definition dp_assigned (r t : Z) : list Z :=
  skipn 4 (tei_msg_bp 0 ID_ASSIGNED r t).

(** The entropy source gives 77, then 5 for ever. *)
Definition rnd_77_5 (n : nat) : Z := match n with O => 77 | _ => 5 end.

(** Run A: a terminal entity requests a TEI with ri = 77, the link comes
    up, the request is sent and confirmed, the network assigns TEI 70;
    a second entity is created and requests a TEI with ri = 5. *)
Definition run_A0 : world := init_world 2 rnd_77_5 (fun _ => 0).
Definition run_A1 : world := (create_teimgr example_create_l2 true (crq_TE 127) run_A0).2.
Definition run_A2 : world := (l2_tei 0 MDL_ASSIGN_IND 0 run_A1).2.
Definition run_A3 : world :=
  let m := msg PH_ACTIVATE_IND 0 [] in (mgr_send m (transport_up m run_A2)).2.
Definition run_A4 : world :=
  let m := msg PH_DATA_CNF (lastid (mgr run_A3)) [] in
  (mgr_send m (transport_up m run_A3)).2.
Definition run_A5 : world :=
  let m := msg PH_DATA_IND 0 (tei_msg_bp 0 ID_ASSIGNED 77 70) in
  (mgr_send m (transport_up m run_A4)).2.
Definition run_A6 : world := (create_teimgr example_create_l2 true (crq_TE 127) run_A5).2.
Definition run_A7 : world := (l2_tei 1 MDL_ASSIGN_IND 0 run_A6).2.

(** Run A, continued from A5 another way: layer 2 reports an error on the
    assigned entity, which starts the verification. *)
Definition run_A5v : world := (l2_tei 0 MDL_ERROR_IND 0 run_A5).2.

(** Run B: a point-to-point entity (TEI 0) and an entity without a TEI. *)
Definition run_B0 : world := init_world 2 rnd_77_5 (fun _ => 0).
Definition run_B1 : world := (create_teimgr example_create_l2 true (crq_TE 0) run_B0).2.
Definition run_B2 : world := (create_teimgr example_create_l2 true (crq_TE 127) run_B1).2.

(** Run C: the link is up; two entities request a TEI; the first request
    is accepted by the transport, the second waits in the queue; from
    then on the transport refuses what it is handed. *)
Definition rc_0_then_1 (n : nat) : Z := match n with O => 0 | _ => 1 end.
Definition run_C0 : world := init_world 2 rnd_77_5 rc_0_then_1.
Definition run_C1 : world :=
  let m := msg PH_ACTIVATE_IND 0 [] in (mgr_send m (transport_up m run_C0)).2.
Definition run_C2 : world := (create_teimgr example_create_l2 true (crq_TE 127) run_C1).2.
Definition run_C3 : world := (l2_tei 0 MDL_ASSIGN_IND 0 run_C2).2.
Definition run_C4 : world := (create_teimgr example_create_l2 true (crq_TE 127) run_C3).2.
Definition run_C5 : world := (l2_tei 1 MDL_ASSIGN_IND 0 run_C4).2.

(** Run D: on a manager without the network option, an entity of the
    network protocol with the fixed TEI 5; run E: the same with the
    terminal protocol. *)
Definition run_D1 : world :=
  (create_teimgr example_create_l2 true (crq_NT 5) (init_world 2 rnd_77_5 (fun _ => 0))).2.
Definition run_E1 : world :=
  (create_teimgr example_create_l2 true (crq_TE 5) (init_world 2 rnd_77_5 (fun _ => 0))).2.

(** Run N: a manager to which its owner has given the network option,
    with one entity of the network protocol and the fixed TEI 5. *)
Definition run_N0 : world :=
  upd_mgr (fun m => set_options (set_bit MGR_OPT_NETWORK (options m)) m)
    (init_world 2 rnd_77_5 (fun _ => 0)).
Definition run_N1 : world :=
  (create_teimgr example_create_l2 true (crq_NT 5) run_N0).2.

(** Run A2 with the link marked active, as [mgr_send] does it on
    PH_ACTIVATE_IND before it calls [do_send]. *)
Definition run_A2_active : world :=
  upd_mgr (fun m => set_options (set_bit MGR_PH_ACTIVE (options m)) m) run_A2.

(** Run F: the entity of run E, with the fixed TEI 5, and beside it an
    entity of the terminal side that has no TEI and is idle. *)
Definition run_F2 : world :=
  (create_teimgr example_create_l2 true (crq_TE 127) run_E1).2.

End Examples.

(** * Proofs *)

#[local] Arguments new_id : simpl never.
#[local] Arguments put_tei_msg : simpl never.
#[local] Arguments do_send : simpl never.
#[local] Arguments do_ack : simpl never.
#[local] Arguments mgr_send_down : simpl never.

(** ** Bit operations *)

Lemma test_set_eq n x : 0 <= n -> test_bit n (set_bit n x) = true.
Proof. intros. unfold test_bit, set_bit. by apply Z.setbit_eq. Qed.

Lemma test_set_ne n m x : 0 <= m -> n <> m -> test_bit n (set_bit m x) = test_bit n x.
Proof. intros. unfold test_bit, set_bit. apply Z.setbit_neq; auto. Qed.

Lemma test_clear_eq n x : test_bit n (clear_bit n x) = false.
Proof. unfold test_bit, clear_bit. apply Z.clearbit_eq. Qed.

Lemma test_clear_ne n m x : n <> m -> test_bit n (clear_bit m x) = test_bit n x.
Proof. intros. unfold test_bit, clear_bit. apply Z.clearbit_neq; auto. Qed.

Lemma set_bit_idem n x : 0 <= n -> test_bit n x = true -> set_bit n x = x.
Proof.
  unfold test_bit, set_bit. intros Hn Hx. apply Z.bits_inj'. intros k Hk.
  rewrite Z.setbit_eqb by done.
  destruct (Z.eqb_spec n k) as [->|]; [by rewrite Hx | done].
Qed.

Lemma NOTREADY_nonneg : 0 <= MGR_PH_NOTREADY.
Proof. done. Qed.

Lemma ACTIVE_NOTREADY : MGR_PH_ACTIVE <> MGR_PH_NOTREADY.
Proof. done. Qed.

Lemma NOTREADY_ACTIVE : MGR_PH_NOTREADY <> MGR_PH_ACTIVE.
Proof. done. Qed.

Lemma Forall_filter_keep {A} (P : A -> Prop) (Q : A -> Prop)
    `{!forall x, Decision (Q x)} (l : list A) :
  Forall P l -> Forall P (filter Q l).
Proof.
  induction 1 as [|x l Hx Hl IH]; [done|].
  rewrite filter_cons. case_decide; [by constructor | done].
Qed.

#[local] Hint Resolve NOTREADY_nonneg ACTIVE_NOTREADY NOTREADY_ACTIVE : core.

Section Proofs.
Context {hdr : header}.

(** ** The outbound queue keeps its invariant *)

Lemma inv_queue_same (w w' : world) :
  options (mgr w') = options (mgr w) -> lastid (mgr w') = lastid (mgr w) ->
  sendq (mgr w') = sendq (mgr w) -> inflight w' = inflight w ->
  inv_queue w -> inv_queue w'.
Proof. unfold inv_queue. intros -> -> -> ->. done. Qed.

Lemma not_ready_false (w : world) :
  inv_queue w -> test_bit MGR_PH_NOTREADY (options (mgr w)) = false ->
  lastid (mgr w) = MISDN_ID_NONE /\ inflight w = [].
Proof.
  intros (Hl & _ & Hi & _) Hb. split; [|auto].
  destruct (decide (lastid (mgr w) = MISDN_ID_NONE)) as [|Hne]; [done|].
  apply Hl in Hne. congruence.
Qed.

Lemma inv_queue_do_send (w : world) : inv_queue w -> inv_queue (do_send w).
Proof.
  intros Hinv. unfold do_send.
  destruct (test_bit MGR_PH_ACTIVE (options (mgr w))); simpl; [|done].
  destruct (test_bit MGR_PH_NOTREADY (options (mgr w))) eqn:Hnr; simpl.
  { eapply inv_queue_same; [| | | |exact Hinv]; simpl; auto using set_bit_idem. }
  destruct (not_ready_false w Hinv Hnr) as [Hlast Hfl].
  destruct Hinv as (Hl & Hq & Hi & Hlen & Hid).
  destruct (sendq (mgr w)) as [|skb rest] eqn:Hsq; simpl.
  { unfold inv_queue; simpl. rewrite Hsq, test_clear_eq. split_and!; auto.
    rewrite Hlast. split; [done|]. intros []; done. }
  apply Forall_cons in Hq as [Hskb Hrest].
  destruct (Z.eqb_spec (recv_rc w 0%nat) 0) as [->|Hrc]; simpl.
  - unfold inv_queue; simpl. rewrite test_set_eq by done. rewrite Hfl. simpl.
    split_and!; auto; try done.
  - unfold inv_queue; simpl. rewrite test_clear_eq. rewrite Hfl.
    split_and!; auto. split; [done|]. intros []; done.
Qed.

Lemma inv_queue_do_ack (id : Z) (w : world) :
  inv_queue w -> (id = lastid (mgr w) -> inflight w = []) ->
  inv_queue (do_ack id w).
Proof.
  intros Hinv Hfl. unfold do_ack.
  destruct (test_bit MGR_PH_NOTREADY (options (mgr w))) eqn:Hnr; [|done].
  destruct (Z.eqb_spec id (lastid (mgr w))) as [Heq|]; [|done].
  specialize (Hfl Heq). destruct Hinv as (Hl & Hq & Hi & Hlen & Hid).
  assert (Hfin : inv_queue
    (upd_mgr (fun m => set_options (clear_bit MGR_PH_NOTREADY (options m)) m)
       (upd_mgr (set_lastid MISDN_ID_NONE) w))).
  { unfold inv_queue; simpl. rewrite test_clear_eq, Hfl. split_and!; auto.
    split; [done|]. intros []; done. }
  destruct (test_bit MGR_PH_ACTIVE (options (mgr w))); [|done].
  destruct (sendq (mgr w)) as [|skb rest] eqn:Hsq; [done|]. simpl.
  apply Forall_cons in Hq as [Hskb Hrest].
  destruct (Z.eqb_spec (recv_rc w 0%nat) 0) as [->|Hrc]; simpl.
  - unfold inv_queue; simpl. rewrite Hnr, Hfl. simpl. split_and!; auto; try done.
  - unfold inv_queue; simpl. rewrite test_clear_eq, Hfl. split_and!; auto.
    split; [done|]. intros []; done.
Qed.

Lemma inv_queue_transport_up (skb : sk_buff) (w : world) :
  inv_queue w ->
  inv_queue (transport_up skb w) /\
  (head_prim skb = PH_DATA_CNF ->
   head_id skb = lastid (mgr (transport_up skb w)) ->
   inflight (transport_up skb w) = []).
Proof.
  intros Hinv. unfold transport_up.
  destruct (head_prim skb); try (split; [done|discriminate]).
  destruct Hinv as (Hl & Hq & Hi & Hlen & Hid). split.
  - unfold inv_queue; simpl. split_and!; auto.
    + intros Hb. rewrite (Hi Hb). done.
    + etrans; [apply length_filter|done].
    + by apply Forall_filter_keep.
  - simpl. intros _ Heq. clear Hlen Hi.
    induction Hid as [|f l Hf Hl' IH]; [done|].
    rewrite filter_cons. case_decide as Hd; [congruence|done].
Qed.

Lemma inv_queue_enqueue (skb : sk_buff) (w : world) :
  head_id skb <> MISDN_ID_NONE -> inv_queue w ->
  inv_queue (upd_mgr (fun m => set_sendq (sendq m ++ [skb]) m) w).
Proof.
  intros Hid (Hl & Hq & Hi & Hlen & Hfl). unfold inv_queue; simpl.
  split_and!; auto. apply Forall_app; split; [done|]. by apply Forall_singleton.
Qed.

Lemma inv_queue_emit (o : output) (w : world) : inv_queue w -> inv_queue (emit o w).
Proof. by apply inv_queue_same. Qed.

Lemma inv_queue_mgr_send_down (skb : sk_buff) (w : world) :
  head_id skb <> MISDN_ID_NONE -> inv_queue w -> inv_queue (mgr_send_down skb w).
Proof.
  intros Hid Hinv. unfold mgr_send_down.
  pose proof (inv_queue_enqueue skb w Hid Hinv) as H1.
  match goal with |- context [if ?c then _ else _] => destruct c end.
  - by apply inv_queue_emit.
  - by apply inv_queue_do_send.
Qed.


Lemma new_id_fields (m : mISDNmanager) :
  options (new_id m).2 = options m /\ lastid (new_id m).2 = lastid m /\
  sendq (new_id m).2 = sendq m /\ mgr_layer2 (new_id m).2 = mgr_layer2 m /\
  nrbchan (new_id m).2 = nrbchan m.
Proof. unfold new_id. simpl. by destruct (nextid m =? 32767). Qed.

Section QueueInvariant.

(** The ids that [new_id] builds differ from MISDN_ID_NONE. *)
Hypothesis new_id_not_none : forall m, (new_id m).1 <> MISDN_ID_NONE.


Lemma inv_queue_new_id (w : world) :
  inv_queue w -> inv_queue (upd_mgr (fun _ => (new_id (mgr w)).2) w).
Proof.
  destruct (new_id_fields (mgr w)) as (? & ? & ? & _).
  by apply inv_queue_same.
Qed.

Lemma inv_queue_put_tei_msg i m_id r t (w : world) :
  inv_queue w -> inv_queue (put_tei_msg i m_id r t w).
Proof.
  intros Hinv. unfold put_tei_msg. destruct (get_l2 i w); [|done].
  pose proof (new_id_not_none (mgr w)) as Hid.
  pose proof (inv_queue_new_id w Hinv) as Hw.
  destruct (new_id (mgr w)) as [id m]. cbn [fst snd] in *.
  by apply inv_queue_mgr_send_down.
Qed.

Lemma inv_queue_dl_unit_data skb (w : world) :
  inv_queue w -> inv_queue (dl_unit_data skb w).2.
Proof.
  intros Hinv. unfold dl_unit_data.
  destruct (test_bit MGR_OPT_NETWORK (options (mgr w))); cbn [negb]; [|done].
  set (w1 := if negb (test_bit MGR_PH_ACTIVE (options (mgr w)))
             then queue_PH_ACTIVATE_REQ w else w).
  assert (Hw1 : inv_queue w1).
  { subst w1. destruct (negb _); [by apply inv_queue_emit | done]. }
  pose proof (new_id_not_none (mgr w1)) as Hid.
  pose proof (inv_queue_new_id w1 Hw1) as Hw.
  destruct (new_id (mgr w1)) as [id m]. cbn [fst snd] in *.
  apply inv_queue_do_send. by apply inv_queue_enqueue.
Qed.

Lemma inv_queue_upd_l2 i f (w : world) : inv_queue w -> inv_queue (upd_l2 i f w).
Proof. by apply inv_queue_same. Qed.

Lemma inv_queue_upd_tm i f (w : world) : inv_queue w -> inv_queue (upd_tm i f w).
Proof. by apply inv_queue_same. Qed.

Lemma inv_queue_tei_l2 i cmd arg (w : world) : inv_queue w -> inv_queue (tei_l2 i cmd arg w).
Proof.
  intros H. unfold tei_l2.
  destruct cmd; (eapply inv_queue_same; [| | | |exact H]; done).
Qed.

Lemma inv_queue_random_ri (w : world) : inv_queue w -> inv_queue (random_ri w).2.
Proof. by apply inv_queue_same. Qed.

Create HintDb invq.
#[local] Hint Resolve inv_queue_put_tei_msg inv_queue_upd_l2 inv_queue_upd_tm
  inv_queue_tei_l2 inv_queue_random_ri inv_queue_emit inv_queue_do_send : invq.


Ltac routine_queue :=
  intros Hd fi ev arg w Hinv;
  repeat match goal with
  | |- context [match get_l2 ?i ?w with _ => _ end] => destruct (get_l2 i w)
  | |- context [match findtei ?m ?t with _ => _ end] => destruct (findtei m t)
  | |- context [if ?c then _ else _] => destruct c
  | |- context [let '(_, _) := random_ri ?w in _] =>
      pose proof (inv_queue_random_ri w ltac:(eauto with invq));
      destruct (random_ri w); simpl in *
  | _ => progress (unfold mISDN_FsmChangeState, mISDN_FsmAddTimer, mISDN_FsmDelTimer)
  end;
  eauto 10 with invq.

Lemma tei_id_request_queue d : keeps_queue d -> keeps_queue (tei_id_request d).
Proof. unfold keeps_queue, tei_id_request. routine_queue. Qed.

Lemma tei_assign_req_queue d : keeps_queue d -> keeps_queue (tei_assign_req d).
Proof. unfold keeps_queue, tei_assign_req. routine_queue. Qed.

Lemma tei_id_assign_queue d : keeps_queue d -> keeps_queue (tei_id_assign d).
Proof. unfold keeps_queue, tei_id_assign. routine_queue. Qed.

Lemma tei_id_test_dup_queue d : keeps_queue d -> keeps_queue (tei_id_test_dup d).
Proof. unfold keeps_queue, tei_id_test_dup. routine_queue. Qed.

Lemma tei_id_denied_queue d : keeps_queue d -> keeps_queue (tei_id_denied d).
Proof. unfold keeps_queue, tei_id_denied. routine_queue. Qed.

Lemma tei_id_chk_req_queue d : keeps_queue d -> keeps_queue (tei_id_chk_req d).
Proof. unfold keeps_queue, tei_id_chk_req. routine_queue. Qed.

Lemma tei_id_remove_queue d : keeps_queue d -> keeps_queue (tei_id_remove d).
Proof. unfold keeps_queue, tei_id_remove. routine_queue. Qed.

Lemma tei_id_verify_queue d : keeps_queue d -> keeps_queue (tei_id_verify d).
Proof. unfold keeps_queue, tei_id_verify. routine_queue. Qed.

Lemma tei_id_req_tout_queue d : keeps_queue d -> keeps_queue (tei_id_req_tout d).
Proof. unfold keeps_queue, tei_id_req_tout. routine_queue. Qed.

Lemma tei_id_ver_tout_queue d : keeps_queue d -> keeps_queue (tei_id_ver_tout d).
Proof. unfold keeps_queue, tei_id_ver_tout. routine_queue. Qed.

Lemma FsmEvent_n_queue n : keeps_queue (mISDN_FsmEvent_n n).
Proof.
  induction n as [|n IH]; intros fi ev arg w Hinv; simpl; [done|].
  destruct (get_l2 fi w) as [l2|]; [|done].
  destruct (tei_m_state (tm l2)), ev; simpl; try done;
    first [ by apply tei_id_request_queue | by apply tei_id_test_dup_queue
          | by apply tei_assign_req_queue | by apply tei_id_verify_queue
          | by apply tei_id_remove_queue | by apply tei_id_chk_req_queue
          | by apply tei_id_req_tout_queue | by apply tei_id_assign_queue
          | by apply tei_id_denied_queue | by apply tei_id_ver_tout_queue ].
Qed.

Lemma FsmEvent_queue : keeps_queue mISDN_FsmEvent.
Proof. apply FsmEvent_n_queue. Qed.

Lemma inv_queue_tei_ph_data_ind i mt dp len (w : world) :
  inv_queue w -> inv_queue (tei_ph_data_ind i mt dp len w).
Proof.
  intros Hinv. unfold tei_ph_data_ind.
  repeat match goal with
  | |- context [match get_l2 ?i ?w with _ => _ end] => destruct (get_l2 i w)
  | |- context [if ?c then _ else _] => destruct c
  end; auto using FsmEvent_queue.
Qed.

Lemma inv_queue_fold (f : nat -> world -> world) (l : list nat) (w : world) :
  (forall i w, inv_queue w -> inv_queue (f i w)) ->
  inv_queue w -> inv_queue (fold_left (fun w i => f i w) l w).
Proof. intros Hf. revert w. induction l; simpl; auto. Qed.

Lemma inv_queue_ph_data_ind skb (w : world) :
  inv_queue w -> inv_queue (ph_data_ind skb w).2.
Proof.
  intros Hinv. unfold ph_data_ind, new_tei_req, for_each_layer2.
  repeat match goal with
  | |- context [if ?c then _ else _] => destruct c
  end; simpl; auto using inv_queue_fold, inv_queue_tei_ph_data_ind.
Qed.

Lemma inv_queue_set_active (w : world) :
  inv_queue w ->
  inv_queue (upd_mgr (fun m => set_options (set_bit MGR_PH_ACTIVE (options m)) m) w).
Proof.
  intros (Hl & Hq & Hi & Hlen & Hfl). unfold inv_queue; simpl.
  rewrite test_set_ne by done. done.
Qed.

Lemma inv_queue_clear_active (w : world) :
  inv_queue w ->
  inv_queue (upd_mgr (fun m => set_options (clear_bit MGR_PH_ACTIVE (options m)) m) w).
Proof.
  intros (Hl & Hq & Hi & Hlen & Hfl). unfold inv_queue; simpl.
  rewrite test_clear_ne by done. done.
Qed.

Lemma inv_queue_mgr_send skb (w : world) :
  inv_queue w -> inv_queue (mgr_send skb (transport_up skb w)).2.
Proof.
  intros Hinv. destruct (inv_queue_transport_up skb w Hinv) as [Hw Hfl].
  unfold mgr_send. destruct (head_prim skb) eqn:Hp; cbn [snd]; try done.
  - by apply inv_queue_ph_data_ind.
  - apply inv_queue_do_ack; auto.
  - by apply inv_queue_do_send, inv_queue_set_active.
  - by apply inv_queue_clear_active.
  - by apply inv_queue_dl_unit_data.
Qed.

Lemma inv_queue_init nrb rnd rcs : inv_queue (init_world nrb rnd rcs).
Proof.
  unfold inv_queue; simpl.
  assert (test_bit MGR_PH_NOTREADY 0 = false) as -> by reflexivity.
  split_and!; try done; lia.
Qed.

Lemma inv_queue_step (w w' : world) : step w w' -> inv_queue w -> inv_queue w'.
Proof.
  intros Hs Hinv. destruct Hs.
  - by apply inv_queue_mgr_send.
  - unfold mgr_ctrl, create_teimgr. destruct cmd; [|done].
    repeat match goal with
    | |- context [if ?c then _ else _] => destruct c
    | |- context [match ?c with Some _ => _ | None => _ end] => destruct c
    end; cbn [snd]; try done; by eapply inv_queue_same; [| | | |exact Hinv].
  - unfold release_tei, mISDN_FsmDelTimer.
    by eapply inv_queue_same; [| | | |exact Hinv].
  - unfold l2_tei. destruct (get_l2 i w); [|done].
    destruct cmd; cbn [snd]; try done;
      match goal with |- context [if ?c then _ else _] => destruct c end;
      cbn [snd]; auto using FsmEvent_queue, inv_queue_tei_l2.
  - unfold FsmExpireTimer. by apply FsmEvent_queue, inv_queue_upd_tm.
  - by apply FsmEvent_queue.
Qed.

Lemma inv_queue_reachable (w : world) : reachable w -> inv_queue w.
Proof.
  induction 1; [apply inv_queue_init | by eapply inv_queue_step].
Qed.

(** C8. A manager starts with an empty queue, NOTREADY clear and [lastid]
    MISDN_ID_NONE. In every world reachable from there, NOTREADY is set if
    and only if [lastid] differs from MISDN_ID_NONE, and the transport
    holds at most one frame that it has not confirmed. The invariant
    [inv_queue] behind this is kept by [do_send], by the queueing of a
    frame through [put_tei_msg] and by every message from the transport
    (confirmation, activation, deactivation, inbound data). *)
Theorem C8_one_frame_in_flight :
  (forall nrb,
     sendq (mISDN_create_manager nrb) = []
     /\ test_bit MGR_PH_NOTREADY (options (mISDN_create_manager nrb)) = false
     /\ lastid (mISDN_create_manager nrb) = MISDN_ID_NONE)
  /\
  (forall w, reachable w ->
     (test_bit MGR_PH_NOTREADY (options (mgr w)) = true <->
      lastid (mgr w) <> MISDN_ID_NONE)
     /\ (length (inflight w) <= 1)%nat)
  /\
  (forall w, inv_queue w ->
     inv_queue (do_send w)
     /\ (forall i m_id r t, inv_queue (put_tei_msg i m_id r t w))
     /\ (forall skb, inv_queue (mgr_send skb (transport_up skb w)).2)).
Proof.
  split_and!.
  - intros nrb. done.
  - intros w Hr. destruct (inv_queue_reachable w Hr) as (H1 & _ & _ & H2 & _).
    done.
  - intros w Hinv. split_and!.
    + by apply inv_queue_do_send.
    + intros. by apply inv_queue_put_tei_msg.
    + intros. by apply inv_queue_mgr_send.
Qed.

End QueueInvariant.

(** ** What the queue operations leave alone *)

Lemma do_send_layer2 (w : world) :
  mgr_layer2 (mgr (do_send w)) = mgr_layer2 (mgr w) /\
  entropy (do_send w) = entropy w.
Proof.
  unfold do_send, ch_recv; cbn.
  repeat match goal with
  | |- context [if ?c then _ else _] => destruct c
  | |- context [match sendq ?m with _ => _ end] => destruct (sendq m)
  end; done.
Qed.

Lemma do_ack_layer2 id (w : world) :
  mgr_layer2 (mgr (do_ack id w)) = mgr_layer2 (mgr w) /\
  entropy (do_ack id w) = entropy w.
Proof.
  unfold do_ack, ch_recv; cbn.
  repeat match goal with
  | |- context [if ?c then _ else _] => destruct c
  | |- context [match sendq ?m with _ => _ end] => destruct (sendq m)
  end; done.
Qed.

Lemma mgr_send_down_layer2 skb (w : world) :
  mgr_layer2 (mgr (mgr_send_down skb w)) = mgr_layer2 (mgr w) /\
  entropy (mgr_send_down skb w) = entropy w.
Proof.
  unfold mgr_send_down.
  match goal with |- context [if ?c then _ else _] => destruct c end; [done|].
  destruct (do_send_layer2
    (upd_mgr (fun m => set_sendq (sendq m ++ [skb]) m) w)) as [-> ->]. done.
Qed.

Lemma put_tei_msg_layer2 i m_id r t (w : world) :
  mgr_layer2 (mgr (put_tei_msg i m_id r t w)) = mgr_layer2 (mgr w).
Proof.
  unfold put_tei_msg. destruct (get_l2 i w); [|done].
  destruct (new_id_fields (mgr w)) as (_ & _ & _ & Hl & _).
  destruct (new_id (mgr w)) as [id m]. cbn [fst snd _alloc_mISDN_skb] in *.
  by destruct (mgr_send_down_layer2
    {| head_prim := PH_DATA_REQ; head_id := id;
       data := tei_msg_bp (flag l) m_id r t |}
    (upd_mgr (fun _ => m) w)) as [-> _].
Qed.

Lemma put_tei_msg_entropy i m_id r t (w : world) :
  entropy (put_tei_msg i m_id r t w) = entropy w.
Proof.
  unfold put_tei_msg. destruct (get_l2 i w); [|done].
  destruct (new_id (mgr w)) as [id m]. cbn [fst snd _alloc_mISDN_skb] in *.
  by destruct (mgr_send_down_layer2
    {| head_prim := PH_DATA_REQ; head_id := id;
       data := tei_msg_bp (flag l) m_id r t |}
    (upd_mgr (fun _ => m) w)) as [_ ->].
Qed.

Lemma get_l2_put_tei_msg j i m_id r t (w : world) :
  get_l2 j (put_tei_msg i m_id r t w) = get_l2 j w.
Proof. unfold get_l2. by rewrite put_tei_msg_layer2. Qed.

Lemma get_l2_upd_l2 j i f (w : world) :
  get_l2 j (upd_l2 i f w) =
  if decide (i = j) then f <$> get_l2 j w else get_l2 j w.
Proof.
  unfold get_l2, upd_l2; simpl. rewrite list_lookup_alter.
  by case_decide; subst.
Qed.

Lemma get_l2_upd_tm j i f (w : world) :
  get_l2 j (upd_tm i f w) =
  if decide (i = j) then (fun l2 => set_tm (f (tm l2)) l2) <$> get_l2 j w
  else get_l2 j w.
Proof. apply get_l2_upd_l2. Qed.

Lemma get_l2_emit j o (w : world) : get_l2 j (emit o w) = get_l2 j w.
Proof. done. Qed.

Lemma get_l2_random_ri j (w : world) : get_l2 j (random_ri w).2 = get_l2 j w.
Proof. done. Qed.

Lemma get_l2_tei_l2 j i cmd arg (w : world) :
  get_l2 j (tei_l2 i cmd arg w) =
  match cmd with
  | MDL_ASSIGN_REQ => if decide (i = j) then set_tei arg <$> get_l2 j w else get_l2 j w
  | _ => get_l2 j w
  end.
Proof. unfold tei_l2. destruct cmd; try done. by rewrite get_l2_upd_l2. Qed.

(** ** The timer invariant *)

Lemma get_l2_world j (w : world) e :
  get_l2 j {| mgr := mgr w; inflight := inflight w; out := out w;
              entropy := e; recv_rc := recv_rc w |} = get_l2 j w.
Proof. done. Qed.


Lemma inv_timer_but_weaken i (w : world) : inv_timer w -> inv_timer_but i w.
Proof. intros H j l2 _. apply H. Qed.

Ltac open_routine :=
  repeat match goal with
  | H : get_l2 ?i ?w = _ |- context [match get_l2 ?i ?w with _ => _ end] => rewrite H
  | |- context [match get_l2 ?i ?w with _ => _ end] => destruct (get_l2 i w) eqn:?
  | |- context [match findtei ?m ?t with _ => _ end] => destruct (findtei m t) eqn:?
  | |- context [if ?c then _ else _] => destruct c eqn:?
  end.

Ltac session_lookup H :=
  unfold mISDN_FsmChangeState, mISDN_FsmAddTimer, mISDN_FsmDelTimer,
    random_ri, get_random in H;
  cbv beta iota zeta in H;
  repeat first
    [ rewrite get_l2_upd_tm in H | rewrite get_l2_upd_l2 in H
    | rewrite get_l2_put_tei_msg in H | rewrite get_l2_tei_l2 in H
    | rewrite get_l2_emit in H | rewrite get_l2_world in H ].

Ltac timer_goal :=
  unfold timer_ok in *; simpl in *; intuition (try discriminate; try congruence).

(** After a routine that touches only the session [fi]: the other sessions
    are as before, and the session [fi] is looked at. *)
Ltac routine_timer Hbut Hl2 :=
  let j := fresh "j" in let l2' := fresh "l2'" in let Hj := fresh "Hj" in
  intros j l2' Hj; session_lookup Hj;
  repeat case_decide; subst;
  try (rewrite Hl2 in Hj; simpl in Hj; injection Hj as <-);
  first [ by eapply Hbut
        | by match goal with H : inv_timer _ |- _ => eapply H end
        | timer_goal ].

Lemma tei_id_request_timer d fi ev arg (w : world) :
  inv_timer w -> inv_timer (tei_id_request d fi ev arg w).
Proof.
  intros Hinv. unfold tei_id_request. open_routine; try done.
  routine_timer (inv_timer_but_weaken fi w Hinv) Heqo.
Qed.

Lemma tei_assign_req_timer d fi ev arg (w : world) l2 :
  get_l2 fi w = Some l2 -> tei_m_state (tm l2) = ST_TEI_NOP ->
  inv_timer w -> inv_timer (tei_assign_req d fi ev arg w).
Proof.
  intros Hl2 Hs Hinv. unfold tei_assign_req. open_routine; try done.
  pose proof (Hinv _ _ Hl2).
  routine_timer (inv_timer_but_weaken fi w Hinv) Hl2.
Qed.

Lemma tei_id_assign_timer d fi ev arg (w : world) :
  inv_timer w -> inv_timer (tei_id_assign d fi ev arg w).
Proof.
  intros Hinv. unfold tei_id_assign. open_routine; try done;
    routine_timer (inv_timer_but_weaken fi w Hinv) Heqo.
Qed.


Lemma tei_id_test_dup_timer d fi ev arg (w : world) :
  keeps_timer d -> inv_timer w -> inv_timer (tei_id_test_dup d fi ev arg w).
Proof.
  intros Hd Hinv. unfold tei_id_test_dup. open_routine; try done.
  by apply Hd.
Qed.

Lemma tei_id_chk_req_timer d fi ev arg (w : world) :
  inv_timer w -> inv_timer (tei_id_chk_req d fi ev arg w).
Proof.
  intros Hinv. unfold tei_id_chk_req. open_routine; try done.
  routine_timer (inv_timer_but_weaken fi w Hinv) Heqo.
Qed.

Lemma tei_id_remove_timer d fi ev arg (w : world) :
  inv_timer w -> inv_timer (tei_id_remove d fi ev arg w).
Proof.
  intros Hinv. unfold tei_id_remove. open_routine; try done.
  routine_timer (inv_timer_but_weaken fi w Hinv) Heqo.
Qed.

Lemma tei_id_verify_timer d fi ev arg (w : world) :
  inv_timer w -> inv_timer (tei_id_verify d fi ev arg w).
Proof.
  intros Hinv. unfold tei_id_verify. open_routine; try done.
  routine_timer (inv_timer_but_weaken fi w Hinv) Heqo.
Qed.

(** The two time-out routines run when the timer has fired: it is no
    longer pending, and the session is in the state that armed it. *)
Lemma tei_id_req_tout_timer d fi ev arg (w : world) l2 :
  get_l2 fi w = Some l2 -> tei_m_state (tm l2) = ST_TEI_IDREQ ->
  timer_pending (tm l2) = false ->
  inv_timer_but fi w -> inv_timer (tei_id_req_tout d fi ev arg w).
Proof.
  intros Hl2 Hs Hp Hbut. unfold tei_id_req_tout. open_routine; try done;
    routine_timer Hbut Hl2.
Qed.

Lemma tei_id_ver_tout_timer d fi ev arg (w : world) l2 :
  get_l2 fi w = Some l2 -> tei_m_state (tm l2) = ST_TEI_IDVERIFY ->
  timer_pending (tm l2) = false ->
  inv_timer_but fi w -> inv_timer (tei_id_ver_tout d fi ev arg w).
Proof.
  intros Hl2 Hs Hp Hbut. unfold tei_id_ver_tout. open_routine; try done;
    routine_timer Hbut Hl2.
Qed.

Lemma FsmEvent_n_timer n : keeps_timer (mISDN_FsmEvent_n n).
Proof.
  induction n as [|n IH]; intros fi ev arg w Hev Hinv; simpl; [done|].
  destruct (get_l2 fi w) as [l2|] eqn:Hl2; [|done].
  destruct (tei_m_state (tm l2)) eqn:Hs, ev; simpl; try done.
  - by apply tei_id_request_timer.
  - by apply tei_id_test_dup_timer.
  - by eapply tei_assign_req_timer.
  - by apply tei_id_chk_req_timer.
  - by apply tei_id_remove_timer.
  - by apply tei_id_verify_timer.
  - by apply tei_id_assign_timer.
  - by apply tei_id_chk_req_timer.
  - by apply tei_id_remove_timer.
Qed.

Lemma FsmEvent_timer : keeps_timer mISDN_FsmEvent.
Proof. apply FsmEvent_n_timer. Qed.

Lemma FsmExpireTimer_timer fi (w : world) :
  inv_timer w -> inv_timer (FsmExpireTimer fi w).
Proof.
  intros Hinv. unfold FsmExpireTimer, mISDN_FsmEvent. simpl.
  set (w1 := upd_tm fi (set_timer false) w).
  destruct (get_l2 fi w) as [l2|] eqn:Hl2.
  2:{ assert (get_l2 fi w1 = None) as ->.
      { subst w1. rewrite get_l2_upd_tm, Hl2. by case_decide. }
      intros j l2' Hj. subst w1. session_lookup Hj.
      case_decide; subst; [by rewrite Hl2 in Hj | by eapply Hinv]. }
  assert (Hl1 : get_l2 fi w1 = Some (set_tm (set_timer false (tm l2)) l2)).
  { subst w1. rewrite get_l2_upd_tm, Hl2. by case_decide. }
  assert (Hbut : inv_timer_but fi w1).
  { intros j l2' Hne Hj. subst w1. rewrite get_l2_upd_tm in Hj.
    case_decide; [congruence|]. by eapply Hinv. }
  rewrite Hl1. pose proof (Hinv _ _ Hl2) as Hok.
  destruct (tei_m_state (tm l2)) eqn:Hs; simpl; rewrite Hs; simpl.
  - intros j l2' Hj. destruct (decide (j = fi)) as [->|Hne]; [|by eapply Hbut].
    rewrite Hl1 in Hj. injection Hj as <-. timer_goal.
  - by eapply tei_id_req_tout_timer.
  - by eapply tei_id_ver_tout_timer.
Qed.

Lemma inv_timer_Forall (w : world) :
  inv_timer w <-> Forall (fun l2 => timer_ok (tm l2)) (mgr_layer2 (mgr w)).
Proof. unfold inv_timer, get_l2. by rewrite Forall_lookup. Qed.

Lemma inv_timer_same (w w' : world) :
  mgr_layer2 (mgr w') = mgr_layer2 (mgr w) -> inv_timer w -> inv_timer w'.
Proof. rewrite !inv_timer_Forall. by intros ->. Qed.

Lemma inv_timer_tei_ph_data_ind i mt dp len (w : world) :
  inv_timer w -> inv_timer (tei_ph_data_ind i mt dp len w).
Proof.
  intros Hinv. unfold tei_ph_data_ind. open_routine; try done;
    by apply FsmEvent_timer.
Qed.

Lemma inv_timer_fold (f : nat -> world -> world) (l : list nat) (w : world) :
  (forall i w, inv_timer w -> inv_timer (f i w)) ->
  inv_timer w -> inv_timer (fold_left (fun w i => f i w) l w).
Proof. intros Hf. revert w. induction l; simpl; auto. Qed.

Lemma inv_timer_ph_data_ind skb (w : world) :
  inv_timer w -> inv_timer (ph_data_ind skb w).2.
Proof.
  intros Hinv. unfold ph_data_ind, new_tei_req, for_each_layer2.
  open_routine; simpl; auto using inv_timer_fold, inv_timer_tei_ph_data_ind.
Qed.

Lemma dl_unit_data_layer2 skb (w : world) :
  mgr_layer2 (mgr (dl_unit_data skb w).2) = mgr_layer2 (mgr w).
Proof.
  unfold dl_unit_data.
  destruct (test_bit MGR_OPT_NETWORK (options (mgr w))); cbn [negb]; [|done].
  set (w1 := if negb (test_bit MGR_PH_ACTIVE (options (mgr w)))
             then queue_PH_ACTIVATE_REQ w else w).
  assert (Hw1 : mgr_layer2 (mgr w1) = mgr_layer2 (mgr w)).
  { subst w1. by destruct (negb _). }
  destruct (new_id_fields (mgr w1)) as (_ & _ & _ & Hl & _).
  destruct (new_id (mgr w1)) as [id m]. cbn [fst snd] in *.
  match goal with |- context [do_send ?w] =>
    destruct (do_send_layer2 w) as [-> _] end.
  simpl. congruence.
Qed.

Lemma inv_timer_mgr_send skb (w : world) :
  inv_timer w -> inv_timer (mgr_send skb (transport_up skb w)).2.
Proof.
  intros Hinv.
  assert (Hw : inv_timer (transport_up skb w)).
  { eapply inv_timer_same; [|exact Hinv]. unfold transport_up.
    by destruct (head_prim skb). }
  unfold mgr_send. destruct (head_prim skb) eqn:Hp; cbn [snd]; try done.
  - by apply inv_timer_ph_data_ind.
  - eapply inv_timer_same; [|exact Hw]. apply do_ack_layer2.
  - eapply inv_timer_same; [|exact Hw].
    match goal with |- context [do_send ?w] =>
      destruct (do_send_layer2 w) as [-> _] end. done.
  - eapply inv_timer_same; [|exact Hw]. apply dl_unit_data_layer2.
Qed.

Lemma delete_alter {A} (f : A -> A) (i : nat) (l : list A) :
  delete i (alter f i l) = delete i l.
Proof.
  revert i. induction l as [|x l IH]; intros [|i]; simpl; try done.
  f_equal. apply IH.
Qed.

Lemma inv_timer_init nrb rnd rcs : inv_timer (init_world nrb rnd rcs).
Proof. intros i l2 Hi. done. Qed.

Lemma inv_timer_step (w w' : world) : step w w' -> inv_timer w -> inv_timer w'.
Proof.
  intros Hs Hinv. destruct Hs.
  - by apply inv_timer_mgr_send.
  - unfold mgr_ctrl, create_teimgr. destruct cmd; [|done].
    repeat match goal with
    | |- context [if ?c then _ else _] => destruct c
    | |- context [match ?c with Some _ => _ | None => _ end] => destruct c
    end; cbn [snd]; try done;
    (apply inv_timer_Forall; simpl; apply Forall_app; split;
     [ by apply inv_timer_Forall
     | apply Forall_singleton; unfold timer_ok; simpl;
       split; [done|]; intros [|]; done ]).
  - unfold release_tei, mISDN_FsmDelTimer, upd_tm, upd_l2.
    apply inv_timer_Forall; simpl. rewrite delete_alter.
    apply Forall_delete. by apply inv_timer_Forall.
  - unfold l2_tei. destruct (get_l2 i w) as [l2|] eqn:Hl2; [|done].
    destruct cmd; cbn [snd]; try done; open_routine; cbn [snd]; try done;
      try (by apply FsmEvent_timer).
    pose proof (Hinv _ _ Hl2).
    routine_timer (inv_timer_but_weaken i w Hinv) Hl2.
  - by apply FsmExpireTimer_timer.
  - by apply FsmEvent_timer.
Qed.

Lemma inv_timer_reachable (w : world) : reachable w -> inv_timer w.
Proof.
  induction 1; [apply inv_timer_init | by eapply inv_timer_step].
Qed.

(** ** What a routine emits *)

Lemma emitted_same (w w' : world) :
  out w' = out w -> sendq (mgr w') = sendq (mgr w) -> emitted w w' [] [].
Proof.
  intros Ho Hq. exists []. rewrite Ho, Hq, !app_nil_r. done.
Qed.

Lemma emitted_refl (w : world) : emitted w w [] [].
Proof. by apply emitted_same. Qed.

Lemma emitted_trans (w1 w2 w3 : world) f1 n1 f2 n2 :
  emitted w1 w2 f1 n1 -> emitted w2 w3 f2 n2 ->
  emitted w1 w3 (f1 ++ f2) (n1 ++ n2).
Proof.
  intros (e1 & Ho1 & Hn1 & Hq1) (e2 & Ho2 & Hn2 & Hq2). exists (e1 ++ e2).
  split_and!.
  - by rewrite Ho2, Ho1, app_assoc.
  - unfold notes in *. by rewrite omap_app, Hn1, Hn2.
  - unfold handed in *. rewrite omap_app, <- app_assoc, Hq2, !app_assoc.
    by rewrite Hq1.
Qed.

Lemma emitted_do_send (w : world) : emitted w (do_send w) [] [].
Proof.
  unfold do_send, ch_recv; cbn.
  repeat match goal with
  | |- context [if ?c then _ else _] => destruct c
  | |- context [match sendq ?m with _ => _ end] => destruct (sendq m) eqn:?
  end; try (by apply emitted_same);
  (eexists [_]; simpl; split_and!; [done..|]; by rewrite app_nil_r).
Qed.

Lemma emitted_mgr_send_down skb (w : world) :
  emitted w (mgr_send_down skb w) [skb] [].
Proof.
  unfold mgr_send_down.
  match goal with |- context [if ?c then _ else _] => destruct c end.
  - exists [Out_activate_req]. done.
  - change [skb] with ([skb] ++ []). change (@nil output) with (@nil output ++ []).
    eapply emitted_trans; [|apply emitted_do_send].
    exists []. simpl. by rewrite app_nil_r.
Qed.

Lemma tei_frame_nextid (m m' : mISDNmanager) l2flag m_id r t :
  nextid m' = nextid m -> tei_frame m' l2flag m_id r t = tei_frame m l2flag m_id r t.
Proof. unfold tei_frame, new_id. simpl. by intros ->. Qed.

Lemma emitted_put_tei_msg i m_id r t (w : world) l2 :
  get_l2 i w = Some l2 ->
  emitted w (put_tei_msg i m_id r t w) [tei_frame (mgr w) (flag l2) m_id r t] [].
Proof.
  intros Hl2. unfold put_tei_msg, tei_frame. rewrite Hl2.
  destruct (new_id_fields (mgr w)) as (_ & _ & Hq & _).
  destruct (new_id (mgr w)) as [id m]. cbn [fst snd _alloc_mISDN_skb] in *.
  destruct (emitted_mgr_send_down
    {| head_prim := PH_DATA_REQ; head_id := id; data := tei_msg_bp (flag l2) m_id r t |}
    (upd_mgr (fun _ => m) w)) as (evs & Ho & Hn & Hs).
  exists evs. simpl in *. rewrite Hq in Hs. done.
Qed.

Lemma emitted_tei_l2 i cmd arg (w : world) :
  emitted w (tei_l2 i cmd arg w) [] [Out_tei_l2 i cmd arg].
Proof.
  exists [Out_tei_l2 i cmd arg]. unfold tei_l2.
  destruct cmd; simpl; by rewrite app_nil_r.
Qed.

Lemma emitted_upd_l2 (w w' : world) i f fr ns :
  emitted w w' fr ns -> emitted w (upd_l2 i f w') fr ns.
Proof. intros (evs & ? & ? & ?). by exists evs. Qed.

Lemma emitted_upd_tm (w w' : world) i f fr ns :
  emitted w w' fr ns -> emitted w (upd_tm i f w') fr ns.
Proof. apply emitted_upd_l2. Qed.

Lemma emitted_then_put (w w' : world) m0 i m_id r t l2 fr ns :
  get_l2 i w' = Some l2 -> nextid (mgr w') = nextid m0 ->
  emitted w w' fr ns ->
  emitted w (put_tei_msg i m_id r t w')
    (fr ++ [tei_frame m0 (flag l2) m_id r t]) ns.
Proof.
  intros Hl2 Hn H1. rewrite <- (app_nil_r ns).
  rewrite <- (tei_frame_nextid _ _ _ _ _ _ Hn).
  eapply emitted_trans; [exact H1 | by apply emitted_put_tei_msg].
Qed.

Lemma emitted_then_tei_l2 (w w' : world) i cmd arg fr ns :
  emitted w w' fr ns ->
  emitted w (tei_l2 i cmd arg w') fr (ns ++ [Out_tei_l2 i cmd arg]).
Proof.
  intros H1. rewrite <- (app_nil_r fr).
  eapply emitted_trans; [exact H1 | apply emitted_tei_l2].
Qed.

Lemma emitted_entropy (w : world) e :
  emitted w {| mgr := mgr w; inflight := inflight w; out := out w;
               entropy := e; recv_rc := recv_rc w |} [] [].
Proof. by apply emitted_same. Qed.

Lemma FsmEvent_run i ev arg (w : world) l2 :
  get_l2 i w = Some l2 ->
  mISDN_FsmEvent i ev arg w =
  match jump TeiFnList (tei_m_state (tm l2)) ev with
  | Some r => r (mISDN_FsmEvent_n 1) i ev arg w
  | None => w
  end.
Proof. intros Hl2. unfold mISDN_FsmEvent. simpl. by rewrite Hl2. Qed.

Lemma FsmEvent_n_verify n i arg (w : world) :
  mISDN_FsmEvent_n (S n) i EV_VERIFY arg w = mISDN_FsmEvent_n 1 i EV_VERIFY arg w.
Proof.
  simpl. destruct (get_l2 i w) as [l2|]; [|done].
  by destruct (tei_m_state (tm l2)).
Qed.

(** The nesting bound of [mISDN_FsmEvent] is enough: a deeper dispatcher
    behaves the same. *)
Lemma mISDN_FsmEvent_depth n i ev arg (w : world) :
  mISDN_FsmEvent_n (S (S n)) i ev arg w = mISDN_FsmEvent i ev arg w.
Proof.
  unfold mISDN_FsmEvent.
  change (mISDN_FsmEvent_n (S (S n)) i ev arg w) with
    match get_l2 i w with
    | None => w
    | Some l2 =>
        match jump TeiFnList (tei_m_state (tm l2)) ev with
        | Some r => r (mISDN_FsmEvent_n (S n)) i ev arg w
        | None => w
        end
    end.
  change (mISDN_FsmEvent_n 2 i ev arg w) with
    match get_l2 i w with
    | None => w
    | Some l2 =>
        match jump TeiFnList (tei_m_state (tm l2)) ev with
        | Some r => r (mISDN_FsmEvent_n 1) i ev arg w
        | None => w
        end
    end.
  pose proof (FsmEvent_n_verify n) as Hd.
  set (d1 := mISDN_FsmEvent_n (S n)) in *.
  set (d2 := mISDN_FsmEvent_n 1) in *. clearbody d1 d2.
  destruct (get_l2 i w) as [l2|]; [|done].
  destruct (tei_m_state (tm l2)), ev; simpl; try done.
  unfold tei_id_test_dup. open_routine; done.
Qed.

(** *** Starting the assignment *)

Lemma idreq_start i (w : world) l2 :
  get_l2 i w = Some l2 -> tei_m_state (tm l2) = ST_TEI_NOP ->
  tei l2 = GROUP_TEI ->
  let r := u16 (entropy w 0%nat) in
  let w1 := mISDN_FsmEvent i EV_IDREQ [] w in
  get_l2 i w1 = Some (set_tm {| ri := r; nval := 3; tval := tval (tm l2);
                                tei_m_state := ST_TEI_IDREQ;
                                timer_pending := true |} l2)
  /\ emitted w w1 [tei_frame (mgr w) (flag l2) ID_REQUEST r GROUP_TEI] []
  /\ entropy w1 = (fun n => entropy w (S n)).
Proof.
  intros Hl2 Hs Ht. cbv zeta. rewrite (FsmEvent_run _ _ _ _ _ Hl2), Hs. simpl.
  unfold tei_id_request. rewrite Hl2, Ht. simpl.
  unfold random_ri, get_random, mISDN_FsmChangeState, mISDN_FsmAddTimer.
  cbv beta iota zeta.
  split_and!.
  - repeat first [ rewrite get_l2_upd_tm | rewrite get_l2_put_tei_msg
                 | rewrite get_l2_world ].
    case_decide; [|done]. rewrite Hl2. done.
  - repeat apply emitted_upd_tm.
    eapply (emitted_then_put _ _ (mgr w) _ _ _ _
              (set_tm (set_ri (u16 (entropy w 0%nat)) (tm l2)) l2) [] []);
      [|done|apply emitted_upd_tm, emitted_entropy].
    rewrite get_l2_upd_tm, get_l2_world, Hl2. by case_decide.
  - simpl. by rewrite put_tei_msg_entropy.
Qed.

(** *** The time-outs *)

#[local] Arguments upd_tm : simpl never.
#[local] Arguments upd_l2 : simpl never.
#[local] Arguments random_ri : simpl never.
#[local] Arguments tei_l2 : simpl never.

Lemma random_ri_eta (w : world) :
  random_ri w = (u16 (entropy w 0%nat), (random_ri w).2).
Proof. done. Qed.

Lemma random_ri_entropy (w : world) :
  entropy (random_ri w).2 = (fun n => entropy w (S n)).
Proof. done. Qed.

Lemma emitted_random_ri (w w' : world) fr ns :
  emitted w w' fr ns -> emitted w (random_ri w').2 fr ns.
Proof. intros (evs & ? & ? & ?). by exists evs. Qed.

Lemma FsmExpireTimer_run i (w : world) l2 :
  get_l2 i w = Some l2 ->
  FsmExpireTimer i w =
  match jump TeiFnList (tei_m_state (tm l2)) EV_TIMER with
  | Some r => r (mISDN_FsmEvent_n 1) i EV_TIMER [] (upd_tm i (set_timer false) w)
  | None => upd_tm i (set_timer false) w
  end.
Proof.
  intros Hl2. unfold FsmExpireTimer.
  assert (Hl1 : get_l2 i (upd_tm i (set_timer false) w)
                = Some (set_tm (set_timer false (tm l2)) l2)).
  { rewrite get_l2_upd_tm, Hl2. by case_decide. }
  by rewrite (FsmEvent_run _ _ _ _ _ Hl1).
Qed.

Ltac record_eq :=
  unfold upd_tm, upd_l2, set_tm, set_tei, set_timer, set_ri, set_nval, set_state;
  simpl; try done; congruence.

Ltac entropy_goal :=
  unfold mISDN_FsmChangeState, mISDN_FsmAddTimer, mISDN_FsmDelTimer,
    upd_tm, upd_l2, tei_l2;
  repeat (simpl; rewrite ?put_tei_msg_entropy, ?random_ri_entropy);
  try done.

Ltac session_goal Hl2 :=
  unfold mISDN_FsmChangeState, mISDN_FsmAddTimer, mISDN_FsmDelTimer;
  repeat first
    [ rewrite get_l2_upd_tm | rewrite get_l2_upd_l2
    | rewrite get_l2_put_tei_msg | rewrite get_l2_tei_l2
    | rewrite get_l2_emit | rewrite get_l2_world | rewrite get_l2_random_ri ];
  repeat case_decide; try done; rewrite ?Hl2; try done.

Lemma req_tout_again i (w : world) l2 :
  get_l2 i w = Some l2 -> tei_m_state (tm l2) = ST_TEI_IDREQ ->
  nval (tm l2) - 1 <> 0 ->
  let r := u16 (entropy w 0%nat) in
  let w' := FsmExpireTimer i w in
  get_l2 i w' = Some (set_tm {| ri := r; nval := nval (tm l2) - 1;
                                tval := tval (tm l2);
                                tei_m_state := ST_TEI_IDREQ;
                                timer_pending := true |} l2)
  /\ emitted w w' [tei_frame (mgr w) (flag l2) ID_REQUEST r GROUP_TEI] []
  /\ entropy w' = (fun n => entropy w (S n)).
Proof.
  intros Hl2 Hs Hn. cbv zeta. rewrite (FsmExpireTimer_run _ _ _ Hl2), Hs. simpl.
  assert (Hl1 : get_l2 i (upd_tm i (set_timer false) w)
                = Some (set_tm (set_timer false (tm l2)) l2)).
  { rewrite get_l2_upd_tm, Hl2. by case_decide. }
  unfold tei_id_req_tout. rewrite Hl1. cbn.
  destruct (Z.eqb_spec (nval (tm l2) - 1) 0) as [|_]; [done|]. cbn.
  rewrite random_ri_eta. cbn.
  split_and!.
  - session_goal Hl2; record_eq.
  - unfold mISDN_FsmAddTimer. apply emitted_upd_tm.
    eapply (emitted_then_put _ _ (mgr w) _ _ _ _
              (set_tm (set_ri (u16 (entropy w 0%nat))
                 (set_nval (nval (tm l2) - 1) (set_timer false (tm l2)))) l2) [] []);
      [|done|apply emitted_upd_tm, emitted_random_ri, emitted_upd_tm,
              emitted_upd_tm, emitted_refl].
    session_goal Hl2.
  - entropy_goal.
Qed.

Lemma req_tout_last i (w : world) l2 :
  get_l2 i w = Some l2 -> tei_m_state (tm l2) = ST_TEI_IDREQ ->
  nval (tm l2) - 1 = 0 ->
  let w' := FsmExpireTimer i w in
  get_l2 i w' = Some (set_tm {| ri := ri (tm l2); nval := 0;
                                tval := tval (tm l2);
                                tei_m_state := ST_TEI_NOP;
                                timer_pending := false |} l2)
  /\ emitted w w' [] [AssignmentFailed i]
  /\ entropy w' = entropy w.
Proof.
  intros Hl2 Hs Hn. cbv zeta. rewrite (FsmExpireTimer_run _ _ _ Hl2), Hs. simpl.
  assert (Hl1 : get_l2 i (upd_tm i (set_timer false) w)
                = Some (set_tm (set_timer false (tm l2)) l2)).
  { rewrite get_l2_upd_tm, Hl2. by case_decide. }
  unfold tei_id_req_tout. rewrite Hl1. cbn. rewrite Hn. cbn.
  split_and!.
  - session_goal Hl2; record_eq.
  - unfold mISDN_FsmChangeState. apply emitted_upd_tm.
    apply (emitted_then_tei_l2 _ _ _ _ _ [] []).
    apply emitted_upd_tm, emitted_upd_tm, emitted_refl.
  - done.
Qed.

Lemma ver_tout_again i (w : world) l2 :
  get_l2 i w = Some l2 -> tei_m_state (tm l2) = ST_TEI_IDVERIFY ->
  nval (tm l2) - 1 <> 0 ->
  let w' := FsmExpireTimer i w in
  get_l2 i w' = Some (set_tm {| ri := ri (tm l2); nval := nval (tm l2) - 1;
                                tval := tval (tm l2);
                                tei_m_state := ST_TEI_IDVERIFY;
                                timer_pending := true |} l2)
  /\ emitted w w' [tei_frame (mgr w) (flag l2) ID_VERIFY 0 (tei l2)] []
  /\ entropy w' = entropy w.
Proof.
  intros Hl2 Hs Hn. cbv zeta. rewrite (FsmExpireTimer_run _ _ _ Hl2), Hs. simpl.
  assert (Hl1 : get_l2 i (upd_tm i (set_timer false) w)
                = Some (set_tm (set_timer false (tm l2)) l2)).
  { rewrite get_l2_upd_tm, Hl2. by case_decide. }
  unfold tei_id_ver_tout. rewrite Hl1. cbn.
  destruct (Z.eqb_spec (nval (tm l2) - 1) 0) as [|_]; [done|]. cbn.
  split_and!.
  - session_goal Hl2; record_eq.
  - unfold mISDN_FsmAddTimer. apply emitted_upd_tm.
    eapply (emitted_then_put _ _ (mgr w) _ _ _ _
              (set_tm (set_nval (nval (tm l2) - 1) (set_timer false (tm l2))) l2) [] []);
      [|done|apply emitted_upd_tm, emitted_upd_tm, emitted_refl].
    session_goal Hl2.
  - entropy_goal.
Qed.

Lemma ver_tout_last i (w : world) l2 :
  get_l2 i w = Some l2 -> tei_m_state (tm l2) = ST_TEI_IDVERIFY ->
  nval (tm l2) - 1 = 0 ->
  let w' := FsmExpireTimer i w in
  get_l2 i w' = Some (set_tm {| ri := ri (tm l2); nval := 0;
                                tval := tval (tm l2);
                                tei_m_state := ST_TEI_NOP;
                                timer_pending := false |} l2)
  /\ emitted w w' [] [RemovalRequested i]
  /\ entropy w' = entropy w.
Proof.
  intros Hl2 Hs Hn. cbv zeta. rewrite (FsmExpireTimer_run _ _ _ Hl2), Hs. simpl.
  assert (Hl1 : get_l2 i (upd_tm i (set_timer false) w)
                = Some (set_tm (set_timer false (tm l2)) l2)).
  { rewrite get_l2_upd_tm, Hl2. by case_decide. }
  unfold tei_id_ver_tout. rewrite Hl1. cbn. rewrite Hn. cbn.
  split_and!.
  - session_goal Hl2; record_eq.
  - unfold mISDN_FsmChangeState. apply emitted_upd_tm.
    apply (emitted_then_tei_l2 _ _ _ _ _ [] []).
    apply emitted_upd_tm, emitted_upd_tm, emitted_refl.
  - done.
Qed.


(** *** Requesting an identity *)

Lemma idreq_noop i (w : world) l2 :
  get_l2 i w = Some l2 -> tei_m_state (tm l2) = ST_TEI_NOP ->
  tei l2 <> GROUP_TEI -> mISDN_FsmEvent i EV_IDREQ [] w = w.
Proof.
  intros Hl2 Hs Ht. rewrite (FsmEvent_run _ _ _ _ _ Hl2), Hs. simpl.
  unfold tei_id_request. rewrite Hl2.
  by destruct (Z.eqb_spec (tei l2) GROUP_TEI).
Qed.

Lemma idreq_three_timeouts i (w : world) l2 :
  get_l2 i w = Some l2 -> tei_m_state (tm l2) = ST_TEI_NOP ->
  tei l2 = GROUP_TEI ->
  let r1 := u16 (entropy w 0%nat) in
  let r2 := u16 (entropy w 1%nat) in
  let r3 := u16 (entropy w 2%nat) in
  let session r n s p :=
    Some (set_tm {| ri := r; nval := n; tval := tval (tm l2);
                    tei_m_state := s; timer_pending := p |} l2) in
  let w1 := mISDN_FsmEvent i EV_IDREQ [] w in
  let w2 := FsmExpireTimer i w1 in
  let w3 := FsmExpireTimer i w2 in
  let w4 := FsmExpireTimer i w3 in
  get_l2 i w1 = session r1 3 ST_TEI_IDREQ true
  /\ emitted w w1 [tei_frame (mgr w) (flag l2) ID_REQUEST r1 GROUP_TEI] []
  /\ get_l2 i w2 = session r2 2 ST_TEI_IDREQ true
  /\ emitted w1 w2 [tei_frame (mgr w1) (flag l2) ID_REQUEST r2 GROUP_TEI] []
  /\ get_l2 i w3 = session r3 1 ST_TEI_IDREQ true
  /\ emitted w2 w3 [tei_frame (mgr w2) (flag l2) ID_REQUEST r3 GROUP_TEI] []
  /\ get_l2 i w4 = session r3 0 ST_TEI_NOP false
  /\ emitted w3 w4 [] [AssignmentFailed i].
Proof.
  intros Hl2 Hs Ht. cbv zeta.
  destruct (idreq_start i w l2 Hl2 Hs Ht) as (H1 & E1 & R1).
  set (w1 := mISDN_FsmEvent i EV_IDREQ [] w) in *.
  destruct (req_tout_again i w1 _ H1 eq_refl) as (H2 & E2 & R2); [done|].
  set (w2 := FsmExpireTimer i w1) in *. rewrite R1 in H2, E2.
  destruct (req_tout_again i w2 _ H2 eq_refl) as (H3 & E3 & R3); [done|].
  set (w3 := FsmExpireTimer i w2) in *. rewrite R2, R1 in H3, E3.
  destruct (req_tout_last i w3 _ H3 eq_refl) as (H4 & E4 & R4); [done|].
  split_and!;
    first [exact H1 | exact E1 | exact H2 | exact E2
          | exact H3 | exact E3 | exact H4 | exact E4].
Qed.

(** *** Verifying an identity *)

Lemma verify_two_timeouts i (w : world) l2 :
  get_l2 i w = Some l2 -> tei_m_state (tm l2) = ST_TEI_IDVERIFY ->
  nval (tm l2) = 2 ->
  let session n s p :=
    Some (set_tm {| ri := ri (tm l2); nval := n; tval := tval (tm l2);
                    tei_m_state := s; timer_pending := p |} l2) in
  let w1 := FsmExpireTimer i w in
  let w2 := FsmExpireTimer i w1 in
  get_l2 i w1 = session 1 ST_TEI_IDVERIFY true
  /\ emitted w w1 [tei_frame (mgr w) (flag l2) ID_VERIFY 0 (tei l2)] []
  /\ get_l2 i w2 = session 0 ST_TEI_NOP false
  /\ emitted w1 w2 [] [RemovalRequested i].
Proof.
  intros Hl2 Hs Hn. cbv zeta.
  destruct (ver_tout_again i w l2 Hl2 Hs) as (H1 & E1 & R1); [lia|].
  set (w1 := FsmExpireTimer i w) in *.
  destruct (ver_tout_last i w1 _ H1 eq_refl) as (H2 & E2 & R2);
    [simpl; lia|].
  rewrite Hn in H1.
  split_and!; first [exact H1 | exact E1 | exact H2 | exact E2].
Qed.

(** *** Completing the assignment *)

Lemma assign_complete i (w : world) l2 dp :
  get_l2 i w = Some l2 -> tei_m_state (tm l2) = ST_TEI_IDREQ ->
  dp_ri dp = ri (tm l2) -> findtei (mgr w) (dp_tei dp) = None ->
  let w' := mISDN_FsmEvent i EV_ASSIGN dp w in
  get_l2 i w' =
    Some (set_tei (dp_tei dp)
            (set_tm (set_state ST_TEI_NOP (set_timer false (tm l2))) l2))
  /\ emitted w w' [] [AssignmentComplete i (dp_tei dp)].
Proof.
  intros Hl2 Hs Hr Hf. cbv zeta. rewrite (FsmEvent_run _ _ _ _ _ Hl2), Hs. simpl.
  unfold tei_id_assign. rewrite Hl2, Hf, Hr, Z.eqb_refl.
  split.
  - session_goal Hl2.
  - apply (emitted_then_tei_l2 _ _ _ _ _ [] []).
    unfold mISDN_FsmChangeState, mISDN_FsmDelTimer.
    apply emitted_upd_tm, emitted_upd_tm, emitted_refl.
Qed.

(** *** The duplicate check *)

Lemma verify_other o i (w : world) me :
  o <> i -> get_l2 i w = Some me ->
  get_l2 i (mISDN_FsmEvent o EV_VERIFY [] w) = Some me.
Proof.
  intros Hne Hi. unfold mISDN_FsmEvent. simpl.
  destruct (get_l2 o w) as [l2|] eqn:Ho; [|done].
  destruct (tei_m_state (tm l2)); simpl; try done.
  unfold tei_id_verify. rewrite Ho. session_goal Hi.
Qed.

Lemma duplicate_in_NOP i o (w : world) me other dp :
  get_l2 i w = Some me -> tei_m_state (tm me) = ST_TEI_NOP ->
  findtei (mgr w) (dp_tei dp) = Some o -> get_l2 o w = Some other ->
  ri (tm other) <> dp_ri dp ->
  mISDN_FsmEvent i EV_ASSIGN dp w = mISDN_FsmEvent o EV_VERIFY [] w.
Proof.
  intros Hi Hs Hf Ho Hr. rewrite (FsmEvent_run _ _ _ _ _ Hi), Hs.
  set (d := mISDN_FsmEvent_n 1). simpl.
  unfold tei_id_test_dup. rewrite Hi, Hf, Ho.
  destruct (Z.eqb_spec (dp_ri dp) (ri (tm other))) as [|_]; [congruence|].
  cbn [negb]. subst d. symmetry. apply (FsmEvent_n_verify 1).
Qed.

Lemma duplicate_in_IDREQ i o (w : world) me other dp :
  get_l2 i w = Some me -> tei_m_state (tm me) = ST_TEI_IDREQ ->
  findtei (mgr w) (dp_tei dp) = Some o -> get_l2 o w = Some other ->
  ri (tm other) <> dp_ri dp ->
  mISDN_FsmEvent i EV_ASSIGN dp w = tei_l2 o MDL_ERROR_RSP 0 w.
Proof.
  intros Hi Hs Hf Ho Hr. rewrite (FsmEvent_run _ _ _ _ _ Hi), Hs. simpl.
  unfold tei_id_assign. rewrite Hi, Hf, Ho.
  by destruct (Z.eqb_spec (dp_ri dp) (ri (tm other))) as [|_]; [congruence|].
Qed.

(** *** Entities with a fixed TEI *)

Lemma fixed_tei_discards i (w : world) l2 mt dp len :
  get_l2 i w = Some l2 ->
  test_bit FLG_FIXED_TEI (flag l2) = true ->
  test_bit FLG_LAPD_NET (flag l2) = false ->
  tei_ph_data_ind i mt dp len w = w.
Proof. intros Hl2 Hf Hn. unfold tei_ph_data_ind. by rewrite Hl2, Hf, Hn. Qed.

(** *** Confirmations *)

Lemma do_ack_ignored id (w : world) :
  test_bit MGR_PH_NOTREADY (options (mgr w)) = false \/ id <> lastid (mgr w) ->
  do_ack id w = w.
Proof.
  intros H. unfold do_ack.
  destruct (test_bit MGR_PH_NOTREADY (options (mgr w))); [|done].
  destruct H as [|H]; [done|]. by destruct (Z.eqb_spec id (lastid (mgr w))).
Qed.

Lemma do_ack_chained id (w : world) skb rest :
  test_bit MGR_PH_NOTREADY (options (mgr w)) = true ->
  id = lastid (mgr w) ->
  test_bit MGR_PH_ACTIVE (options (mgr w)) = true ->
  sendq (mgr w) = skb :: rest ->
  let rc := recv_rc w 0%nat in
  let w' := do_ack id w in
  out w' = out w ++ [Out_recv skb rc]
  /\ sendq (mgr w') = rest
  /\ (rc = 0 ->
      lastid (mgr w') = head_id skb /\
      test_bit MGR_PH_NOTREADY (options (mgr w')) = true /\
      inflight w' = inflight w ++ [skb])
  /\ (rc <> 0 ->
      lastid (mgr w') = MISDN_ID_NONE /\
      test_bit MGR_PH_NOTREADY (options (mgr w')) = false /\
      inflight w' = inflight w).
Proof.
  intros Hnr -> Hact Hq. cbv zeta. unfold do_ack, ch_recv.
  rewrite Hnr, Z.eqb_refl, Hact, Hq. cbn.
  destruct (Z.eqb_spec (recv_rc w 0%nat) 0) as [Hrc|Hrc]; cbn.
  - rewrite Hrc. split_and!; done.
  - rewrite test_clear_eq. split_and!; done.
Qed.

Lemma do_ack_queue_empty id (w : world) :
  test_bit MGR_PH_NOTREADY (options (mgr w)) = true ->
  id = lastid (mgr w) ->
  sendq (mgr w) = [] ->
  let w' := do_ack id w in
  lastid (mgr w') = MISDN_ID_NONE
  /\ test_bit MGR_PH_NOTREADY (options (mgr w')) = false
  /\ sendq (mgr w') = [] /\ out w' = out w /\ inflight w' = inflight w.
Proof.
  intros Hnr -> Hq. cbv zeta. unfold do_ack. rewrite Hnr, Z.eqb_refl, Hq.
  destruct (test_bit MGR_PH_ACTIVE (options (mgr w))); cbn;
    by rewrite test_clear_eq.
Qed.

(** ** The frame codec *)

Lemma lor_1_even a : 0 <= a -> Z.even a = true -> Z.lor a 1 = a + 1.
Proof. destruct a as [|[p|p|]|]; simpl; try discriminate; try lia; done. Qed.

Lemma lor_2_mul4 s : 0 <= s -> Z.lor (4 * s) 2 = 4 * s + 2.
Proof. destruct s as [|p|]; simpl; try lia; done. Qed.

Lemma u8_small x : 0 <= x < 256 -> u8 x = x.
Proof. intros. unfold u8. by apply Z.mod_small. Qed.

Lemma u32_small x : 0 <= x < 4294967296 -> u32 x = x.
Proof. intros. unfold u32. by apply Z.mod_small. Qed.

Lemma land_1 x : Z.land x 1 = x mod 2.
Proof. apply (Z.land_ones x 1). lia. Qed.

Lemma land_255 x : Z.land x 255 = x mod 256.
Proof. apply (Z.land_ones x 8). lia. Qed.

Lemma shiftl_1 x : Z.shiftl x 1 = 2 * x.
Proof. rewrite Z.shiftl_mul_pow2 by lia. change (2 ^ 1) with 2. lia. Qed.

Lemma shiftl_2 x : Z.shiftl x 2 = 4 * x.
Proof. rewrite Z.shiftl_mul_pow2 by lia. change (2 ^ 2) with 4. lia. Qed.

Lemma shiftl_8 x : Z.shiftl x 8 = 256 * x.
Proof. rewrite Z.shiftl_mul_pow2 by lia. change (2 ^ 8) with 256. lia. Qed.

Lemma shiftr_1 x : Z.shiftr x 1 = x / 2.
Proof. rewrite Z.shiftr_div_pow2 by lia. done. Qed.

Lemma shiftr_2 x : Z.shiftr x 2 = x / 4.
Proof. rewrite Z.shiftr_div_pow2 by lia. done. Qed.

Lemma shiftr_8 x : Z.shiftr x 8 = x / 256.
Proof. rewrite Z.shiftr_div_pow2 by lia. done. Qed.

Section Codec.
Hypothesis TEI_SAPI_6_bits : 0 <= TEI_SAPI < 64.
Hypothesis UI_control : Z.land (u8 UI) 0xef = UI.

Lemma bp0_ok (l2flag m_id r t : Z) :
  let bp0 := nth 0 (tei_msg_bp l2flag m_id r t) 0 in
  Z.shiftr bp0 2 = TEI_SAPI /\ Z.land bp0 1 = 0.
Proof.
  cbv zeta. unfold tei_msg_bp. cbn [nth].
  rewrite shiftl_2, (u8_small (4 * TEI_SAPI)) by lia.
  destruct (test_bit FLG_LAPD_NET l2flag).
  - rewrite lor_2_mul4 by lia. rewrite u8_small by lia.
    rewrite shiftr_2, land_1. split; Z.div_mod_to_equations; lia.
  - rewrite shiftr_2, land_1. split; Z.div_mod_to_equations; lia.
Qed.

Lemma bp_ri_ok (l2flag m_id r t : Z) :
  0 <= r < 65536 -> dp_ri (skipn 4 (tei_msg_bp l2flag m_id r t)) = r.
Proof.
  intros Hr. unfold tei_msg_bp, dp_ri. cbn [skipn nth].
  rewrite (u32_small r) by lia. rewrite shiftr_8, land_255, shiftl_8.
  rewrite (u8_small (r / 256)) by (Z.div_mod_to_equations; lia).
  rewrite (u8_small (r mod 256)) by (Z.div_mod_to_equations; lia).
  Z.div_mod_to_equations; lia.
Qed.

Lemma bp_tei_ok (l2flag m_id r t : Z) :
  0 <= t <= 127 -> dp_tei (skipn 4 (tei_msg_bp l2flag m_id r t)) = t.
Proof.
  intros Ht. unfold tei_msg_bp, dp_tei. cbn [skipn nth].
  rewrite (u8_small t) by lia. rewrite shiftl_1.
  rewrite lor_1_even; [|lia|by rewrite Z.even_mul].
  rewrite u8_small by lia. rewrite shiftr_1. Z.div_mod_to_equations; lia.
Qed.

Lemma bp_frame_ok (l2flag m_id r t : Z) p id :
  tei_frame_ok {| head_prim := p; head_id := id;
                  data := tei_msg_bp l2flag m_id r t |} = true.
Proof.
  destruct (bp0_ok l2flag m_id r t) as [H0 H0'].
  unfold tei_frame_ok. cbn [data]. rewrite H0, H0', Z.eqb_refl.
  unfold tei_msg_bp. cbn [nth length].
  rewrite UI_control, !Z.eqb_refl. reflexivity.
Qed.

(** C6. For each of the seven message types, every 16-bit reference value
    and every TEI up to 127, the eight octets that [put_tei_msg] builds
    pass all the checks that [ph_data_ind] makes on a frame (length, SAPI,
    EA bits, group TEI, UI control octet, management entity), and the
    message type, the reference value and the TEI read back from them are
    the ones that were encoded. *)
Theorem C6_codec_roundtrip (l2flag mt r t : Z) (p : prim) (id : Z) :
  1 <= mt <= 7 -> 0 <= r < 65536 -> 0 <= t <= 127 ->
  let bp := tei_msg_bp l2flag mt r t in
  length bp = 8%nat
  /\ tei_frame_ok {| head_prim := p; head_id := id; data := bp |} = true
  /\ nth 6 bp 0 = mt
  /\ dp_ri (skipn 4 bp) = r
  /\ dp_tei (skipn 4 bp) = t.
Proof.
  intros Hmt Hr Ht. cbv zeta. split_and!.
  - done.
  - apply bp_frame_ok.
  - unfold tei_msg_bp. cbn [nth]. apply u8_small. lia.
  - by apply bp_ri_ok.
  - by apply bp_tei_ok.
Qed.

End Codec.

(** *** What the verify path tells layer 2 *)

Lemma emitted_then_put_flag (w w' : world) m0 i m_id r t fl fr ns :
  flag <$> get_l2 i w' = Some fl -> nextid (mgr w') = nextid m0 ->
  emitted w w' fr ns ->
  emitted w (put_tei_msg i m_id r t w')
    (fr ++ [tei_frame m0 fl m_id r t]) ns.
Proof.
  destruct (get_l2 i w') as [l2|] eqn:Hl2; [|done]. intros [= <-].
  by apply emitted_then_put.
Qed.

Ltac emitted_chain Hl2 :=
  unfold mISDN_FsmChangeState, mISDN_FsmAddTimer, mISDN_FsmDelTimer;
  repeat match goal with
  | |- emitted ?w ?w _ _ => apply emitted_refl
  | |- emitted _ (upd_tm _ _ _) _ _ => apply emitted_upd_tm
  | |- emitted _ (random_ri _).2 _ _ => apply emitted_random_ri
  | |- emitted _ (tei_l2 _ _ _ _) _ _ => apply emitted_then_tei_l2
  | |- emitted _ (put_tei_msg _ _ _ _ _) _ _ =>
      eapply emitted_then_put_flag;
        [session_goal Hl2; reflexivity | reflexivity |]
  end.

Lemma verify_starts i (w : world) l2 :
  get_l2 i w = Some l2 -> tei_m_state (tm l2) = ST_TEI_NOP ->
  let w' := mISDN_FsmEvent i EV_VERIFY [] w in
  get_l2 i w' = Some (set_tm {| ri := ri (tm l2); nval := 2;
                                tval := tval (tm l2);
                                tei_m_state := ST_TEI_IDVERIFY;
                                timer_pending := true |} l2)
  /\ emitted w w' [tei_frame (mgr w) (flag l2) ID_VERIFY 0 (tei l2)] [].
Proof.
  intros Hl2 Hs. cbv zeta. rewrite (FsmEvent_run _ _ _ _ _ Hl2), Hs. simpl.
  unfold tei_id_verify. rewrite Hl2. split.
  - session_goal Hl2; record_eq.
  - unfold mISDN_FsmChangeState, mISDN_FsmAddTimer.
    do 3 apply emitted_upd_tm.
    by eapply (emitted_then_put _ _ (mgr w) _ _ _ _ l2 [] []);
      [| |apply emitted_refl].
Qed.

Lemma verifying_notes i (w : world) l2 ev arg :
  get_l2 i w = Some l2 -> tei_m_state (tm l2) = ST_TEI_IDVERIFY ->
  exists fr ns,
    emitted w (mISDN_FsmEvent i ev arg w) fr ns /\
    (ns = [] \/ ns = [RemovalRequested i]).
Proof.
  intros Hl2 Hs. rewrite (FsmEvent_run _ _ _ _ _ Hl2), Hs.
  destruct ev; simpl;
    try (exists [], []; split; [apply emitted_refl | by left]).
  - unfold tei_id_chk_req. rewrite Hl2.
    match goal with |- context [if ?c then _ else _] => destruct c end;
      [|exists [], []; split; [apply emitted_refl | by left]].
    rewrite random_ri_eta. cbn [fst snd].
    eexists _, _. split; [emitted_chain Hl2 | by left].
  - unfold tei_id_remove. rewrite Hl2.
    match goal with |- context [if ?c then _ else _] => destruct c end;
      [|exists [], []; split; [apply emitted_refl | by left]].
    eexists _, _. split; [emitted_chain Hl2 | by right].
  - unfold tei_id_ver_tout. rewrite Hl2.
    match goal with |- context [if ?c then _ else _] => destruct c end.
    + eexists _, _. split; [emitted_chain Hl2 | by left].
    + eexists _, _. split; [emitted_chain Hl2 | by right].
Qed.

Lemma verifying_expiry_notes i (w : world) l2 :
  get_l2 i w = Some l2 -> tei_m_state (tm l2) = ST_TEI_IDVERIFY ->
  exists fr ns,
    emitted w (FsmExpireTimer i w) fr ns /\
    (ns = [] \/ ns = [RemovalRequested i]).
Proof.
  intros Hl2 Hs. destruct (decide (nval (tm l2) - 1 = 0)) as [Hn|Hn].
  - destruct (ver_tout_last i w l2 Hl2 Hs Hn) as (_ & E & _).
    eexists _, _. split; [exact E | by right].
  - destruct (ver_tout_again i w l2 Hl2 Hs Hn) as (_ & E & _).
    eexists _, _. split; [exact E | by left].
Qed.

(** ** The claims *)

(** C1. In every reachable world, that is after every handled event, the
    timer of every session is pending if and only if the session is in
    state ST_TEI_IDREQ or ST_TEI_IDVERIFY. *)
Theorem C1_timer_pending_iff_waiting (w : world) :
  reachable w ->
  forall i l2,
    get_l2 i w = Some l2 ->
    (timer_pending (tm l2) = true <->
     tei_m_state (tm l2) = ST_TEI_IDREQ \/ tei_m_state (tm l2) = ST_TEI_IDVERIFY).
Proof. intros Hr. exact (inv_timer_reachable w Hr). Qed.

(** C2. EV_IDREQ on an idle session: with an assigned TEI nothing
    happens; without one, a fresh reference value is drawn, exactly one
    ID_REQUEST(ri, GROUP_TEI) is sent, the session waits in ST_TEI_IDREQ
    with three tries and the timer armed; the first two expiries send the
    request again with a new reference value, the third one tells layer 2
    exactly once that the assignment failed and leaves the session idle,
    its TEI still unassigned. *)
Theorem C2_identity_request i (w : world) l2 :
  get_l2 i w = Some l2 ->
  tei_m_state (tm l2) = ST_TEI_NOP ->
  (tei l2 <> GROUP_TEI -> mISDN_FsmEvent i EV_IDREQ [] w = w)
  /\
  (tei l2 = GROUP_TEI ->
   let r1 := u16 (entropy w 0%nat) in
   let r2 := u16 (entropy w 1%nat) in
   let r3 := u16 (entropy w 2%nat) in
   let session r n s p :=
     Some {| sapi := sapi l2; tei := GROUP_TEI; flag := flag l2;
             tm := {| ri := r; nval := n; tval := tval (tm l2);
                      tei_m_state := s; timer_pending := p |} |} in
   let w1 := mISDN_FsmEvent i EV_IDREQ [] w in
   let w2 := FsmExpireTimer i w1 in
   let w3 := FsmExpireTimer i w2 in
   let w4 := FsmExpireTimer i w3 in
   get_l2 i w1 = session r1 3 ST_TEI_IDREQ true
   /\ emitted w w1 [tei_frame (mgr w) (flag l2) ID_REQUEST r1 GROUP_TEI] []
   /\ get_l2 i w2 = session r2 2 ST_TEI_IDREQ true
   /\ emitted w1 w2 [tei_frame (mgr w1) (flag l2) ID_REQUEST r2 GROUP_TEI] []
   /\ get_l2 i w3 = session r3 1 ST_TEI_IDREQ true
   /\ emitted w2 w3 [tei_frame (mgr w2) (flag l2) ID_REQUEST r3 GROUP_TEI] []
   /\ get_l2 i w4 = session r3 0 ST_TEI_NOP false
   /\ emitted w3 w4 [] [AssignmentFailed i]
   /\ exists frames, emitted w1 w4 frames [AssignmentFailed i]).
Proof.
  intros Hl2 Hs. split; [by apply idreq_noop|]. intros Ht.
  destruct (idreq_three_timeouts i w l2 Hl2 Hs Ht)
    as (H1 & E1 & H2 & E2 & H3 & E3 & H4 & E4).
  cbv zeta. unfold set_tm in *. rewrite Ht in H1, H2, H3, H4.
  split_and!; try done.
  eexists. exact (emitted_trans _ _ _ _ _ _ _ (emitted_trans _ _ _ _ _ _ _ E2 E3) E4).
Qed.

(** C3, amended. In ST_TEI_IDREQ, an ID_ASSIGNED whose reference value is
    the one of the session, and whose TEI [findtei] finds bound to no
    registered entity, cancels the timer, makes the session idle, binds
    the entity to the TEI of the frame and tells layer 2 exactly once
    that the assignment is complete. *)
Theorem C3_assignment_completes i (w : world) l2 dp :
  get_l2 i w = Some l2 ->
  tei_m_state (tm l2) = ST_TEI_IDREQ ->
  dp_ri dp = ri (tm l2) ->
  findtei (mgr w) (dp_tei dp) = None ->
  let w' := mISDN_FsmEvent i EV_ASSIGN dp w in
  exists l2',
    get_l2 i w' = Some l2' /\
    timer_pending (tm l2') = false /\
    tei_m_state (tm l2') = ST_TEI_NOP /\
    tei l2' = dp_tei dp /\
    emitted w w' [] [AssignmentComplete i (dp_tei dp)].
Proof.
  intros Hl2 Hs Hr Hf.
  destruct (assign_complete i w l2 dp Hl2 Hs Hr Hf) as [H1 E1].
  eexists. split; [exact H1|]. split_and!; done.
Qed.

(** C4, amended. An ID_ASSIGNED arrives at a session; [findtei] finds the
    TEI of the frame bound to another registered entity, whose reference
    value differs from the one of the frame. If the receiving session is
    idle, EV_VERIFY is raised on the session of that entity; if it is in
    ST_TEI_IDREQ, layer 2 of that entity is told MDL_ERROR_RSP instead
    and the session of that entity stays as it is. In both cases the
    receiving session keeps its state, its timer and its binding. *)
Theorem C4_duplicate_assignment i o (w : world) me other dp :
  get_l2 i w = Some me ->
  findtei (mgr w) (dp_tei dp) = Some o ->
  o <> i ->
  get_l2 o w = Some other ->
  ri (tm other) <> dp_ri dp ->
  let w' := mISDN_FsmEvent i EV_ASSIGN dp w in
  (tei_m_state (tm me) = ST_TEI_NOP ->
   w' = mISDN_FsmEvent o EV_VERIFY [] w /\ get_l2 i w' = Some me)
  /\
  (tei_m_state (tm me) = ST_TEI_IDREQ ->
   w' = tei_l2 o MDL_ERROR_RSP 0 w /\ get_l2 i w' = Some me /\
   get_l2 o w' = Some other).
Proof.
  intros Hi Hf Hne Ho Hr. cbv zeta. split; intros Hs.
  - rewrite (duplicate_in_NOP i o w me other dp Hi Hs Hf Ho Hr).
    split; [done|]. by apply verify_other.
  - rewrite (duplicate_in_IDREQ i o w me other dp Hi Hs Hf Ho Hr).
    by rewrite !get_l2_tei_l2.
Qed.

(** C5. A session in ST_TEI_IDVERIFY with two tries left: the first
    expiry sends exactly one ID_VERIFY again and arms the timer anew, the
    session stays in ST_TEI_IDVERIFY; the second one tells layer 2
    exactly once to remove the TEI and leaves the session idle. And
    whatever happens on the verify path (EV_VERIFY on an idle session, any
    event or expiry in ST_TEI_IDVERIFY), layer 2 is told nothing, or to
    remove the TEI: never that the assignment failed. *)
Theorem C5_verify_timeouts i (w : world) l2 :
  get_l2 i w = Some l2 ->
  (tei_m_state (tm l2) = ST_TEI_IDVERIFY -> nval (tm l2) = 2 ->
   let session n s p :=
     Some {| sapi := sapi l2; tei := tei l2; flag := flag l2;
             tm := {| ri := ri (tm l2); nval := n; tval := tval (tm l2);
                      tei_m_state := s; timer_pending := p |} |} in
   let w1 := FsmExpireTimer i w in
   let w2 := FsmExpireTimer i w1 in
   get_l2 i w1 = session 1 ST_TEI_IDVERIFY true
   /\ emitted w w1 [tei_frame (mgr w) (flag l2) ID_VERIFY 0 (tei l2)] []
   /\ get_l2 i w2 = session 0 ST_TEI_NOP false
   /\ emitted w1 w2 [] [RemovalRequested i])
  /\
  (tei_m_state (tm l2) = ST_TEI_NOP ->
   exists fr, emitted w (mISDN_FsmEvent i EV_VERIFY [] w) fr [])
  /\
  (tei_m_state (tm l2) = ST_TEI_IDVERIFY ->
   (forall ev arg, exists fr ns,
      emitted w (mISDN_FsmEvent i ev arg w) fr ns /\
      (ns = [] \/ ns = [RemovalRequested i]))
   /\ exists fr ns,
        emitted w (FsmExpireTimer i w) fr ns /\
        (ns = [] \/ ns = [RemovalRequested i])).
Proof.
  intros Hl2. split_and!.
  - intros Hs Hn. exact (verify_two_timeouts i w l2 Hl2 Hs Hn).
  - intros Hs. eexists. exact (proj2 (verify_starts i w l2 Hl2 Hs)).
  - intros Hs. split.
    + intros ev arg. by eapply verifying_notes.
    + by eapply verifying_expiry_notes.
Qed.

(** C7. A frame that passes the checks of [ph_data_ind]: of the types
    ID_ASSIGNED, ID_DENIED, ID_CHK_REQ and ID_REMOVE it is handed to the
    sessions (to every registered one) exactly when the manager has not
    the network option; of the types ID_REQUEST, ID_CHK_RES and ID_VERIFY
    it is processed exactly when the manager has it. At the wrong role
    the frame is rejected with -EINVAL and the world, with every session
    in it, is unchanged. *)
Theorem C7_role_direction (w : world) skb :
  tei_frame_ok skb = true ->
  let mt := nth 6 (data skb) 0 in
  let dp := skipn 4 (data skb) in
  let len := Z.of_nat (length (data skb)) in
  let net := test_bit MGR_OPT_NETWORK (options (mgr w)) in
  let fan_out :=
    for_each_layer2 (fun i => tei_ph_data_ind i mt dp (len - 4)) w in
  (mt = ID_ASSIGNED \/ mt = ID_DENIED \/ mt = ID_CHK_REQ \/ mt = ID_REMOVE ->
   (net = true -> ph_data_ind skb w = (- EINVAL, w)) /\
   (net = false -> ph_data_ind skb w = (0, fan_out)))
  /\
  (mt = ID_REQUEST \/ mt = ID_CHK_RES \/ mt = ID_VERIFY ->
   (net = false -> ph_data_ind skb w = (- EINVAL, w)) /\
   (net = true ->
    ph_data_ind skb w =
    (0, if mt =? ID_REQUEST then new_tei_req dp w else fan_out))).
Proof.
  intros Hok. cbv zeta. unfold ph_data_ind. rewrite Hok. cbn [negb].
  split.
  - intros Hmt. split; intros ->; cbn [negb];
      destruct Hmt as [-> | [-> | [-> | ->]]]; reflexivity.
  - intros Hmt. split; intros ->; cbn [negb];
      destruct Hmt as [-> | [-> | ->]]; reflexivity.
Qed.

(** C9, amended. [do_ack] with an id that is not [lastid], or while
    no frame is outstanding, changes nothing. With the id of the
    outstanding frame: if the queue is empty, NOTREADY and [lastid] are
    cleared; if the link is active and a frame is queued, this frame is
    handed to the transport within the call, and then, if the transport
    takes it, [lastid] is its id and NOTREADY stays set, while if the
    transport refuses it, the frame is dropped and NOTREADY and [lastid]
    are cleared. *)
Theorem C9_confirmation id (w : world) :
  (test_bit MGR_PH_NOTREADY (options (mgr w)) = false \/ id <> lastid (mgr w) ->
   do_ack id w = w)
  /\
  (test_bit MGR_PH_NOTREADY (options (mgr w)) = true ->
   id = lastid (mgr w) ->
   let w' := do_ack id w in
   (sendq (mgr w) = [] ->
    lastid (mgr w') = MISDN_ID_NONE
    /\ test_bit MGR_PH_NOTREADY (options (mgr w')) = false
    /\ sendq (mgr w') = [] /\ out w' = out w /\ inflight w' = inflight w)
   /\
   (forall skb rest,
      test_bit MGR_PH_ACTIVE (options (mgr w)) = true ->
      sendq (mgr w) = skb :: rest ->
      let rc := recv_rc w 0%nat in
      out w' = out w ++ [Out_recv skb rc]
      /\ sendq (mgr w') = rest
      /\ (rc = 0 ->
          lastid (mgr w') = head_id skb /\
          test_bit MGR_PH_NOTREADY (options (mgr w')) = true /\
          inflight w' = inflight w ++ [skb])
      /\ (rc <> 0 ->
          lastid (mgr w') = MISDN_ID_NONE /\
          test_bit MGR_PH_NOTREADY (options (mgr w')) = false /\
          inflight w' = inflight w))).
Proof.
  split; [apply do_ack_ignored|]. intros Hnr Hid. cbv zeta. split.
  - intros Hq. by apply do_ack_queue_empty.
  - intros skb rest Hact Hq. by apply do_ack_chained.
Qed.

(** * Further properties of the code *)

(** ** Properties that every routine of the state machine keeps

    A property of the world that is kept by a change of the registered
    entities, by the drawing of a random number, by a notification of
    layer 2 and by [put_tei_msg] is kept by every routine of [TeiFnList]
    and by the entry points that run them. *)

Section Closure.
Variable P : world -> Prop.
Hypothesis P_layer2 :
  forall f w, P w -> P (upd_mgr (fun m => set_layer2 (f m) m) w).
Hypothesis P_entropy :
  forall e w, P w ->
    P {| mgr := mgr w; inflight := inflight w; out := out w;
         entropy := e; recv_rc := recv_rc w |}.
Hypothesis P_note : forall i cmd arg w, P w -> P (emit (Out_tei_l2 i cmd arg) w).
Hypothesis P_put : forall i m r t w, P w -> P (put_tei_msg i m r t w).

Lemma closed_upd_l2 i f (w : world) : P w -> P (upd_l2 i f w).
Proof. apply (P_layer2 (fun m => alter f i (mgr_layer2 m))). Qed.

Lemma closed_upd_tm i f (w : world) : P w -> P (upd_tm i f w).
Proof. apply closed_upd_l2. Qed.

Lemma closed_random_ri (w : world) : P w -> P (random_ri w).2.
Proof. apply P_entropy. Qed.

Lemma closed_tei_l2 i cmd arg (w : world) : P w -> P (tei_l2 i cmd arg w).
Proof.
  intros H. unfold tei_l2. destruct cmd; auto using closed_upd_l2.
Qed.

Create HintDb closed.
#[local] Hint Resolve closed_upd_l2 closed_upd_tm closed_random_ri closed_tei_l2
  P_put P_note : closed.

Ltac routine_closed :=
  repeat match goal with
  | |- context [match get_l2 ?i ?w with _ => _ end] => destruct (get_l2 i w)
  | |- context [match findtei ?m ?t with _ => _ end] => destruct (findtei m t)
  | |- context [if ?c then _ else _] => destruct c
  | |- context [let '(_, _) := random_ri ?w in _] =>
      pose proof (closed_random_ri w ltac:(eauto 10 with closed));
      destruct (random_ri w); cbn [fst snd] in *
  | _ => progress (unfold mISDN_FsmChangeState, mISDN_FsmAddTimer, mISDN_FsmDelTimer)
  end;
  eauto 10 with closed.

Lemma closed_routine (d : dispatcher) s ev r :
  (forall fi ev arg w, P w -> P (d fi ev arg w)) ->
  jump TeiFnList s ev = Some r ->
  forall fi ev' arg w, P w -> P (r d fi ev' arg w).
Proof.
  intros Hd Hj fi ev' arg w HP.
  destruct s, ev; simpl in Hj; try discriminate; injection Hj as <-;
    unfold tei_id_request, tei_id_test_dup, tei_assign_req, tei_id_verify,
      tei_id_remove, tei_id_chk_req, tei_id_req_tout, tei_id_assign,
      tei_id_denied, tei_id_ver_tout;
    routine_closed.
Qed.

Lemma closed_FsmEvent_n n fi ev arg (w : world) :
  P w -> P (mISDN_FsmEvent_n n fi ev arg w).
Proof.
  revert fi ev arg w. induction n as [|n IH]; intros fi ev arg w HP; [done|].
  cbn [mISDN_FsmEvent_n]. destruct (get_l2 fi w) as [l2|]; [|done].
  destruct (jump TeiFnList (tei_m_state (tm l2)) ev) as [r|] eqn:Hj; [|done].
  by eapply closed_routine.
Qed.

Lemma closed_FsmEvent fi ev arg (w : world) : P w -> P (mISDN_FsmEvent fi ev arg w).
Proof. apply closed_FsmEvent_n. Qed.

Lemma closed_FsmExpireTimer fi (w : world) : P w -> P (FsmExpireTimer fi w).
Proof. intros H. unfold FsmExpireTimer. by apply closed_FsmEvent, closed_upd_tm. Qed.

Lemma closed_tei_ph_data_ind i mt dp len (w : world) :
  P w -> P (tei_ph_data_ind i mt dp len w).
Proof.
  intros H. unfold tei_ph_data_ind.
  repeat match goal with
  | |- context [match get_l2 ?i ?w with _ => _ end] => destruct (get_l2 i w)
  | |- context [if ?c then _ else _] => destruct c
  end; auto using closed_FsmEvent.
Qed.

Lemma closed_fold (f : nat -> world -> world) (l : list nat) (w : world) :
  (forall i w, P w -> P (f i w)) ->
  P w -> P (fold_left (fun w i => f i w) l w).
Proof. intros Hf. revert w. induction l; simpl; auto. Qed.

Lemma closed_ph_data_ind skb (w : world) : P w -> P (ph_data_ind skb w).2.
Proof.
  intros H. unfold ph_data_ind, new_tei_req, for_each_layer2.
  repeat match goal with
  | |- context [if ?c then _ else _] => destruct c
  end; cbn [snd]; auto using closed_fold, closed_tei_ph_data_ind.
Qed.

Lemma closed_l2_tei i cmd arg (w : world) : P w -> P (l2_tei i cmd arg w).2.
Proof.
  intros H. unfold l2_tei. destruct (get_l2 i w); [|done].
  destruct cmd; cbn [snd]; try done;
    match goal with |- context [if ?c then _ else _] => destruct c end;
    cbn [snd]; auto using closed_FsmEvent, closed_tei_l2.
Qed.

Lemma closed_release_tei i (w : world) : P w -> P (release_tei i w).
Proof.
  intros H. unfold release_tei, mISDN_FsmDelTimer.
  apply (P_layer2 (fun m => delete i (mgr_layer2 m))). by apply closed_upd_tm.
Qed.

Lemma closed_mgr_ctrl c kz cmd crq (w : world) : P w -> P (mgr_ctrl c kz cmd crq w).2.
Proof.
  intros H. unfold mgr_ctrl, create_teimgr. destruct cmd; [|done].
  repeat match goal with
  | |- context [if ?c then _ else _] => destruct c
  | |- context [match ?c with Some _ => _ | None => _ end] => destruct c
  end; cbn [snd]; try done;
  match goal with |- P (upd_mgr (fun m => set_layer2 (_ ++ [?x]) m) _) =>
    by apply (P_layer2 (fun m => mgr_layer2 m ++ [x])) end.
Qed.

(** What reaches the manager from the transport. *)
Hypothesis P_inflight :
  forall fl w, P w ->
    P {| mgr := mgr w; inflight := fl; out := out w;
         entropy := entropy w; recv_rc := recv_rc w |}.
Hypothesis P_do_ack : forall id w, P w -> P (do_ack id w).
Hypothesis P_activate :
  forall w, P w ->
    P (do_send (upd_mgr (fun m => set_options (set_bit MGR_PH_ACTIVE (options m)) m) w)).
Hypothesis P_deactivate :
  forall w, P w ->
    P (upd_mgr (fun m => set_options (clear_bit MGR_PH_ACTIVE (options m)) m) w).
Hypothesis P_dl_unit_data : forall skb w, P w -> P (dl_unit_data skb w).2.

Lemma closed_transport_up skb (w : world) : P w -> P (transport_up skb w).
Proof.
  intros H. unfold transport_up. destruct (head_prim skb); try done.
  by apply P_inflight.
Qed.

Lemma closed_mgr_send skb (w : world) : P w -> P (mgr_send skb w).2.
Proof.
  intros H. unfold mgr_send. destruct (head_prim skb); cbn [snd]; auto.
  by apply closed_ph_data_ind.
Qed.

Lemma closed_step (w w' : world) : step w w' -> P w -> P w'.
Proof.
  intros Hs H. destruct Hs.
  - by apply closed_mgr_send, closed_transport_up.
  - by apply closed_mgr_ctrl.
  - by apply closed_release_tei.
  - by apply closed_l2_tei.
  - by apply closed_FsmExpireTimer.
  - by apply closed_FsmEvent.
Qed.

End Closure.

(** ** The id counter *)

Lemma new_id_nextid (m : mISDNmanager) :
  1 <= nextid m <= 0x7fff ->
  nextid (new_id m).2 = (if nextid m =? 0x7fff then 1 else nextid m + 1)
  /\ 1 <= nextid (new_id m).2 <= 0x7fff.
Proof.
  intros Hn. unfold new_id. cbn [snd].
  destruct (Z.eqb_spec (nextid m) 32767) as [He|He]; cbn; [lia|].
  rewrite u32_small by lia. lia.
Qed.

Lemma do_send_nextid (w : world) : nextid (mgr (do_send w)) = nextid (mgr w).
Proof.
  unfold do_send, ch_recv; cbn.
  repeat match goal with
  | |- context [if ?c then _ else _] => destruct c
  | |- context [match sendq ?m with _ => _ end] => destruct (sendq m)
  end; done.
Qed.

Lemma do_ack_nextid id (w : world) : nextid (mgr (do_ack id w)) = nextid (mgr w).
Proof.
  unfold do_ack, ch_recv; cbn.
  repeat match goal with
  | |- context [if ?c then _ else _] => destruct c
  | |- context [match sendq ?m with _ => _ end] => destruct (sendq m)
  end; done.
Qed.

Lemma mgr_send_down_nextid skb (w : world) :
  nextid (mgr (mgr_send_down skb w)) = nextid (mgr w).
Proof.
  unfold mgr_send_down.
  match goal with |- context [if ?c then _ else _] => destruct c end; [done|].
  by rewrite do_send_nextid.
Qed.

Lemma put_tei_msg_nextid i m_id r t (w : world) l2 :
  get_l2 i w = Some l2 ->
  nextid (mgr (put_tei_msg i m_id r t w)) = nextid (new_id (mgr w)).2.
Proof.
  intros Hl2. unfold put_tei_msg. rewrite Hl2.
  destruct (new_id (mgr w)) as [id m]. cbn [fst snd _alloc_mISDN_skb].
  by rewrite mgr_send_down_nextid.
Qed.

Lemma inv_nextid_put_tei_msg i m_id r t (w : world) :
  inv_nextid w -> inv_nextid (put_tei_msg i m_id r t w).
Proof.
  intros H. unfold inv_nextid.
  destruct (get_l2 i w) as [l2|] eqn:Hl2.
  - rewrite (put_tei_msg_nextid _ _ _ _ _ _ Hl2). by apply new_id_nextid.
  - unfold put_tei_msg. by rewrite Hl2.
Qed.

Lemma dl_unit_data_nextid skb (w : world) :
  nextid (mgr (dl_unit_data skb w).2) =
  if test_bit MGR_OPT_NETWORK (options (mgr w))
  then nextid (new_id (mgr w)).2 else nextid (mgr w).
Proof.
  unfold dl_unit_data.
  destruct (test_bit MGR_OPT_NETWORK (options (mgr w))); cbn [negb]; [|done].
  set (w1 := if negb (test_bit MGR_PH_ACTIVE (options (mgr w)))
             then queue_PH_ACTIVATE_REQ w else w).
  assert (Hw1 : mgr w1 = mgr w) by (subst w1; by destruct (negb _)).
  rewrite Hw1. destruct (new_id (mgr w)) as [id m]. cbn [fst snd].
  by rewrite do_send_nextid.
Qed.

Lemma inv_nextid_step (w w' : world) : step w w' -> inv_nextid w -> inv_nextid w'.
Proof.
  apply closed_step; try done.
  - apply inv_nextid_put_tei_msg.
  - intros id w0. unfold inv_nextid. by rewrite do_ack_nextid.
  - intros w0. unfold inv_nextid. by rewrite do_send_nextid.
  - intros skb w0 H. unfold inv_nextid. rewrite dl_unit_data_nextid.
    destruct (test_bit _ _); [by apply new_id_nextid | done].
Qed.

Lemma inv_nextid_reachable (w : world) : reachable w -> inv_nextid w.
Proof.
  induction 1; [unfold inv_nextid; simpl; lia | by eapply inv_nextid_step].
Qed.

Lemma testbit_small x n k :
  0 <= x < 2 ^ n -> 0 <= n <= k -> Z.testbit x k = false.
Proof.
  intros Hx Hn. destruct (decide (x = 0)) as [->|Hne]; [apply Z.bits_0|].
  apply Z.bits_above_log2; [lia|].
  assert (Z.log2 x < n) by (apply Z.log2_lt_pow2; lia). lia.
Qed.

Lemma new_id_high (m : mISDNmanager) :
  0 <= TEI_SAPI < 65536 -> 0 <= nextid m < 65536 ->
  Z.shiftr (new_id m).1 16 = nextid m.
Proof.
  intros Hs Hn. unfold new_id. cbn [fst]. unfold u32.
  change 4294967296 with (2 ^ 32). rewrite <- !Z.land_ones by lia.
  apply Z.bits_inj'. intros k Hk.
  rewrite Z.shiftr_spec by lia.
  repeat first [rewrite Z.land_spec | rewrite Z.lor_spec].
  rewrite Z.shiftl_spec by lia.
  rewrite (testbit_small TEI_SAPI 16 (k + 16))
    by (change (2 ^ 16) with 65536; lia).
  rewrite (testbit_small (Z.shiftl GROUP_TEI 8) 16 (k + 16))
    by (change (2 ^ 16) with 65536; change (Z.shiftl GROUP_TEI 8) with 32512; lia).
  replace (k + 16 - 16) with k by lia.
  destruct (decide (k < 16)) as [Hlt|Hge].
  - rewrite Z.ones_spec_low by lia. by rewrite !orb_false_r, !andb_true_r.
  - rewrite Z.ones_spec_high by lia. rewrite !andb_false_r.
    symmetry. apply (testbit_small _ 16); [change (2 ^ 16) with 65536|]; lia.
Qed.

Lemma new_id_injective (m m' : mISDNmanager) :
  0 <= TEI_SAPI < 65536 ->
  0 <= nextid m < 65536 -> 0 <= nextid m' < 65536 ->
  (new_id m).1 = (new_id m').1 -> nextid m = nextid m'.
Proof.
  intros Hs Hn Hn' He.
  rewrite <- (new_id_high m), <- (new_id_high m') by done. by rewrite He.
Qed.

Lemma new_id_same_counter (m m' : mISDNmanager) :
  nextid m = nextid m' -> (new_id m).1 = (new_id m').1.
Proof. unfold new_id. cbn [fst]. by intros ->. Qed.

Lemma iter_new_id_nextid (k : nat) (m : mISDNmanager) :
  1 <= nextid m <= 0x7fff ->
  nextid (Nat.iter k (fun m => (new_id m).2) m)
  = (nextid m - 1 + Z.of_nat k) mod 32767 + 1.
Proof.
  intros Hn. induction k as [|k IH].
  - simpl. rewrite Z.add_0_r, Z.mod_small by lia. lia.
  - rewrite Nat.iter_succ.
    set (mk := Nat.iter k (fun m => (new_id m).2) m) in *.
    assert (Hk : 1 <= nextid mk <= 0x7fff).
    { rewrite IH. pose proof (Z.mod_pos_bound (nextid m - 1 + Z.of_nat k) 32767).
      lia. }
    destruct (new_id_nextid mk Hk) as [-> _]. rewrite IH.
    replace (nextid m - 1 + Z.of_nat (S k)) with (nextid m - 1 + Z.of_nat k + 1) by lia.
    set (a := nextid m - 1 + Z.of_nat k).
    destruct (Z.eqb_spec (a mod 32767 + 1) 32767) as [He|He];
      Z.div_mod_to_equations; lia.
Qed.

(** X1. The counter [mgr->nextid] from which [new_id] builds the ids
    lies between 1 and 0x7fff: [mISDN_create_manager] sets it to 1,
    every step of the manager keeps it in this range (the wrap-around
    at 0x7fff sets it back to 1, never to 0), and so it is in this range
    in every reachable world. *)
Theorem nextid_stays_in_range :
  (forall nrb, 1 <= nextid (mISDN_create_manager nrb) <= 0x7fff)
  /\ (forall w w', step w w' ->
        1 <= nextid (mgr w) <= 0x7fff -> 1 <= nextid (mgr w') <= 0x7fff)
  /\ (forall w, reachable w -> 1 <= nextid (mgr w) <= 0x7fff).
Proof.
  split_and!.
  - intros nrb. cbn. lia.
  - apply inv_nextid_step.
  - apply inv_nextid_reachable.
Qed.

(** X2. With TEI_SAPI in the low 16 bits and the counter between 1 and
    0x7fff, the upper 16 bits of the id that [new_id] returns are the
    counter; the ids of the next 32766 calls of [new_id] all differ
    from it, and the call after these returns it again. *)
Theorem new_id_period (m : mISDNmanager) :
  0 <= TEI_SAPI < 65536 ->
  1 <= nextid m <= 0x7fff ->
  let later (k : Z) := Nat.iter (Z.to_nat k) (fun m => (new_id m).2) m in
  Z.shiftr (new_id m).1 16 = nextid m
  /\ (forall k, 0 < k < 32767 -> (new_id (later k)).1 <> (new_id m).1)
  /\ (new_id (later 32767)).1 = (new_id m).1.
Proof.
  intros Hs Hn. cbv zeta. split_and!.
  - apply new_id_high; lia.
  - intros k Hk He. apply new_id_injective in He; [|done| |lia].
    + rewrite iter_new_id_nextid in He by done.
      rewrite Z2Nat.id in He by lia.
      revert He. Z.div_mod_to_equations. lia.
    + rewrite iter_new_id_nextid by done.
      pose proof (Z.mod_pos_bound (nextid m - 1 + Z.of_nat (Z.to_nat k)) 32767). lia.
  - apply new_id_same_counter. rewrite iter_new_id_nextid by done.
    rewrite Z2Nat.id by lia.
    Z.div_mod_to_equations. lia.
Qed.

(** ** The send queue *)

Lemma clear_set_bit n x : 0 <= n -> test_bit n x = false -> clear_bit n (set_bit n x) = x.
Proof.
  unfold test_bit, set_bit, clear_bit. intros Hn Hx. apply Z.bits_inj'. intros k Hk.
  rewrite Z.clearbit_eqb, Z.setbit_eqb by done.
  destruct (Z.eqb_spec n k) as [->|]; [by rewrite Hx | by rewrite andb_true_r].
Qed.

Lemma world_eta (w : world) :
  {| mgr := {| options := options (mgr w); lastid := lastid (mgr w);
               nextid := nextid (mgr w); sendq := sendq (mgr w);
               mgr_layer2 := mgr_layer2 (mgr w); nrbchan := nrbchan (mgr w) |};
     inflight := inflight w; out := out w; entropy := entropy w;
     recv_rc := recv_rc w |} = w.
Proof. by destruct w as [[] ? ? ? ?]. Qed.

Lemma do_send_idle (w : world) :
  test_bit MGR_PH_ACTIVE (options (mgr w)) = false
  \/ test_bit MGR_PH_NOTREADY (options (mgr w)) = true
  \/ sendq (mgr w) = [] ->
  do_send w = w.
Proof.
  intros H. unfold do_send.
  destruct (test_bit MGR_PH_ACTIVE (options (mgr w))) eqn:Ha; cbn [negb]; [|done].
  destruct (test_bit MGR_PH_NOTREADY (options (mgr w))) eqn:Hn; cbn [negb].
  - unfold upd_mgr, set_options. cbn. rewrite set_bit_idem by done. apply world_eta.
  - destruct H as [|[|Hq]]; try done. cbn. rewrite Hq.
    unfold upd_mgr, set_options. cbn. rewrite clear_set_bit, Hq by done.
    rewrite <- Hq. apply world_eta.
Qed.

Lemma do_send_hands (w : world) skb rest :
  test_bit MGR_PH_ACTIVE (options (mgr w)) = true ->
  test_bit MGR_PH_NOTREADY (options (mgr w)) = false ->
  sendq (mgr w) = skb :: rest ->
  let rc := recv_rc w 0%nat in
  let w' := do_send w in
  out w' = out w ++ [Out_recv skb rc]
  /\ sendq (mgr w') = rest
  /\ (rc = 0 ->
      lastid (mgr w') = head_id skb /\
      test_bit MGR_PH_NOTREADY (options (mgr w')) = true /\
      inflight w' = inflight w ++ [skb])
  /\ (rc <> 0 ->
      lastid (mgr w') = MISDN_ID_NONE /\
      test_bit MGR_PH_NOTREADY (options (mgr w')) = false /\
      inflight w' = inflight w).
Proof.
  intros Ha Hn Hq. cbv zeta. unfold do_send, ch_recv. rewrite Ha, Hn. cbn.
  rewrite Hq.
  destruct (Z.eqb_spec (recv_rc w 0%nat) 0) as [Hrc|Hrc]; cbn.
  - rewrite Hrc, test_set_eq by done. split_and!; done.
  - rewrite test_clear_eq. split_and!; done.
Qed.

Lemma do_send_active (w : world) :
  test_bit MGR_PH_ACTIVE (options (mgr (do_send w)))
  = test_bit MGR_PH_ACTIVE (options (mgr w)).
Proof.
  unfold do_send, ch_recv.
  destruct (test_bit MGR_PH_ACTIVE (options (mgr w))) eqn:Ha; cbn [negb]; [|done].
  cbn.
  repeat match goal with
  | |- context [if ?c then _ else _] => destruct c
  | |- context [match sendq ?m with _ => _ end] => destruct (sendq m)
  end; cbn; rewrite ?test_clear_ne, ?test_set_ne by done; done.
Qed.

Lemma emitted_do_ack id (w : world) : emitted w (do_ack id w) [] [].
Proof.
  unfold do_ack, ch_recv; cbn.
  repeat match goal with
  | |- context [if ?c then _ else _] => destruct c
  | |- context [match sendq ?m with _ => _ end] => destruct (sendq m) eqn:?
  end; try (by apply emitted_same);
  (eexists [_]; simpl; split_and!; [done..|]; by rewrite app_nil_r).
Qed.

(** The frame that [dl_unit_data] queues for the payload of [skb]. *)
Lemma emitted_dl_unit_data skb (w : world) :
  test_bit MGR_OPT_NETWORK (options (mgr w)) = true ->
  emitted w (dl_unit_data skb w).2
    [{| head_prim := PH_DATA_REQ; head_id := (new_id (mgr w)).1;
        data := 0x02 :: 0xff :: u8 UI :: data skb |}] [].
Proof.
  intros Hnet. unfold dl_unit_data. rewrite Hnet. cbn [negb].
  set (w1 := if negb (test_bit MGR_PH_ACTIVE (options (mgr w)))
             then queue_PH_ACTIVATE_REQ w else w).
  assert (Hm : mgr w1 = mgr w) by (subst w1; by destruct (negb _)).
  assert (H1 : emitted w w1 [] []).
  { subst w1. destruct (negb _); [|apply emitted_refl].
    exists [Out_activate_req]. simpl. by rewrite app_nil_r. }
  rewrite Hm.
  destruct (new_id_fields (mgr w)) as (_ & _ & Hq & _).
  destruct (new_id (mgr w)) as [id m]. cbn [fst snd] in *.
  change [?x] with ([] ++ [x] ++ []). change (@nil output) with (@nil output ++ [] ++ []).
  eapply emitted_trans; [exact H1|].
  eapply emitted_trans; [|apply emitted_do_send].
  exists []. simpl. rewrite Hq, Hm, app_nil_r. done.
Qed.

Lemma fifo_step (w0 w w' : world) :
  step w w' ->
  (exists fr ns, emitted w0 w fr ns) -> exists fr ns, emitted w0 w' fr ns.
Proof.
  apply (closed_step (fun w => exists fr ns, emitted w0 w fr ns)).
  - intros f w1 (fr & ns & evs & ? & ? & ?). by exists fr, ns, evs.
  - intros e w1 (fr & ns & evs & ? & ? & ?). by exists fr, ns, evs.
  - intros i cmd arg w1 (fr & ns & H). eexists _, _.
    eapply (emitted_trans _ _ _ _ _ [] [Out_tei_l2 i cmd arg]); [exact H|].
    exists [Out_tei_l2 i cmd arg]. simpl. by rewrite app_nil_r.
  - intros i m r t w1 (fr & ns & H).
    destruct (get_l2 i w1) as [l2|] eqn:Hl2.
    + eexists _, _. eapply emitted_trans; [exact H|]. by apply emitted_put_tei_msg.
    + unfold put_tei_msg. rewrite Hl2. by exists fr, ns.
  - intros fl w1 (fr & ns & evs & ? & ? & ?). by exists fr, ns, evs.
  - intros id w1 (fr & ns & H). eexists _, _.
    eapply emitted_trans; [exact H|]. apply emitted_do_ack.
  - intros w1 (fr & ns & H). eexists _, _.
    eapply emitted_trans; [|apply emitted_do_send].
    destruct H as (evs & ? & ? & ?). by exists evs.
  - intros w1 (fr & ns & evs & ? & ? & ?). by exists fr, ns, evs.
  - intros skb w1 (fr & ns & H).
    destruct (test_bit MGR_OPT_NETWORK (options (mgr w1))) eqn:Hnet.
    + eexists _, _. eapply emitted_trans; [exact H|]. by apply emitted_dl_unit_data.
    + unfold dl_unit_data. rewrite Hnet. by exists fr, ns.
Qed.

(** X3. The send queue is a FIFO that loses nothing. In one step of the
    manager, whatever the entry point, the output only grows, and the
    frames handed to the transport in this step followed by the frames
    left in the queue are the frames that were in the queue before
    followed by the frames queued in this step: frames leave the queue
    from its head, in order, only by being handed to the transport. *)
Theorem send_queue_is_fifo (w w' : world) :
  step w w' ->
  exists evs frames,
    out w' = out w ++ evs /\
    handed evs ++ sendq (mgr w') = sendq (mgr w) ++ frames.
Proof.
  intros Hs.
  destruct (fifo_step w w w' Hs) as (fr & ns & evs & Ho & _ & Hq).
  - exists [], []. apply emitted_refl.
  - by exists evs, fr.
Qed.

(** X4. [do_send] does nothing while the link is not active, while a
    frame is outstanding (MGR_PH_NOTREADY) and when the queue is empty.
    Otherwise it takes the head of the queue and hands it to the
    transport, exactly this one frame: if the transport accepts it, the
    frame is outstanding under its id; if the transport refuses it, the
    frame is dropped, not queued again, and nothing is outstanding. *)
Theorem do_send_one_frame (w : world) :
  (test_bit MGR_PH_ACTIVE (options (mgr w)) = false
   \/ test_bit MGR_PH_NOTREADY (options (mgr w)) = true
   \/ sendq (mgr w) = [] ->
   do_send w = w)
  /\
  (forall skb rest,
     test_bit MGR_PH_ACTIVE (options (mgr w)) = true ->
     test_bit MGR_PH_NOTREADY (options (mgr w)) = false ->
     sendq (mgr w) = skb :: rest ->
     let rc := recv_rc w 0%nat in
     let w' := do_send w in
     out w' = out w ++ [Out_recv skb rc]
     /\ sendq (mgr w') = rest
     /\ (rc = 0 ->
         lastid (mgr w') = head_id skb /\
         test_bit MGR_PH_NOTREADY (options (mgr w')) = true /\
         inflight w' = inflight w ++ [skb])
     /\ (rc <> 0 ->
         lastid (mgr w') = MISDN_ID_NONE /\
         test_bit MGR_PH_NOTREADY (options (mgr w')) = false /\
         inflight w' = inflight w)).
Proof.
  split; [apply do_send_idle|]. intros skb rest Ha Hn Hq.
  by apply do_send_hands.
Qed.

(** X5. [dl_unit_data]: on a manager without the network option it
    returns -EINVAL and changes nothing. With the network option it
    returns 0 and queues, behind the frames already queued, exactly one
    PH_DATA_REQ frame with a fresh id whose data are the payload behind
    the three octets 0x02 (SAPI 0, C/R 1), 0xff (TEI 127) and UI; while
    the link is not active it asks for its activation and the frame
    stays in the queue. The registered entities are left alone. *)
Theorem dl_unit_data_broadcast skb (w : world) :
  let frame := {| head_prim := PH_DATA_REQ; head_id := (new_id (mgr w)).1;
                  data := 0x02 :: 0xff :: u8 UI :: data skb |} in
  let w' := (dl_unit_data skb w).2 in
  (test_bit MGR_OPT_NETWORK (options (mgr w)) = false ->
   dl_unit_data skb w = (- EINVAL, w))
  /\
  (test_bit MGR_OPT_NETWORK (options (mgr w)) = true ->
   (dl_unit_data skb w).1 = 0
   /\ emitted w w' [frame] []
   /\ mgr_layer2 (mgr w') = mgr_layer2 (mgr w)
   /\ (test_bit MGR_PH_ACTIVE (options (mgr w)) = false ->
       out w' = out w ++ [Out_activate_req]
       /\ sendq (mgr w') = sendq (mgr w) ++ [frame])).
Proof.
  cbv zeta. split; intros Hnet.
  - unfold dl_unit_data. by rewrite Hnet.
  - split_and!.
    + unfold dl_unit_data. rewrite Hnet. cbn [negb].
      by destruct (new_id _).
    + by apply emitted_dl_unit_data.
    + apply dl_unit_data_layer2.
    + intros Ha. unfold dl_unit_data. rewrite Hnet, Ha. cbn [negb].
      destruct (new_id_fields (mgr w)) as (Ho & _ & Hq & _).
      change (mgr (queue_PH_ACTIVATE_REQ w)) with (mgr w).
      destruct (new_id (mgr w)) as [id m]. cbn [fst snd] in *.
      rewrite do_send_idle; [by rewrite <- Hq | left; cbn; by rewrite Ho].
Qed.

(** ** A link that is not active *)

Lemma handed_app (a b : list output) : handed (a ++ b) = handed a ++ handed b.
Proof. unfold handed. apply omap_app. Qed.

Lemma mgr_send_down_inactive skb (w : world) :
  test_bit MGR_PH_ACTIVE (options (mgr w)) = false ->
  mgr_send_down skb w
  = emit Out_activate_req (upd_mgr (fun m => set_sendq (sendq m ++ [skb]) m) w).
Proof. intros Ha. unfold mgr_send_down. cbn. by rewrite Ha. Qed.

Lemma put_tei_msg_inactive i m_id r t (w : world) :
  test_bit MGR_PH_ACTIVE (options (mgr w)) = false ->
  test_bit MGR_PH_ACTIVE (options (mgr (put_tei_msg i m_id r t w))) = false
  /\ handed (out (put_tei_msg i m_id r t w)) = handed (out w).
Proof.
  intros Ha. unfold put_tei_msg. destruct (get_l2 i w); [|done].
  destruct (new_id_fields (mgr w)) as (Ho & _).
  destruct (new_id (mgr w)) as [id m]. cbn [fst snd _alloc_mISDN_skb] in *.
  rewrite mgr_send_down_inactive by (cbn; by rewrite Ho).
  cbn. rewrite Ho, handed_app. cbn. by rewrite app_nil_r.
Qed.

Lemma do_ack_inactive id (w : world) :
  test_bit MGR_PH_ACTIVE (options (mgr w)) = false ->
  test_bit MGR_PH_ACTIVE (options (mgr (do_ack id w))) = false
  /\ out (do_ack id w) = out w.
Proof.
  intros Ha. unfold do_ack. rewrite Ha.
  repeat match goal with
  | |- context [if ?c then _ else _] => destruct c
  end; cbn; rewrite ?test_clear_ne by done; done.
Qed.

Lemma dl_unit_data_inactive skb (w : world) :
  test_bit MGR_PH_ACTIVE (options (mgr w)) = false ->
  test_bit MGR_PH_ACTIVE (options (mgr (dl_unit_data skb w).2)) = false
  /\ handed (out (dl_unit_data skb w).2) = handed (out w).
Proof.
  intros Ha. unfold dl_unit_data.
  destruct (test_bit MGR_OPT_NETWORK (options (mgr w))); cbn [negb]; [|done].
  rewrite Ha. cbn [negb].
  destruct (new_id_fields (mgr w)) as (Ho & _).
  change (mgr (queue_PH_ACTIVATE_REQ w)) with (mgr w).
  destruct (new_id (mgr w)) as [id m]. cbn [fst snd] in *.
  rewrite do_send_idle by (left; cbn; by rewrite Ho).
  cbn. rewrite Ho, handed_app. cbn. by rewrite app_nil_r.
Qed.

Section Inactive.
Variable H : list sk_buff.

Lemma quiet_layer2 f (w : world) :
  quiet H w -> quiet H (upd_mgr (fun m => set_layer2 (f m) m) w).
Proof. done. Qed.

Lemma quiet_entropy e (w : world) :
  quiet H w ->
  quiet H {| mgr := mgr w; inflight := inflight w; out := out w;
           entropy := e; recv_rc := recv_rc w |}.
Proof. done. Qed.

Lemma quiet_note i cmd arg (w : world) :
  quiet H w -> quiet H (emit (Out_tei_l2 i cmd arg) w).
Proof.
  intros [Ha Hh]. split; [done|]. cbn. rewrite handed_app. cbn.
  by rewrite app_nil_r.
Qed.

Lemma quiet_put i m r t (w : world) : quiet H w -> quiet H (put_tei_msg i m r t w).
Proof.
  intros [Ha Hh]. destruct (put_tei_msg_inactive i m r t w Ha) as [Ha' Hh'].
  split; [done|]. by rewrite Hh'.
Qed.

Lemma quiet_mgr_send skb (w : world) :
  test_bit MGR_PH_ACTIVE (options (mgr (mgr_send skb w).2)) = false ->
  quiet H w -> quiet H (mgr_send skb w).2.
Proof.
  intros Ha' [Ha Hh]. revert Ha'. unfold mgr_send.
  destruct (head_prim skb); cbn [snd]; intros Ha'; try done.
  - apply closed_ph_data_ind;
      auto using quiet_layer2, quiet_entropy, quiet_note, quiet_put.
    done.
  - destruct (do_ack_inactive (head_id skb) w Ha) as [? Ho].
    split; [done|]. by rewrite Ho.
  - rewrite do_send_active in Ha'. cbn in Ha'.
    by rewrite test_set_eq in Ha'.
  - destruct (dl_unit_data_inactive skb w Ha) as [? Ho].
    split; [done|]. by rewrite Ho.
Qed.

Lemma quiet_step (w w' : world) :
  step w w' -> test_bit MGR_PH_ACTIVE (options (mgr w')) = false ->
  quiet H w -> quiet H w'.
Proof.
  intros Hs Ha' Hq. destruct Hs.
  - apply quiet_mgr_send; [done|].
    unfold transport_up. by destruct (head_prim skb).
  - apply closed_mgr_ctrl; auto using quiet_layer2.
  - apply closed_release_tei; auto using quiet_layer2.
  - apply closed_l2_tei;
      auto using quiet_layer2, quiet_entropy, quiet_note, quiet_put.
  - apply closed_FsmExpireTimer;
      auto using quiet_layer2, quiet_entropy, quiet_note, quiet_put.
  - apply closed_FsmEvent;
      auto using quiet_layer2, quiet_entropy, quiet_note, quiet_put.
Qed.

End Inactive.

(** X6. While the link is not active nothing is handed to the transport:
    in a step of the manager that starts and ends with MGR_PH_ACTIVE
    clear, that is in every step but the arrival of PH_ACTIVATE_IND, the
    frames handed to the transport so far stay the same, whatever is
    queued in this step. *)
Theorem inactive_link_hands_nothing (w w' : world) :
  step w w' ->
  test_bit MGR_PH_ACTIVE (options (mgr w)) = false ->
  test_bit MGR_PH_ACTIVE (options (mgr w')) = false ->
  handed (out w') = handed (out w).
Proof.
  intros Hs Ha Ha'.
  by destruct (quiet_step (handed (out w)) w w' Hs Ha').
Qed.

(** ** Sessions that wait *)

Lemma inv_session_Forall (w : world) :
  inv_session w <-> Forall session_ok (mgr_layer2 (mgr w)).
Proof. unfold inv_session, get_l2. by rewrite Forall_lookup. Qed.

Lemma inv_session_same (w w' : world) :
  mgr_layer2 (mgr w') = mgr_layer2 (mgr w) -> inv_session w -> inv_session w'.
Proof. rewrite !inv_session_Forall. by intros ->. Qed.

Ltac session_arith :=
  unfold session_ok in *; simpl in *;
  repeat match goal with
  | H : tei_m_state _ = _ |- _ => rewrite H in *
  | H : negb _ = true |- _ => apply negb_true_iff in H
  | H : negb _ = false |- _ => apply negb_false_iff in H
  | H : (_ =? _) = true |- _ => apply Z.eqb_eq in H
  | H : (_ =? _) = false |- _ => apply Z.eqb_neq in H
  end;
  try done; try lia; intuition lia.

Ltac routine_session Hinv Hl2 :=
  let j := fresh "j" in let l2' := fresh "l2'" in let Hj := fresh "Hj" in
  intros j l2' Hj; session_lookup Hj;
  repeat case_decide; subst;
  try (rewrite Hl2 in Hj; simpl in Hj; injection Hj as <-);
  first [ by eapply Hinv | session_arith ].

Lemma session_routine (d : dispatcher) s ev r fi ev' arg (w : world) l2 :
  (forall fi ev arg w, inv_session w -> inv_session (d fi ev arg w)) ->
  jump TeiFnList s ev = Some r ->
  get_l2 fi w = Some l2 -> tei_m_state (tm l2) = s ->
  inv_session w -> inv_session (r d fi ev' arg w).
Proof.
  intros Hd Hj Hl2 Hs Hinv. pose proof (Hinv _ _ Hl2) as Hok.
  destruct s, ev; simpl in Hj; try discriminate; injection Hj as <-;
    unfold tei_id_request, tei_id_test_dup, tei_assign_req, tei_id_verify,
      tei_id_remove, tei_id_chk_req, tei_id_req_tout, tei_id_assign,
      tei_id_denied, tei_id_ver_tout;
    open_routine; try done; try (by apply Hd);
    routine_session Hinv Hl2.
Qed.

Lemma inv_session_FsmEvent_n n fi ev arg (w : world) :
  inv_session w -> inv_session (mISDN_FsmEvent_n n fi ev arg w).
Proof.
  revert fi ev arg w. induction n as [|n IH]; intros fi ev arg w Hinv; [done|].
  cbn [mISDN_FsmEvent_n]. destruct (get_l2 fi w) as [l2|] eqn:Hl2; [|done].
  destruct (jump TeiFnList (tei_m_state (tm l2)) ev) as [r|] eqn:Hj; [|done].
  by eapply session_routine.
Qed.

Lemma inv_session_FsmEvent fi ev arg (w : world) :
  inv_session w -> inv_session (mISDN_FsmEvent fi ev arg w).
Proof. apply inv_session_FsmEvent_n. Qed.

Lemma inv_session_set_timer fi b (w : world) :
  inv_session w -> inv_session (upd_tm fi (set_timer b) w).
Proof.
  intros Hinv j l2' Hj. rewrite get_l2_upd_tm in Hj.
  case_decide; [|by eapply Hinv]. subst.
  destruct (get_l2 j w) as [l2|] eqn:Hl2; [|done].
  injection Hj as <-. by apply (Hinv _ _ Hl2).
Qed.

Lemma inv_session_FsmExpireTimer fi (w : world) :
  inv_session w -> inv_session (FsmExpireTimer fi w).
Proof.
  intros Hinv. unfold FsmExpireTimer.
  by apply inv_session_FsmEvent, inv_session_set_timer.
Qed.

Lemma inv_session_tei_ph_data_ind i mt dp len (w : world) :
  inv_session w -> inv_session (tei_ph_data_ind i mt dp len w).
Proof.
  intros Hinv. unfold tei_ph_data_ind. open_routine; try done;
    by apply inv_session_FsmEvent.
Qed.

Lemma inv_session_fold (f : nat -> world -> world) (l : list nat) (w : world) :
  (forall i w, inv_session w -> inv_session (f i w)) ->
  inv_session w -> inv_session (fold_left (fun w i => f i w) l w).
Proof. intros Hf. revert w. induction l; simpl; auto. Qed.

Lemma inv_session_ph_data_ind skb (w : world) :
  inv_session w -> inv_session (ph_data_ind skb w).2.
Proof.
  intros Hinv. unfold ph_data_ind, new_tei_req, for_each_layer2.
  open_routine; simpl; auto using inv_session_fold, inv_session_tei_ph_data_ind.
Qed.

Lemma inv_session_mgr_send skb (w : world) :
  inv_session w -> inv_session (mgr_send skb (transport_up skb w)).2.
Proof.
  intros Hinv.
  assert (Hw : inv_session (transport_up skb w)).
  { eapply inv_session_same; [|exact Hinv]. unfold transport_up.
    by destruct (head_prim skb). }
  unfold mgr_send. destruct (head_prim skb) eqn:Hp; cbn [snd]; try done.
  - by apply inv_session_ph_data_ind.
  - eapply inv_session_same; [|exact Hw]. apply do_ack_layer2.
  - eapply inv_session_same; [|exact Hw].
    match goal with |- context [do_send ?w] =>
      destruct (do_send_layer2 w) as [-> _] end. done.
  - eapply inv_session_same; [|exact Hw]. apply dl_unit_data_layer2.
Qed.

Lemma inv_session_step (w w' : world) : step w w' -> inv_session w -> inv_session w'.
Proof.
  intros Hs Hinv. destruct Hs.
  - by apply inv_session_mgr_send.
  - unfold mgr_ctrl, create_teimgr. destruct cmd; [|done].
    repeat match goal with
    | |- context [if ?c then _ else _] => destruct c
    | |- context [match ?c with Some _ => _ | None => _ end] => destruct c
    end; cbn [snd]; try done;
    (apply inv_session_Forall; simpl; apply Forall_app; split;
     [ by apply inv_session_Forall | by apply Forall_singleton ]).
  - unfold release_tei, mISDN_FsmDelTimer.
    apply inv_session_Forall.
    apply (inv_session_set_timer i false) in Hinv.
    apply inv_session_Forall in Hinv. simpl. by apply Forall_delete.
  - unfold l2_tei. destruct (get_l2 i w) as [l2|] eqn:Hl2; [|done].
    destruct cmd; cbn [snd]; try done; open_routine; cbn [snd]; try done;
      try (by apply inv_session_FsmEvent).
    pose proof (Hinv _ _ Hl2).
    routine_session Hinv Hl2.
  - by apply inv_session_FsmExpireTimer.
  - by apply inv_session_FsmEvent.
Qed.

Lemma inv_session_reachable (w : world) : reachable w -> inv_session w.
Proof.
  induction 1; [by intros i l2 Hi | by eapply inv_session_step].
Qed.

(** X7. A session in ST_TEI_IDREQ belongs to an entity without a TEI
    (GROUP_TEI) and has between one and three tries left, and a session
    in ST_TEI_IDVERIFY has one or two tries left: every step of the
    manager keeps this, and it holds in every reachable world. The
    counter [nval] of a waiting session is never zero or negative, so
    that the number of requests sent without an answer is bounded. *)
Theorem waiting_session_has_tries_left :
  (forall w w', step w w' -> inv_session w -> inv_session w')
  /\
  (forall w i l2,
     reachable w -> get_l2 i w = Some l2 ->
     (tei_m_state (tm l2) = ST_TEI_IDREQ ->
      tei l2 = GROUP_TEI /\ 1 <= nval (tm l2) <= 3)
     /\
     (tei_m_state (tm l2) = ST_TEI_IDVERIFY -> 1 <= nval (tm l2) <= 2)).
Proof.
  split; [apply inv_session_step|]. intros w i l2 Hr Hl2.
  pose proof (inv_session_reachable w Hr i l2 Hl2) as Hok.
  unfold session_ok in Hok. split; intros Hs; by rewrite Hs in Hok.
Qed.

(** ** The registry of entities *)

Lemma findtei_first_bound_entity_aux (m : mISDNmanager) (t : Z) :
  findtei m t = None ->
  t <= 0 \/ t = GROUP_TEI
  \/ forall j l2', mgr_layer2 m !! j = Some l2' -> ~ (sapi l2' = 0 /\ tei l2' = t).
Proof.
  unfold findtei. rewrite fmap_None, list_find_None, Forall_lookup.
  intros Hall. destruct (decide (t <= 0)) as [|Hp]; [by left|].
  destruct (decide (t = GROUP_TEI)) as [|Hg]; [by right; left|].
  right; right. intros j l2' Hl' [Hs' Ht']. apply (Hall j l2' Hl').
  rewrite Ht'. split_and!; [done | lia | done | done].
Qed.

(** X8. [findtei] returns the first registered entity with SAPI 0 that
    is bound to the TEI asked for, and only for a TEI above 0 and other
    than GROUP_TEI: an entity with TEI 0 and an entity without a TEI are
    never found. It returns nothing exactly when there is no such
    entity. *)
Theorem findtei_first_bound_entity (m : mISDNmanager) (t : Z) :
  (forall i,
     findtei m t = Some i <->
     0 < t /\ t <> GROUP_TEI
     /\ (exists l2, mgr_layer2 m !! i = Some l2 /\ sapi l2 = 0 /\ tei l2 = t)
     /\ (forall j l2', (j < i)%nat -> mgr_layer2 m !! j = Some l2' ->
           ~ (sapi l2' = 0 /\ tei l2' = t)))
  /\
  (findtei m t = None <->
   t <= 0 \/ t = GROUP_TEI
   \/ forall j l2', mgr_layer2 m !! j = Some l2' -> ~ (sapi l2' = 0 /\ tei l2' = t)).
Proof.
  unfold findtei. split.
  - intros i. split.
    + intros Hf. apply fmap_Some in Hf as ([i' l2] & Hf & ->).
      apply list_find_Some in Hf as (Hl & (Hs & Hp & Hg & Ht) & Hfirst).
      cbn [fst]. subst t. split_and!; [lia | done | by exists l2 |].
      intros j l2' Hj Hl' [Hs' Ht']. apply (Hfirst j l2' Hl' Hj).
      rewrite Ht'. split_and!; [done | lia | done | done].
    + intros (Hp & Hg & (l2 & Hl & Hs & Ht) & Hfirst).
      apply fmap_Some. exists (i, l2). split; [|done].
      apply list_find_Some. split; [done|]. split.
      * split_and!; [done | lia | congruence | done].
      * intros j l2' Hl' Hj (Hs' & _ & _ & Ht'). by apply (Hfirst j l2' Hj Hl').
  - rewrite fmap_None, list_find_None, Forall_lookup. split.
    + intros Hall. destruct (decide (t <= 0)) as [|Hp]; [by left|].
      destruct (decide (t = GROUP_TEI)) as [|Hg]; [by right; left|].
      right; right. intros j l2' Hl' [Hs' Ht']. apply (Hall j l2' Hl').
      rewrite Ht'. split_and!; [done | lia | done | done].
    + intros H j l2' Hl' (Hs' & Hp & Hg & Ht').
      destruct H as [H|[H|H]]; [lia | congruence |]. by apply (H j l2' Hl').
Qed.

Lemma create_teimgr_ok c kz crq (w : world) :
  (create_teimgr c kz crq w).1 = 0 ->
  adr_sapi crq = 0 /\ adr_tei crq <= GROUP_TEI
  /\ (test_bit MGR_OPT_NETWORK (options (mgr w)) = true ->
      protocol crq <> ISDN_P_LAPD_TE)
  /\ (test_bit MGR_OPT_USER (options (mgr w)) = true ->
      protocol crq <> ISDN_P_LAPD_NT
      /\ (adr_tei crq < 64 \/ adr_tei crq = GROUP_TEI))
  /\ kz = true
  /\ exists opt l2,
       c (protocol crq) opt (adr_tei crq) = Some l2
       /\ (create_teimgr c kz crq w).2
          = upd_mgr (fun m => set_layer2
              (mgr_layer2 m ++
               [set_tm {| ri := 0; nval := 0;
                          tval := if protocol crq =? ISDN_P_LAPD_TE
                                  then 1000 else 2000;
                          tei_m_state := ST_TEI_NOP;
                          timer_pending := false |} l2]) m) w.
Proof.
  unfold create_teimgr. cbv zeta.
  destruct (negb (adr_sapi crq =? 0)) eqn:H1; [done|].
  destruct (adr_tei crq >? GROUP_TEI) eqn:H2; [done|].
  destruct (test_bit MGR_OPT_NETWORK (options (mgr w))
            && (protocol crq =? ISDN_P_LAPD_TE)) eqn:H3; [done|].
  destruct (test_bit MGR_OPT_USER (options (mgr w))
            && (protocol crq =? ISDN_P_LAPD_NT)) eqn:H4; [done|].
  destruct (test_bit MGR_OPT_USER (options (mgr w)) && (adr_tei crq >=? 64)
            && (adr_tei crq <? GROUP_TEI)) eqn:H5; [done|].
  match goal with |- context [c ?p ?o ?t] => destruct (c p o t) as [l2|] eqn:Hc end;
    [|done].
  destruct kz; cbn [negb fst snd]; [|done]. intros _.
  apply negb_false_iff, Z.eqb_eq in H1.
  rewrite Z.gtb_ltb in H2. apply Z.ltb_ge in H2.
  split_and!; try done.
  - intros Hn. rewrite Hn in H3. cbn in H3. by apply Z.eqb_neq.
  - intros Hu. rewrite Hu in H4, H5. cbn in H4, H5. split; [by apply Z.eqb_neq|].
    apply andb_false_iff in H5 as [H5|H5].
    + rewrite Z.geb_leb in H5. apply Z.leb_gt in H5. by left.
    + apply Z.ltb_ge in H5. right. lia.
  - eexists _, l2. split; [exact Hc | done].
Qed.

Lemma create_teimgr_error c kz crq (w : world) :
  (create_teimgr c kz crq w).1 <> 0 ->
  (create_teimgr c kz crq w).2 = w
  /\ ((create_teimgr c kz crq w).1 = - EINVAL
      \/ (create_teimgr c kz crq w).1 = - EPROTONOSUPPORT
      \/ (create_teimgr c kz crq w).1 = - ENOMEM).
Proof.
  unfold create_teimgr.
  repeat match goal with
  | |- context [if ?c then _ else _] => destruct c
  | |- context [match ?c with Some _ => _ | None => _ end] => destruct c
  end; cbn [fst snd]; try done; auto.
Qed.

(** X9. CREATE_CHANNEL, which [mgr_ctrl] hands to [create_teimgr],
    registers an entity exactly when it returns 0. It returns 0 only
    for SAPI 0 and a TEI up to GROUP_TEI, never for the terminal
    protocol on a network manager nor for the network protocol on a
    user manager, and on a user manager only for a fixed TEI (below 64)
    or none (GROUP_TEI); the entity that [create_l2] made is then put
    behind the registered ones, which keep their places, with an idle
    session, no timer, and T201 = 1000 for the terminal protocol and
    T202 = 2000 otherwise. Every other return is one of -EINVAL,
    -EPROTONOSUPPORT, -ENOMEM and leaves the manager as it was, and so
    does every other command of [mgr_ctrl], with -EINVAL. *)
Theorem create_teimgr_registers c kz crq (w : world) :
  let r := mgr_ctrl c kz CREATE_CHANNEL crq w in
  (r.1 = 0 ->
   adr_sapi crq = 0 /\ adr_tei crq <= GROUP_TEI
   /\ (test_bit MGR_OPT_NETWORK (options (mgr w)) = true ->
       protocol crq <> ISDN_P_LAPD_TE)
   /\ (test_bit MGR_OPT_USER (options (mgr w)) = true ->
       protocol crq <> ISDN_P_LAPD_NT
       /\ (adr_tei crq < 64 \/ adr_tei crq = GROUP_TEI))
   /\ exists opt l2,
        c (protocol crq) opt (adr_tei crq) = Some l2
        /\ mgr_layer2 (mgr r.2)
           = mgr_layer2 (mgr w) ++
             [set_tm {| ri := 0; nval := 0;
                        tval := if protocol crq =? ISDN_P_LAPD_TE
                                then 1000 else 2000;
                        tei_m_state := ST_TEI_NOP;
                        timer_pending := false |} l2]
        /\ (forall j, (j < length (mgr_layer2 (mgr w)))%nat ->
              get_l2 j r.2 = get_l2 j w)
        /\ sendq (mgr r.2) = sendq (mgr w) /\ out r.2 = out w)
  /\
  (r.1 <> 0 ->
   r.2 = w /\ (r.1 = - EINVAL \/ r.1 = - EPROTONOSUPPORT \/ r.1 = - ENOMEM))
  /\
  (forall n, mgr_ctrl c kz (CTRL_OTHER n) crq w = (- EINVAL, w)).
Proof.
  cbv zeta. change (mgr_ctrl c kz CREATE_CHANNEL crq w) with (create_teimgr c kz crq w).
  split_and!.
  - intros H0.
    destruct (create_teimgr_ok c kz crq w H0)
      as (Hs & Ht & Hn & Hu & _ & opt & l2 & Hc & ->).
    split_and!; try done. exists opt, l2. split_and!; try done.
    intros j Hj. unfold get_l2. cbn. by rewrite lookup_app_l.
  - apply create_teimgr_error.
  - done.
Qed.

(** X10. [release_tei] takes exactly the released entity off the list:
    the entities before it keep their places, the ones behind it move
    up by one, and with the entity its session and its timer are gone.
    The send queue, with the frames this entity may have queued, the
    outstanding frame and the output are left as they are. *)
Theorem release_tei_removes_entity i (w : world) :
  let w' := release_tei i w in
  (forall j, (j < i)%nat -> get_l2 j w' = get_l2 j w)
  /\ (forall j, (i <= j)%nat -> get_l2 j w' = get_l2 (S j) w)
  /\ ((i < length (mgr_layer2 (mgr w)))%nat ->
      S (length (mgr_layer2 (mgr w'))) = length (mgr_layer2 (mgr w)))
  /\ sendq (mgr w') = sendq (mgr w)
  /\ options (mgr w') = options (mgr w)
  /\ lastid (mgr w') = lastid (mgr w)
  /\ out w' = out w.
Proof.
  cbv zeta. unfold release_tei, mISDN_FsmDelTimer, upd_tm, upd_l2, get_l2. cbn.
  rewrite delete_alter. split_and!; try done.
  - intros j Hj. by apply list_lookup_delete_lt.
  - intros j Hj. by apply list_lookup_delete_ge.
  - intros Hi. rewrite length_delete; [lia|]. by apply lookup_lt_is_Some_2.
Qed.

Lemma delete_alter_app_last {A} (f : A -> A) (l : list A) (x : A) :
  delete (length l) (alter f (length l) (l ++ [x])) = l.
Proof.
  rewrite delete_alter. induction l as [|y l IH]; [done|].
  simpl. by rewrite IH.
Qed.

(** X11. Releasing the entity that [create_teimgr] has just registered
    gives back the manager as it was before the call. *)
Theorem release_tei_undoes_create c kz crq (w : world) :
  (create_teimgr c kz crq w).1 = 0 ->
  release_tei (length (mgr_layer2 (mgr w))) (create_teimgr c kz crq w).2 = w.
Proof.
  intros H0.
  destruct (create_teimgr_ok c kz crq w H0) as (_ & _ & _ & _ & _ & opt & l2 & _ & ->).
  unfold release_tei, mISDN_FsmDelTimer, upd_tm, upd_l2, upd_mgr, set_layer2. cbn.
  rewrite delete_alter_app_last. apply world_eta.
Qed.

(** ** Inbound frames *)

Lemma FsmEvent_denied i dp (w : world) : mISDN_FsmEvent i EV_DENIED dp w = w.
Proof.
  unfold mISDN_FsmEvent. simpl. destruct (get_l2 i w) as [l2|]; [|done].
  by destruct (tei_m_state (tm l2)).
Qed.

Lemma tei_ph_data_ind_ignores i mt dp len (w : world) :
  mt <> ID_ASSIGNED -> mt <> ID_CHK_REQ -> mt <> ID_REMOVE ->
  tei_ph_data_ind i mt dp len w = w.
Proof.
  intros H2 H4 H6. unfold tei_ph_data_ind. destruct (get_l2 i w); [|done].
  destruct (_ && _); [done|].
  destruct (Z.eqb_spec mt ID_ASSIGNED); [done|].
  destruct (Z.eqb_spec mt ID_DENIED); [apply FsmEvent_denied|].
  destruct (Z.eqb_spec mt ID_CHK_REQ); [done|].
  by destruct (Z.eqb_spec mt ID_REMOVE).
Qed.

Lemma fold_left_id {A B} (f : A -> B -> A) (l : list B) (a : A) :
  (forall a b, f a b = a) -> fold_left f l a = a.
Proof. intros Hf. induction l as [|b l IH]; simpl; [done|]. by rewrite Hf. Qed.

Lemma for_each_layer2_ignores mt dp len (w : world) :
  mt <> ID_ASSIGNED -> mt <> ID_CHK_REQ -> mt <> ID_REMOVE ->
  for_each_layer2 (fun i => tei_ph_data_ind i mt dp len) w = w.
Proof.
  intros H2 H4 H6. unfold for_each_layer2. apply fold_left_id.
  intros w' i. by apply tei_ph_data_ind_ignores.
Qed.

Lemma ph_data_ind_result skb (w : world) :
  let mt := nth 6 (data skb) 0 in
  let net := test_bit MGR_OPT_NETWORK (options (mgr w)) in
  let ok :=
    tei_frame_ok skb
    && ((net && ((mt =? ID_REQUEST) || (mt =? ID_CHK_RES) || (mt =? ID_VERIFY)))
        || (negb net && ((mt =? ID_ASSIGNED) || (mt =? ID_DENIED)
                         || (mt =? ID_CHK_REQ) || (mt =? ID_REMOVE)))) in
  (ok = true -> (ph_data_ind skb w).1 = 0)
  /\ (ok = false -> ph_data_ind skb w = (- EINVAL, w)).
Proof.
  cbv zeta. unfold ph_data_ind.
  destruct (tei_frame_ok skb); cbn [negb andb]; [|done].
  destruct (test_bit MGR_OPT_NETWORK (options (mgr w))); cbn [negb andb orb].
  - rewrite orb_false_r.
    destruct (Z.eqb_spec (nth 6 (data skb) 0) ID_REQUEST) as [->|];
      [done|].
    destruct (Z.eqb_spec (nth 6 (data skb) 0) ID_CHK_RES) as [->|];
      [done|].
    destruct (Z.eqb_spec (nth 6 (data skb) 0) ID_VERIFY) as [->|];
      [done|].
    cbn [orb]. split; [done|]. intros _.
    by destruct (_ || _).
  - destruct (Z.eqb_spec (nth 6 (data skb) 0) ID_REQUEST) as [->|];
      [done|].
    destruct (Z.eqb_spec (nth 6 (data skb) 0) ID_CHK_RES) as [->|];
      [done|].
    destruct (Z.eqb_spec (nth 6 (data skb) 0) ID_VERIFY) as [->|];
      [done|].
    cbn [orb].
    destruct (Z.eqb_spec (nth 6 (data skb) 0) ID_ASSIGNED) as [->|];
      [done|].
    destruct (Z.eqb_spec (nth 6 (data skb) 0) ID_DENIED) as [->|];
      [done|].
    destruct (Z.eqb_spec (nth 6 (data skb) 0) ID_CHK_REQ) as [->|];
      [done|].
    destruct (Z.eqb_spec (nth 6 (data skb) 0) ID_REMOVE) as [->|];
      [done|].
    done.
Qed.

(** X12. What [ph_data_ind] accepts. It returns 0 exactly for a frame of
    at least eight octets that passes the checks of the address, control
    and entity octets and whose message type is one of ID_REQUEST,
    ID_CHK_RES, ID_VERIFY on a manager with the network option, or one
    of ID_ASSIGNED, ID_DENIED, ID_CHK_REQ, ID_REMOVE on a manager
    without it. Every other frame, a frame shorter than eight octets
    and a frame with an unknown message type among them, is answered
    with -EINVAL and changes nothing. *)
Theorem ph_data_ind_accepts skb (w : world) :
  let d (n : nat) := nth n (data skb) 0 in
  let net := test_bit MGR_OPT_NETWORK (options (mgr w)) in
  ((ph_data_ind skb w).1 = 0 <->
   (8 <= length (data skb))%nat
   /\ Z.shiftr (d 0%nat) 2 = TEI_SAPI /\ Z.land (d 0%nat) 1 = 0
   /\ Z.land (d 1%nat) 1 <> 0 /\ Z.shiftr (d 1%nat) 1 = GROUP_TEI
   /\ Z.land (d 2%nat) 0xef = UI /\ d 3%nat = TEI_ENTITY_ID
   /\ ((net = true /\
        (d 6%nat = ID_REQUEST \/ d 6%nat = ID_CHK_RES \/ d 6%nat = ID_VERIFY))
       \/ (net = false /\
           (d 6%nat = ID_ASSIGNED \/ d 6%nat = ID_DENIED
            \/ d 6%nat = ID_CHK_REQ \/ d 6%nat = ID_REMOVE))))
  /\ ((ph_data_ind skb w).1 <> 0 -> ph_data_ind skb w = (- EINVAL, w))
  /\ ((length (data skb) < 8)%nat -> ph_data_ind skb w = (- EINVAL, w))
  /\ (d 6%nat < 1 \/ 7 < d 6%nat -> ph_data_ind skb w = (- EINVAL, w)).
Proof.
  cbv zeta. destruct (ph_data_ind_result skb w) as [Hok Herr].
  cbv zeta in Hok, Herr.
  set (ok := tei_frame_ok skb && _) in *.
  assert (Hiff : ok = true <->
    (8 <= length (data skb))%nat
    /\ Z.shiftr (nth 0 (data skb) 0) 2 = TEI_SAPI
    /\ Z.land (nth 0 (data skb) 0) 1 = 0
    /\ Z.land (nth 1 (data skb) 0) 1 <> 0
    /\ Z.shiftr (nth 1 (data skb) 0) 1 = GROUP_TEI
    /\ Z.land (nth 2 (data skb) 0) 0xef = UI
    /\ nth 3 (data skb) 0 = TEI_ENTITY_ID
    /\ ((test_bit MGR_OPT_NETWORK (options (mgr w)) = true /\
         (nth 6 (data skb) 0 = ID_REQUEST \/ nth 6 (data skb) 0 = ID_CHK_RES
          \/ nth 6 (data skb) 0 = ID_VERIFY))
        \/ (test_bit MGR_OPT_NETWORK (options (mgr w)) = false /\
            (nth 6 (data skb) 0 = ID_ASSIGNED \/ nth 6 (data skb) 0 = ID_DENIED
             \/ nth 6 (data skb) 0 = ID_CHK_REQ \/ nth 6 (data skb) 0 = ID_REMOVE)))).
  { subst ok. unfold tei_frame_ok.
    rewrite andb_true_iff, orb_true_iff, !andb_true_iff, !orb_true_iff,
      negb_true_iff, !Z.eqb_eq.
    destruct (Z.ltb_spec (Z.of_nat (length (data skb))) 8) as [Hl|Hl];
      [split; [intros [? _]; done | intros [? _]; lia]|].
    destruct (Z.eqb_spec (Z.shiftr (nth 0 (data skb) 0) 2) TEI_SAPI) as [H0|H0];
      cbn [negb]; [|split; [intros [? _]; done | intros (_ & ? & _); done]].
    destruct (Z.eqb_spec (Z.land (nth 0 (data skb) 0) 1) 0) as [H0'|H0'];
      cbn [negb]; [|split; [intros [? _]; done | intros (_ & _ & ? & _); done]].
    destruct (Z.eqb_spec (Z.land (nth 1 (data skb) 0) 1) 0) as [H1|H1];
      [split; [intros [? _]; done | intros (_ & _ & _ & ? & _); done]|].
    destruct (Z.eqb_spec (Z.shiftr (nth 1 (data skb) 0) 1) GROUP_TEI) as [H1'|H1'];
      cbn [negb]; [|split; [intros [? _]; done | intros (_ & _ & _ & _ & ? & _); done]].
    destruct (Z.eqb_spec (Z.land (nth 2 (data skb) 0) 239) UI) as [H2|H2];
      cbn [negb]; [|split; [intros [? _]; done | intros (_ & _ & _ & _ & _ & ? & _); done]].
    destruct (Z.eqb_spec (nth 3 (data skb) 0) TEI_ENTITY_ID) as [H3|H3];
      cbn [negb]; [|split; [intros [? _]; done
                           | intros (_ & _ & _ & _ & _ & _ & ? & _); done]].
    split.
    - intros [_ H]. split_and!; try done; try lia. tauto.
    - intros (_ & _ & _ & _ & _ & _ & _ & H). split; [done|]. tauto. }
  assert (Herr' : (ph_data_ind skb w).1 <> 0 -> ph_data_ind skb w = (- EINVAL, w)).
  { intros Hne. destruct ok; [by rewrite Hok in Hne | by apply Herr]. }
  split_and!.
  - rewrite <- Hiff. split; [|done]. intros H0.
    destruct ok; [done|]. rewrite Herr in H0 by done. done.
  - done.
  - intros Hl. apply Herr'. intros H0.
    assert (ok = true) as Ht.
    { destruct ok; [done|]. rewrite Herr in H0 by done. done. }
    apply Hiff in Ht. lia.
  - intros Hmt. apply Herr'. intros H0.
    assert (ok = true) as Ht.
    { destruct ok; [done|]. rewrite Herr in H0 by done. done. }
    apply Hiff in Ht as (_ & _ & _ & _ & _ & _ & _ & Ht).
    unfold ID_REQUEST, ID_CHK_RES, ID_VERIFY, ID_ASSIGNED, ID_DENIED,
      ID_CHK_REQ, ID_REMOVE in Ht. lia.
Qed.

(** X13. A manager with the network option never reacts to an inbound
    frame: [new_tei_req] is empty and [tei_ph_data_ind] has no case for
    ID_CHK_RES and ID_VERIFY, so that a frame of one of the three
    accepted types is answered with 0 and dropped, and every other
    frame is rejected; no session changes, nothing is queued, layer 2
    is told nothing. *)
Theorem network_manager_drops_inbound skb (w : world) :
  test_bit MGR_OPT_NETWORK (options (mgr w)) = true ->
  (ph_data_ind skb w).2 = w.
Proof.
  intros Hnet. unfold ph_data_ind. rewrite Hnet.
  destruct (tei_frame_ok skb); cbn [negb]; [|done].
  destruct (Z.eqb_spec (nth 6 (data skb) 0) ID_REQUEST) as [->|H1]; [done|].
  destruct (Z.eqb_spec (nth 6 (data skb) 0) ID_CHK_RES) as [->|H5].
  { cbn. by apply for_each_layer2_ignores. }
  destruct (Z.eqb_spec (nth 6 (data skb) 0) ID_VERIFY) as [->|H7].
  { cbn. by apply for_each_layer2_ignores. }
  cbn [orb]. by destruct (_ || _).
Qed.

(** X14. ID_DENIED changes nothing: in ST_TEI_IDREQ its routine only
    reads the frame, in the other states there is none. A session whose
    request was denied goes on waiting, its timer pending, and the
    request is sent again when the timer expires. *)
Theorem id_denied_is_ignored (w : world) :
  (forall i dp, mISDN_FsmEvent i EV_DENIED dp w = w)
  /\ (forall i dp len, tei_ph_data_ind i ID_DENIED dp len w = w)
  /\ (forall skb, nth 6 (data skb) 0 = ID_DENIED -> (ph_data_ind skb w).2 = w).
Proof.
  split_and!.
  - intros. apply FsmEvent_denied.
  - intros. by apply tei_ph_data_ind_ignores.
  - intros skb Hmt. unfold ph_data_ind. rewrite Hmt.
    destruct (tei_frame_ok skb); cbn [negb]; [|done]. cbn.
    destruct (test_bit _ _); [done|]. cbn.
    by apply for_each_layer2_ignores.
Qed.

(** ** Further routines of the state machine *)

Lemma chk_req_answer i (w : world) l2 dp :
  get_l2 i w = Some l2 -> tei_m_state (tm l2) <> ST_TEI_IDREQ ->
  tei l2 <> GROUP_TEI -> dp_tei dp = GROUP_TEI \/ dp_tei dp = tei l2 ->
  let r := u16 (entropy w 0%nat) in
  let w' := mISDN_FsmEvent i EV_CHKREQ dp w in
  get_l2 i w' = Some (set_tm (set_state ST_TEI_NOP (set_timer false (tm l2))) l2)
  /\ emitted w w' [tei_frame (mgr w) (flag l2) ID_CHK_RES r (tei l2)] []
  /\ entropy w' = (fun n => entropy w (S n)).
Proof.
  intros Hl2 Hs Ht Hdp. cbv zeta. rewrite (FsmEvent_run _ _ _ _ _ Hl2).
  assert (Hj : jump TeiFnList (tei_m_state (tm l2)) EV_CHKREQ = Some tei_id_chk_req)
    by (by destruct (tei_m_state (tm l2))).
  rewrite Hj. unfold tei_id_chk_req. rewrite Hl2.
  assert (Hc : negb (tei l2 =? GROUP_TEI)
               && ((dp_tei dp =? GROUP_TEI) || (dp_tei dp =? tei l2)) = true).
  { apply andb_true_iff. split; [by apply negb_true_iff, Z.eqb_neq|].
    apply orb_true_iff. destruct Hdp; [left | right]; by apply Z.eqb_eq. }
  rewrite Hc. rewrite random_ri_eta. cbn [fst snd].
  split_and!.
  - session_goal Hl2.
  - change (@nil output) with (@nil output ++ []).
    change [?x] with ([] ++ [x]).
    emitted_chain Hl2.
  - entropy_goal.
Qed.

Lemma chk_req_noop i (w : world) l2 dp :
  get_l2 i w = Some l2 ->
  tei_m_state (tm l2) = ST_TEI_IDREQ \/ tei l2 = GROUP_TEI
  \/ (dp_tei dp <> GROUP_TEI /\ dp_tei dp <> tei l2) ->
  mISDN_FsmEvent i EV_CHKREQ dp w = w.
Proof.
  intros Hl2 H. rewrite (FsmEvent_run _ _ _ _ _ Hl2).
  destruct (tei_m_state (tm l2)) eqn:Hs; simpl; try done;
    unfold tei_id_chk_req; rewrite Hl2;
    (destruct H as [H|[H|[H1 H2]]]; [done| |]);
    [ rewrite H, Z.eqb_refl; done
    | apply Z.eqb_neq in H1, H2; rewrite H1, H2; by rewrite andb_false_r
    | rewrite H, Z.eqb_refl; done
    | apply Z.eqb_neq in H1, H2; rewrite H1, H2; by rewrite andb_false_r ].
Qed.

(** X15. ID_CHK_REQ (EV_CHKREQ). An idle or verifying session of an
    entity that has a TEI, asked for this TEI or for all of them
    (GROUP_TEI), cancels its timer, becomes idle and answers with
    exactly one ID_CHK_RES that carries a fresh random reference value
    and the TEI of the entity; layer 2 is told nothing. In ST_TEI_IDREQ,
    for an entity without a TEI, and for the TEI of somebody else, the
    request changes nothing. *)
Theorem check_request_is_answered i (w : world) l2 dp :
  get_l2 i w = Some l2 ->
  let r := u16 (entropy w 0%nat) in
  let w' := mISDN_FsmEvent i EV_CHKREQ dp w in
  (tei_m_state (tm l2) <> ST_TEI_IDREQ -> tei l2 <> GROUP_TEI ->
   dp_tei dp = GROUP_TEI \/ dp_tei dp = tei l2 ->
   get_l2 i w' = Some (set_tm (set_state ST_TEI_NOP (set_timer false (tm l2))) l2)
   /\ emitted w w' [tei_frame (mgr w) (flag l2) ID_CHK_RES r (tei l2)] []
   /\ entropy w' = (fun n => entropy w (S n)))
  /\
  (tei_m_state (tm l2) = ST_TEI_IDREQ \/ tei l2 = GROUP_TEI
   \/ (dp_tei dp <> GROUP_TEI /\ dp_tei dp <> tei l2) ->
   w' = w).
Proof.
  intros Hl2. cbv zeta. split.
  - intros Hs Ht Hdp. by apply chk_req_answer.
  - by apply chk_req_noop.
Qed.

Lemma remove_request i (w : world) l2 dp :
  get_l2 i w = Some l2 -> tei_m_state (tm l2) <> ST_TEI_IDREQ ->
  tei l2 <> GROUP_TEI -> dp_tei dp = GROUP_TEI \/ dp_tei dp = tei l2 ->
  let w' := mISDN_FsmEvent i EV_REMOVE dp w in
  get_l2 i w' = Some (set_tm (set_state ST_TEI_NOP (set_timer false (tm l2))) l2)
  /\ emitted w w' [] [RemovalRequested i].
Proof.
  intros Hl2 Hs Ht Hdp. cbv zeta. rewrite (FsmEvent_run _ _ _ _ _ Hl2).
  assert (Hj : jump TeiFnList (tei_m_state (tm l2)) EV_REMOVE = Some tei_id_remove)
    by (by destruct (tei_m_state (tm l2))).
  rewrite Hj. unfold tei_id_remove. rewrite Hl2.
  assert (Hc : negb (tei l2 =? GROUP_TEI)
               && ((dp_tei dp =? GROUP_TEI) || (dp_tei dp =? tei l2)) = true).
  { apply andb_true_iff. split; [by apply negb_true_iff, Z.eqb_neq|].
    apply orb_true_iff. destruct Hdp; [left | right]; by apply Z.eqb_eq. }
  rewrite Hc. split.
  - session_goal Hl2.
  - apply (emitted_then_tei_l2 _ _ _ _ _ [] []).
    unfold mISDN_FsmChangeState, mISDN_FsmDelTimer.
    apply emitted_upd_tm, emitted_upd_tm, emitted_refl.
Qed.

Lemma remove_noop i (w : world) l2 dp :
  get_l2 i w = Some l2 ->
  tei_m_state (tm l2) = ST_TEI_IDREQ \/ tei l2 = GROUP_TEI
  \/ (dp_tei dp <> GROUP_TEI /\ dp_tei dp <> tei l2) ->
  mISDN_FsmEvent i EV_REMOVE dp w = w.
Proof.
  intros Hl2 H. rewrite (FsmEvent_run _ _ _ _ _ Hl2).
  destruct (tei_m_state (tm l2)) eqn:Hs; simpl; try done;
    unfold tei_id_remove; rewrite Hl2;
    (destruct H as [H|[H|[H1 H2]]]; [done| |]);
    [ rewrite H, Z.eqb_refl; done
    | apply Z.eqb_neq in H1, H2; rewrite H1, H2; by rewrite andb_false_r
    | rewrite H, Z.eqb_refl; done
    | apply Z.eqb_neq in H1, H2; rewrite H1, H2; by rewrite andb_false_r ].
Qed.

(** X16. ID_REMOVE (EV_REMOVE). An idle or verifying session of an
    entity that has a TEI, when this TEI or all of them (GROUP_TEI) are
    removed, cancels its timer, becomes idle and tells layer 2 exactly
    once MDL_REMOVE_REQ; no frame is sent. In ST_TEI_IDREQ, for an
    entity without a TEI, and for the TEI of somebody else, the removal
    changes nothing. *)
Theorem remove_is_passed_to_layer2 i (w : world) l2 dp :
  get_l2 i w = Some l2 ->
  let w' := mISDN_FsmEvent i EV_REMOVE dp w in
  (tei_m_state (tm l2) <> ST_TEI_IDREQ -> tei l2 <> GROUP_TEI ->
   dp_tei dp = GROUP_TEI \/ dp_tei dp = tei l2 ->
   get_l2 i w' = Some (set_tm (set_state ST_TEI_NOP (set_timer false (tm l2))) l2)
   /\ emitted w w' [] [RemovalRequested i])
  /\
  (tei_m_state (tm l2) = ST_TEI_IDREQ \/ tei l2 = GROUP_TEI
   \/ (dp_tei dp <> GROUP_TEI /\ dp_tei dp <> tei l2) ->
   w' = w).
Proof.
  intros Hl2. cbv zeta. split.
  - intros Hs Ht Hdp. by apply remove_request.
  - by apply remove_noop.
Qed.

(** X17. EV_ASSIGN_REQ. An idle session of an entity that has a TEI
    stores the reference value read from the first two octets of the
    argument, sends exactly one ID_ASSIGNED with this reference value
    and the TEI of the entity, and stays idle with no timer armed by
    it. For an entity without a TEI, and in the two waiting states, the
    event changes nothing. *)
Theorem assign_request_is_answered i (w : world) l2 dp :
  get_l2 i w = Some l2 ->
  let w' := mISDN_FsmEvent i EV_ASSIGN_REQ dp w in
  (tei_m_state (tm l2) = ST_TEI_NOP -> tei l2 <> GROUP_TEI ->
   get_l2 i w' = Some (set_tm (set_ri (dp_ri dp) (tm l2)) l2)
   /\ emitted w w' [tei_frame (mgr w) (flag l2) ID_ASSIGNED (dp_ri dp) (tei l2)] [])
  /\
  (tei_m_state (tm l2) <> ST_TEI_NOP \/ tei l2 = GROUP_TEI -> w' = w).
Proof.
  intros Hl2. cbv zeta. rewrite (FsmEvent_run _ _ _ _ _ Hl2). split.
  - intros Hs Ht. rewrite Hs. simpl. unfold tei_assign_req. rewrite Hl2.
    destruct (Z.eqb_spec (tei l2) GROUP_TEI) as [|_]; [done|]. split.
    + session_goal Hl2. destruct l2 as [? ? ? []]. cbn in *. by subst.
    + change (@nil output) with (@nil output ++ []).
      change [?x] with ([] ++ [x]).
      emitted_chain Hl2.
  - intros [Hs|Ht].
    + by destruct (tei_m_state (tm l2)).
    + destruct (tei_m_state (tm l2)); simpl; try done.
      unfold tei_assign_req. by rewrite Hl2, Ht, Z.eqb_refl.
Qed.

(** ** Commands of layer 2 *)

Lemma alter_id_at {A} (f : A -> A) (i : nat) (l : list A) x :
  l !! i = Some x -> f x = x -> alter f i l = l.
Proof.
  revert i. induction l as [|y l IH]; intros [|i]; simpl; try done.
  - intros [= ->] Hf. by rewrite Hf.
  - intros Hi Hf. f_equal. by apply IH.
Qed.

Lemma tei_l2_own_tei i (w : world) l2 :
  get_l2 i w = Some l2 ->
  tei_l2 i MDL_ASSIGN_REQ (tei l2) w = emit (AssignmentComplete i (tei l2)) w.
Proof.
  intros Hl2. unfold tei_l2, upd_l2, upd_mgr, emit, AssignmentComplete. cbn.
  rewrite (alter_id_at _ _ _ l2 Hl2) by (by destruct l2).
  by destruct w as [[] ? ? ? ?].
Qed.

(** X18. [l2_tei] for an entity with a fixed TEI (FLG_FIXED_TEI). It
    returns 0; MDL_ASSIGN_IND is answered at once: layer 2 is told
    MDL_ASSIGN_REQ with the TEI the entity has, no frame is sent and
    neither the entity nor its session changes; every other command,
    MDL_ERROR_IND among them, changes nothing: such an entity never
    requests nor verifies a TEI. *)
Theorem l2_tei_fixed_tei i cmd arg (w : world) l2 :
  get_l2 i w = Some l2 ->
  test_bit FLG_FIXED_TEI (flag l2) = true ->
  (l2_tei i cmd arg w).1 = 0
  /\ (cmd = MDL_ASSIGN_IND ->
      (l2_tei i cmd arg w).2 = emit (AssignmentComplete i (tei l2)) w)
  /\ (cmd <> MDL_ASSIGN_IND -> (l2_tei i cmd arg w).2 = w).
Proof.
  intros Hl2 Hf. unfold l2_tei. rewrite Hl2, Hf. cbn [negb].
  split_and!.
  - by destruct cmd.
  - intros ->. cbn [snd]. by apply tei_l2_own_tei.
  - intros Hc. by destruct cmd.
Qed.

(** X19. [l2_tei] while the session waits. For an entity without a fixed
    TEI whose session is in ST_TEI_IDREQ or ST_TEI_IDVERIFY, every
    command returns 0 and changes nothing: a repeated MDL_ASSIGN_IND
    does not start a second request, draws no new reference value and
    does not set the number of tries back, and MDL_ERROR_IND does not
    start a verification. *)
Theorem l2_tei_while_waiting i cmd arg (w : world) l2 :
  get_l2 i w = Some l2 ->
  test_bit FLG_FIXED_TEI (flag l2) = false ->
  tei_m_state (tm l2) <> ST_TEI_NOP ->
  l2_tei i cmd arg w = (0, w).
Proof.
  intros Hl2 Hf Hs. unfold l2_tei. rewrite Hl2, Hf. cbn [negb].
  destruct cmd; try done; rewrite (FsmEvent_run _ _ _ _ _ Hl2);
    by destruct (tei_m_state (tm l2)).
Qed.

(** X20. MDL_ERROR_IND for an entity without a fixed TEI whose session
    is idle starts the verification: exactly one ID_VERIFY with the
    reference value 0 and the TEI of the entity is sent, the session
    is in ST_TEI_IDVERIFY with two tries and its timer armed, and layer
    2 is told nothing. The TEI of the entity is not looked at: an
    entity without one sends ID_VERIFY for GROUP_TEI. *)
Theorem l2_tei_error_starts_verification i arg (w : world) l2 :
  get_l2 i w = Some l2 ->
  test_bit FLG_FIXED_TEI (flag l2) = false ->
  tei_m_state (tm l2) = ST_TEI_NOP ->
  let w' := (l2_tei i MDL_ERROR_IND arg w).2 in
  (l2_tei i MDL_ERROR_IND arg w).1 = 0
  /\ get_l2 i w' = Some (set_tm {| ri := ri (tm l2); nval := 2;
                                   tval := tval (tm l2);
                                   tei_m_state := ST_TEI_IDVERIFY;
                                   timer_pending := true |} l2)
  /\ emitted w w' [tei_frame (mgr w) (flag l2) ID_VERIFY 0 (tei l2)] [].
Proof.
  intros Hl2 Hf Hs. cbv zeta. unfold l2_tei. rewrite Hl2, Hf. cbn [negb fst snd].
  split; [done|]. by apply verify_starts.
Qed.

(** ** Messages of the transport *)

Lemma dl_unit_data_result skb (w : world) :
  (dl_unit_data skb w).1 = 0 \/ dl_unit_data skb w = (- EINVAL, w).
Proof.
  unfold dl_unit_data. destruct (negb _); [by right|]. left.
  by destruct (new_id _).
Qed.

(** X21. [mgr_send] returns 0 or -EINVAL, and when it returns -EINVAL
    nothing has changed: neither a rejected frame nor a primitive it
    does not know (PH_DATA_REQ and PH_ACTIVATE_REQ among them) has any
    effect. PH_DATA_CNF, PH_ACTIVATE_IND and PH_DEACTIVATE_IND are
    always answered with 0. *)
Theorem mgr_send_error_changes_nothing skb (w : world) :
  ((mgr_send skb w).1 = 0 \/ mgr_send skb w = (- EINVAL, w))
  /\ match head_prim skb with
     | PH_DATA_CNF | PH_ACTIVATE_IND | PH_DEACTIVATE_IND => (mgr_send skb w).1 = 0
     | PH_DATA_REQ | PH_ACTIVATE_REQ | PRIM_OTHER _ => mgr_send skb w = (- EINVAL, w)
     | PH_DATA_IND | DL_UNITDATA_REQ => True
     end.
Proof.
  unfold mgr_send. destruct (head_prim skb); split; auto.
  - destruct (ph_data_ind_result skb w) as [Hok Herr]. cbv zeta in Hok, Herr.
    destruct (tei_frame_ok skb && _); [left; by apply Hok | right; by apply Herr].
  - apply dl_unit_data_result.
Qed.

(** X22. PH_ACTIVATE_IND sets MGR_PH_ACTIVE and starts the queue: if no
    frame is outstanding and the queue is not empty, the frame at its
    head is handed to the transport; if a frame is outstanding
    (MGR_PH_NOTREADY), nothing is handed over and the queue, the
    outstanding id and the output stay as they are, whether or not the
    transport still holds that frame. *)
Theorem activation_starts_the_queue a (w : world) :
  head_prim a = PH_ACTIVATE_IND ->
  let w' := (mgr_send a w).2 in
  (mgr_send a w).1 = 0
  /\ test_bit MGR_PH_ACTIVE (options (mgr w')) = true
  /\ (forall skb rest,
        test_bit MGR_PH_NOTREADY (options (mgr w)) = false ->
        sendq (mgr w) = skb :: rest ->
        out w' = out w ++ [Out_recv skb (recv_rc w 0%nat)]
        /\ sendq (mgr w') = rest)
  /\ (test_bit MGR_PH_NOTREADY (options (mgr w)) = true ->
      out w' = out w /\ sendq (mgr w') = sendq (mgr w)
      /\ lastid (mgr w') = lastid (mgr w)
      /\ test_bit MGR_PH_NOTREADY (options (mgr w')) = true).
Proof.
  intros Ha. cbv zeta. unfold mgr_send. rewrite Ha. cbn [fst snd].
  set (w1 := upd_mgr (fun m => set_options (set_bit MGR_PH_ACTIVE (options m)) m) w).
  assert (Hact : test_bit MGR_PH_ACTIVE (options (mgr w1)) = true).
  { subst w1. cbn. by apply test_set_eq. }
  assert (Hnr : test_bit MGR_PH_NOTREADY (options (mgr w1))
                = test_bit MGR_PH_NOTREADY (options (mgr w))).
  { subst w1. cbn. by apply test_set_ne. }
  split_and!.
  - done.
  - by rewrite do_send_active.
  - intros skb rest Hn Hq.
    destruct (do_send_hands w1 skb rest Hact) as (Ho & Hq' & _);
      [by rewrite Hnr | done | done].
  - intros Hn. rewrite do_send_idle by (right; left; by rewrite Hnr).
    subst w1. cbn. by rewrite test_set_ne.
Qed.

Lemma set_clear_bit n x : 0 <= n -> test_bit n x = true -> set_bit n (clear_bit n x) = x.
Proof.
  unfold test_bit, set_bit, clear_bit. intros Hn Hx. apply Z.bits_inj'. intros k Hk.
  rewrite Z.setbit_eqb, Z.clearbit_eqb by done.
  destruct (Z.eqb_spec n k) as [->|]; [by rewrite Hx | cbn; by rewrite andb_true_r].
Qed.

(** X23. A link that goes down and comes up again while a frame is
    outstanding: PH_DEACTIVATE_IND followed by PH_ACTIVATE_IND leaves
    the manager exactly as it was, with the same frame outstanding and
    the same queue; nothing is sent again and the queue goes on only
    with the confirmation of the outstanding frame. *)
Theorem link_flap_keeps_outstanding_frame a d (w : world) :
  head_prim d = PH_DEACTIVATE_IND ->
  head_prim a = PH_ACTIVATE_IND ->
  test_bit MGR_PH_ACTIVE (options (mgr w)) = true ->
  test_bit MGR_PH_NOTREADY (options (mgr w)) = true ->
  (mgr_send a (mgr_send d w).2).2 = w.
Proof.
  intros Hd Ha Hact Hnr. unfold mgr_send. rewrite Hd, Ha. cbn [snd].
  rewrite do_send_idle.
  - unfold upd_mgr, set_options. cbn. rewrite set_clear_bit by done.
    apply world_eta.
  - right; left. cbn. by rewrite test_set_ne, test_clear_ne.
Qed.

(** ** More on the frame codec *)

Lemma u8_range x : 0 <= u8 x < 256.
Proof. unfold u8. apply Z.mod_pos_bound. lia. Qed.

(** X24. The encoder on arbitrary arguments. Whatever the message type,
    the reference value and the TEI handed to [put_tei_msg] are, it
    builds exactly eight octets, each between 0 and 255, and the
    decoder reads back the message type modulo 256, the reference
    value modulo 65536 and the TEI modulo 128: arguments out of range
    are cut down to their low bits, they are not rejected and they
    disturb no other octet. *)
Theorem tei_msg_truncates (l2flag m_id r t : Z) :
  let bp := tei_msg_bp l2flag m_id r t in
  length bp = 8%nat
  /\ Forall (fun b => 0 <= b < 256) bp
  /\ nth 6 bp 0 = m_id mod 256
  /\ dp_ri (skipn 4 bp) = r mod 65536
  /\ dp_tei (skipn 4 bp) = t mod 128.
Proof.
  cbv zeta. split_and!.
  - done.
  - unfold tei_msg_bp.
    destruct (test_bit FLG_LAPD_NET l2flag);
      repeat (apply Forall_cons; split; [apply u8_range|]); constructor.
  - done.
  - unfold tei_msg_bp, dp_ri. cbn [skipn nth].
    rewrite shiftr_8, land_255, shiftl_8. unfold u8, u32.
    Z.div_mod_to_equations. lia.
  - unfold tei_msg_bp, dp_tei. cbn [skipn nth].
    rewrite shiftl_1. rewrite lor_1_even;
      [|pose proof (u8_range t); lia | by rewrite Z.even_mul].
    rewrite shiftr_1. unfold u8. Z.div_mod_to_equations. lia.
Qed.

Lemma lxor_2_high x : Z.shiftr (Z.lxor x 2) 2 = Z.shiftr x 2.
Proof. rewrite Z.shiftr_lxor. change (Z.shiftr 2 2) with 0. apply Z.lxor_0_r. Qed.

Lemma lxor_2_low x : Z.land (Z.lxor x 2) 1 = Z.land x 1.
Proof.
  apply Z.bits_inj'. intros k Hk. rewrite !Z.land_spec, Z.lxor_spec.
  destruct (decide (k = 0)) as [->|Hne]; [by rewrite xorb_false_r|].
  rewrite (testbit_small 1 1 k) by lia. by rewrite !andb_false_r.
Qed.

(** X25. The C/R bit. With TEI_SAPI in six bits, the first octet that
    [put_tei_msg] builds is TEI_SAPI shifted by two with bit 1 (C/R) set
    exactly for an entity with FLG_LAPD_NET; and [ph_data_ind] does not
    look at this bit: a frame and the same frame with the C/R bit
    turned over are accepted or rejected alike. *)
Theorem cr_bit_set_by_network_only (l2flag m_id r t : Z) :
  0 <= TEI_SAPI < 64 ->
  nth 0 (tei_msg_bp l2flag m_id r t) 0
  = 4 * TEI_SAPI + (if test_bit FLG_LAPD_NET l2flag then 2 else 0)
  /\ forall p id d0 rest,
       tei_frame_ok {| head_prim := p; head_id := id; data := Z.lxor d0 2 :: rest |}
       = tei_frame_ok {| head_prim := p; head_id := id; data := d0 :: rest |}.
Proof.
  intros Hs. split.
  - unfold tei_msg_bp. cbn [nth].
    rewrite shiftl_2, (u8_small (4 * TEI_SAPI)) by lia.
    destruct (test_bit FLG_LAPD_NET l2flag); [|lia].
    rewrite lor_2_mul4 by lia. apply u8_small. lia.
  - intros p id d0 rest. unfold tei_frame_ok. cbn [data length nth].
    by rewrite lxor_2_high, lxor_2_low.
Qed.

(** ** Sessions side by side *)

Ltac other_session Hl2 :=
  try rewrite random_ri_eta; cbn [fst snd];
  unfold mISDN_FsmChangeState, mISDN_FsmAddTimer, mISDN_FsmDelTimer;
  repeat first
    [ rewrite get_l2_upd_tm | rewrite get_l2_upd_l2
    | rewrite get_l2_put_tei_msg | rewrite get_l2_tei_l2
    | rewrite get_l2_emit | rewrite get_l2_world | rewrite get_l2_random_ri ];
  repeat case_decide; try done; try congruence.

Lemma routine_other_sessions (d : dispatcher) s ev r fi ev' arg (w : world) j :
  jump TeiFnList s ev = Some r ->
  ev <> EV_ASSIGN \/ s <> ST_TEI_NOP -> j <> fi ->
  get_l2 j (r d fi ev' arg w) = get_l2 j w.
Proof.
  intros Hj Hev Hne.
  destruct s, ev; simpl in Hj; try discriminate; injection Hj as <-;
    try (by destruct Hev);
    unfold tei_id_request, tei_id_test_dup, tei_assign_req, tei_id_verify,
      tei_id_remove, tei_id_chk_req, tei_id_req_tout, tei_id_assign,
      tei_id_denied, tei_id_ver_tout;
    open_routine; try done; other_session Hne.
Qed.

Lemma FsmEvent_other_sessions i j ev arg (w : world) :
  j <> i ->
  ev <> EV_ASSIGN
  \/ (forall l2, get_l2 i w = Some l2 -> tei_m_state (tm l2) <> ST_TEI_NOP) ->
  get_l2 j (mISDN_FsmEvent i ev arg w) = get_l2 j w.
Proof.
  intros Hne Hev. destruct (get_l2 i w) as [l2|] eqn:Hl2.
  - rewrite (FsmEvent_run _ _ _ _ _ Hl2).
    destruct (jump TeiFnList (tei_m_state (tm l2)) ev) as [r|] eqn:Hj; [|done].
    eapply routine_other_sessions; [exact Hj| |done].
    destruct Hev as [|Hev]; [by left | right; by apply Hev].
  - unfold mISDN_FsmEvent. simpl. by rewrite Hl2.
Qed.

(** X26. The routines other than those of EV_ASSIGN touch the session
    they run for and no other. An event other than EV_ASSIGN raised on
    the session of one entity, and the expiry of the timer of a session,
    leave every other registered entity, with its TEI, its flags, its
    session and its timer, as it was. (The routines of EV_ASSIGN are the
    ones that reach another entity: [tei_id_test_dup] raises EV_VERIFY
    on it, [tei_id_assign] calls [tei_l2] with MDL_ERROR_RSP for it.) *)
Theorem event_touches_only_its_session i j (w : world) :
  j <> i ->
  (forall ev arg, ev <> EV_ASSIGN ->
     get_l2 j (mISDN_FsmEvent i ev arg w) = get_l2 j w)
  /\ get_l2 j (FsmExpireTimer i w) = get_l2 j w.
Proof.
  intros Hne. split.
  - intros ev arg Hev. apply FsmEvent_other_sessions; [done | by left].
  - unfold FsmExpireTimer. rewrite FsmEvent_other_sessions; [|done|by left].
    rewrite get_l2_upd_tm. case_decide; [congruence|done].
Qed.

Lemma verify_keeps_tei o j (w : world) :
  tei <$> get_l2 j (mISDN_FsmEvent_n 1 o EV_VERIFY [] w) = tei <$> get_l2 j w.
Proof.
  simpl. destruct (get_l2 o w) as [l2|] eqn:Ho; [|done].
  destruct (tei_m_state (tm l2)); simpl; try done.
  unfold tei_id_verify. rewrite Ho.
  unfold mISDN_FsmChangeState, mISDN_FsmAddTimer.
  rewrite !get_l2_upd_tm, get_l2_put_tei_msg.
  case_decide; [|done]. by destruct (get_l2 j w).
Qed.

(** X27. EV_ASSIGN binds no TEI that is in use. If an ID_ASSIGNED
    changes the TEI of the entity it is delivered to, then the session
    of this entity was in ST_TEI_IDREQ, the frame carried its
    reference value, the new TEI is the one of the frame, and, for a
    TEI from 1 to 126, no other registered entity with SAPI 0 is bound
    to this TEI. *)
Theorem assignment_binds_unused_tei i (w : world) l2 l2' dp :
  get_l2 i w = Some l2 ->
  get_l2 i (mISDN_FsmEvent i EV_ASSIGN dp w) = Some l2' ->
  tei l2' <> tei l2 ->
  tei_m_state (tm l2) = ST_TEI_IDREQ
  /\ dp_ri dp = ri (tm l2)
  /\ tei l2' = dp_tei dp
  /\ (0 < dp_tei dp -> dp_tei dp <> GROUP_TEI ->
      forall j l2j,
        j <> i -> get_l2 j (mISDN_FsmEvent i EV_ASSIGN dp w) = Some l2j ->
        sapi l2j = 0 -> tei l2j <> dp_tei dp).
Proof.
  intros Hl2 Hl2' Hne.
  assert (Hother : forall j, j <> i ->
            tei_m_state (tm l2) = ST_TEI_IDREQ ->
            get_l2 j (mISDN_FsmEvent i EV_ASSIGN dp w) = get_l2 j w).
  { intros j Hj Hs. apply FsmEvent_other_sessions; [done|]. right.
    intros l2'' Hl2''. rewrite Hl2 in Hl2''. injection Hl2'' as <-.
    by rewrite Hs. }
  revert Hl2' Hother. rewrite (FsmEvent_run _ _ _ _ _ Hl2).
  set (d := mISDN_FsmEvent_n 1).
  destruct (tei_m_state (tm l2)) eqn:Hs; simpl.
  - unfold tei_id_test_dup. rewrite Hl2.
    destruct (findtei (mgr w) (dp_tei dp)) as [o|]; [|congruence].
    destruct (get_l2 o w) as [l2o|]; [|congruence].
    destruct (negb _); [|congruence].
    intros Hl2' _. pose proof (verify_keeps_tei o i w) as Ht. fold d in Ht.
    rewrite Hl2', Hl2 in Ht. cbn in Ht. congruence.
  - unfold tei_id_assign. rewrite Hl2.
    destruct (findtei (mgr w) (dp_tei dp)) as [o|] eqn:Hf.
    { destruct (get_l2 o w) as [l2o|]; [|congruence].
      destruct (negb _); [|congruence].
      rewrite get_l2_tei_l2. congruence. }
    destruct (Z.eqb_spec (dp_ri dp) (ri (tm l2))) as [Hr|]; [|congruence].
    unfold mISDN_FsmChangeState, mISDN_FsmDelTimer.
    rewrite get_l2_tei_l2, !get_l2_upd_tm, Hl2.
    repeat case_decide; try done. cbn. intros [= <-] Hother.
    split_and!; try done.
    intros Hp Hg j l2j Hj Hl2j Hsapi Htei.
    rewrite Hother in Hl2j by done.
    destruct (findtei_first_bound_entity_aux (mgr w) (dp_tei dp))
      as [Hno|[Hno|Hno]]; [done | lia | done |]. by apply (Hno j l2j Hl2j).
  - congruence.
Qed.

(** ** A waiting session gives up *)

Lemma idreq_gives_up i (n : nat) (w : world) l2 :
  get_l2 i w = Some l2 -> tei_m_state (tm l2) = ST_TEI_IDREQ ->
  nval (tm l2) = Z.of_nat (S n) ->
  let w' := Nat.iter (S n) (FsmExpireTimer i) w in
  (exists l2',
     get_l2 i w' = Some l2' /\ tei_m_state (tm l2') = ST_TEI_NOP
     /\ timer_pending (tm l2') = false /\ tei l2' = tei l2)
  /\ exists fr,
       length fr = n
       /\ Forall (fun f => nth 6 (data f) 0 = ID_REQUEST) fr
       /\ emitted w w' fr [AssignmentFailed i].
Proof.
  revert w l2. induction n as [|n IH]; intros w l2 Hl2 Hs Hn; cbv zeta.
  - destruct (req_tout_last i w l2 Hl2 Hs) as (H1 & E1 & _); [lia|].
    cbn [Nat.iter nat_rect]. split.
    + eexists. split; [exact H1|]. done.
    + exists []. split_and!; [done | constructor | exact E1].
  - rewrite Nat.iter_succ_r.
    destruct (req_tout_again i w l2 Hl2 Hs) as (H1 & E1 & _); [lia|].
    set (w1 := FsmExpireTimer i w) in *.
    destruct (IH w1 _ H1 eq_refl) as ((l2' & H2 & Hs2 & Hp2 & Ht2) & fr & Hlen & Hall & E2).
    { cbn. lia. }
    split.
    + exists l2'. split_and!; done.
    + exists (tei_frame (mgr w) (flag l2) ID_REQUEST (u16 (entropy w 0%nat)) GROUP_TEI
              :: fr).
      split_and!.
      * cbn. by rewrite Hlen.
      * constructor; [reflexivity | exact Hall].
      * exact (emitted_trans _ _ _ [_] [] _ _ E1 E2).
Qed.

Lemma verify_gives_up i (n : nat) (w : world) l2 :
  get_l2 i w = Some l2 -> tei_m_state (tm l2) = ST_TEI_IDVERIFY ->
  nval (tm l2) = Z.of_nat (S n) ->
  let w' := Nat.iter (S n) (FsmExpireTimer i) w in
  (exists l2',
     get_l2 i w' = Some l2' /\ tei_m_state (tm l2') = ST_TEI_NOP
     /\ timer_pending (tm l2') = false /\ tei l2' = tei l2)
  /\ exists fr,
       length fr = n
       /\ Forall (fun f => nth 6 (data f) 0 = ID_VERIFY) fr
       /\ emitted w w' fr [RemovalRequested i].
Proof.
  revert w l2. induction n as [|n IH]; intros w l2 Hl2 Hs Hn; cbv zeta.
  - destruct (ver_tout_last i w l2 Hl2 Hs) as (H1 & E1 & _); [lia|].
    cbn [Nat.iter nat_rect]. split.
    + eexists. split; [exact H1|]. done.
    + exists []. split_and!; [done | constructor | exact E1].
  - rewrite Nat.iter_succ_r.
    destruct (ver_tout_again i w l2 Hl2 Hs) as (H1 & E1 & _); [lia|].
    set (w1 := FsmExpireTimer i w) in *.
    destruct (IH w1 _ H1 eq_refl) as ((l2' & H2 & Hs2 & Hp2 & Ht2) & fr & Hlen & Hall & E2).
    { cbn. lia. }
    split.
    + exists l2'. split_and!; done.
    + exists (tei_frame (mgr w) (flag l2) ID_VERIFY 0 (tei l2) :: fr).
      split_and!.
      * cbn. by rewrite Hlen.
      * constructor; [reflexivity | exact Hall].
      * exact (emitted_trans _ _ _ [_] [] _ _ E1 E2).
Qed.

(** X28. A waiting session always comes back to idle. A session in
    ST_TEI_IDREQ or ST_TEI_IDVERIFY with tries left ([session_ok], as
    in every reachable world: at most three, resp. two) whose timer
    expires as many times as it has tries left ([nval]), with no answer
    in between, is idle afterwards with no timer pending and the TEI it
    had; on the way it has sent one ID_REQUEST, resp. ID_VERIFY, less
    than it had tries, and layer 2 has been told exactly once:
    MDL_ERROR_RSP after the requests, MDL_REMOVE_REQ after the
    verification. *)
Theorem waiting_session_gives_up (w : world) i l2 (n : nat) :
  get_l2 i w = Some l2 -> session_ok l2 -> nval (tm l2) = Z.of_nat n ->
  let w' := Nat.iter n (FsmExpireTimer i) w in
  (tei_m_state (tm l2) = ST_TEI_IDREQ ->
   (exists l2',
      get_l2 i w' = Some l2' /\ tei_m_state (tm l2') = ST_TEI_NOP
      /\ timer_pending (tm l2') = false /\ tei l2' = GROUP_TEI)
   /\ exists fr,
        S (length fr) = n /\ (n <= 3)%nat
        /\ Forall (fun f => nth 6 (data f) 0 = ID_REQUEST) fr
        /\ emitted w w' fr [AssignmentFailed i])
  /\
  (tei_m_state (tm l2) = ST_TEI_IDVERIFY ->
   (exists l2',
      get_l2 i w' = Some l2' /\ tei_m_state (tm l2') = ST_TEI_NOP
      /\ timer_pending (tm l2') = false /\ tei l2' = tei l2)
   /\ exists fr,
        S (length fr) = n /\ (n <= 2)%nat
        /\ Forall (fun f => nth 6 (data f) 0 = ID_VERIFY) fr
        /\ emitted w w' fr [RemovalRequested i]).
Proof.
  intros Hl2 Hok Hnv. cbv zeta.
  unfold session_ok in Hok. split; intros Hs; rewrite Hs in Hok.
  - destruct Hok as [Ht Hn]. destruct n as [|n]; [lia|].
    destruct (idreq_gives_up i n w l2 Hl2 Hs Hnv)
      as ((l2' & H1 & H2 & H3 & H4) & fr & Hlen & Hall & E).
    split.
    + exists l2'. split_and!; try done. congruence.
    + exists fr. split_and!; try done; [by rewrite Hlen | lia].
  - destruct n as [|n]; [lia|].
    destruct (verify_gives_up i n w l2 Hl2 Hs Hnv)
      as ((l2' & H1 & H2 & H3 & H4) & fr & Hlen & Hall & E).
    split.
    + exists l2'. split_and!; done.
    + exists fr. split_and!; try done; [by rewrite Hlen | lia].
Qed.

(** ** The three ways of a frame out of [put_tei_msg] *)

(** X29. [put_tei_msg] gives the frame the next id and puts it at the
    tail of the send queue. While the link is not active, the
    activation of the link is asked for and the frame waits; while a
    frame is outstanding, the new one waits behind the queued ones and
    nothing else happens; otherwise the head of the queue, which is the
    new frame only if the queue was empty, is handed to the transport
    within the call. The registered entities are left alone. *)
Theorem put_tei_msg_three_ways i m_id r t (w : world) l2 :
  get_l2 i w = Some l2 ->
  let frame := tei_frame (mgr w) (flag l2) m_id r t in
  let w' := put_tei_msg i m_id r t w in
  nextid (mgr w') = nextid (new_id (mgr w)).2
  /\ mgr_layer2 (mgr w') = mgr_layer2 (mgr w)
  /\ (test_bit MGR_PH_ACTIVE (options (mgr w)) = false ->
      out w' = out w ++ [Out_activate_req]
      /\ sendq (mgr w') = sendq (mgr w) ++ [frame])
  /\ (test_bit MGR_PH_ACTIVE (options (mgr w)) = true ->
      test_bit MGR_PH_NOTREADY (options (mgr w)) = true ->
      out w' = out w /\ sendq (mgr w') = sendq (mgr w) ++ [frame])
  /\ (forall skb rest,
        test_bit MGR_PH_ACTIVE (options (mgr w)) = true ->
        test_bit MGR_PH_NOTREADY (options (mgr w)) = false ->
        sendq (mgr w) ++ [frame] = skb :: rest ->
        out w' = out w ++ [Out_recv skb (recv_rc w 0%nat)]
        /\ sendq (mgr w') = rest).
Proof.
  intros Hl2. cbv zeta. split_and!.
  - by eapply put_tei_msg_nextid.
  - apply put_tei_msg_layer2.
  - intros Ha. unfold put_tei_msg, tei_frame. rewrite Hl2.
    destruct (new_id_fields (mgr w)) as (Ho & _ & Hq & _).
    destruct (new_id (mgr w)) as [id m]. cbn [fst snd _alloc_mISDN_skb] in *.
    rewrite mgr_send_down_inactive by (cbn; by rewrite Ho).
    cbn. by rewrite Hq.
  - intros Ha Hn. unfold put_tei_msg, tei_frame. rewrite Hl2.
    destruct (new_id_fields (mgr w)) as (Ho & _ & Hq & _).
    destruct (new_id (mgr w)) as [id m]. cbn [fst snd _alloc_mISDN_skb] in *.
    unfold mgr_send_down. cbn. rewrite Ho, Ha. cbn [negb].
    rewrite do_send_idle by (right; left; cbn; by rewrite Ho).
    cbn. by rewrite Hq.
  - intros skb rest Ha Hn Hq'. unfold put_tei_msg. unfold tei_frame in Hq'.
    rewrite Hl2.
    destruct (new_id_fields (mgr w)) as (Ho & _ & Hq & _).
    destruct (new_id (mgr w)) as [id m]. cbn [fst snd _alloc_mISDN_skb] in *.
    unfold mgr_send_down. cbn. rewrite Ho, Ha. cbn [negb].
    match goal with |- context [do_send ?w1] =>
      destruct (do_send_hands w1 skb rest) as (H1 & H2 & _) end;
      [cbn; by rewrite Ho | cbn; by rewrite Ho | cbn; by rewrite Hq |].
    done.
Qed.

(** ** The options of a new entity *)

Lemma create_teimgr_opt c kz crq (w : world) :
  (create_teimgr c kz crq w).1 = 0 ->
  exists l2,
    c (protocol crq)
      (let opt := if adr_tei crq <? 64 then set_bit OPTION_L2_FIXEDTEI 0 else 0 in
       let opt := if adr_tei crq =? 0 then set_bit OPTION_L2_PTP opt else opt in
       if nrbchan (mgr w) >? 2 then set_bit OPTION_L2_PMX opt else opt)
      (adr_tei crq) = Some l2.
Proof.
  unfold create_teimgr. cbv zeta.
  repeat match goal with
  | |- context [if ?c then (- _, _) else _] => destruct c; [done|]
  end.
  match goal with |- context [c ?p ?o ?t] => destruct (c p o t) as [l2|] eqn:Hc end;
    [|done].
  intros _. by exists l2.
Qed.

Lemma test_bit_0 n : test_bit n 0 = false.
Proof. unfold test_bit. apply Z.bits_0. Qed.

(** X30. The options that [create_teimgr] asks [create_l2] for. With
    the three option bits at different places, a call that returns 0 has
    made the entity with OPTION_L2_FIXEDTEI exactly for a TEI below 64,
    with OPTION_L2_PTP exactly for the TEI 0, with OPTION_L2_PMX exactly
    when the device has more than two B channels, and with no other
    option. *)
Theorem create_teimgr_options c kz crq (w : world) :
  0 <= OPTION_L2_FIXEDTEI -> 0 <= OPTION_L2_PTP -> 0 <= OPTION_L2_PMX ->
  OPTION_L2_FIXEDTEI <> OPTION_L2_PTP -> OPTION_L2_FIXEDTEI <> OPTION_L2_PMX ->
  OPTION_L2_PTP <> OPTION_L2_PMX ->
  (create_teimgr c kz crq w).1 = 0 ->
  exists opt l2,
    c (protocol crq) opt (adr_tei crq) = Some l2
    /\ (test_bit OPTION_L2_FIXEDTEI opt = true <-> adr_tei crq < 64)
    /\ (test_bit OPTION_L2_PTP opt = true <-> adr_tei crq = 0)
    /\ (test_bit OPTION_L2_PMX opt = true <-> nrbchan (mgr w) > 2)
    /\ (forall n, n <> OPTION_L2_FIXEDTEI -> n <> OPTION_L2_PTP ->
         n <> OPTION_L2_PMX -> test_bit n opt = false).
Proof.
  intros Hf Hp Hx Hfp Hfx Hpx H0.
  destruct (create_teimgr_opt c kz crq w H0) as [l2 Hc]. cbv zeta in Hc.
  eexists _, l2. split; [exact Hc|].
  destruct (Z.ltb_spec (adr_tei crq) 64) as [H64|H64];
  destruct (Z.eqb_spec (adr_tei crq) 0) as [Ht0|Ht0];
  destruct (Z.gtb_spec (nrbchan (mgr w)) 2) as [Hn|Hn];
  split_and!;
  try (intros n ? ? ?);
  rewrite ?test_set_eq, ?test_set_ne, ?test_bit_0 by done;
  rewrite ?test_set_eq, ?test_set_ne, ?test_bit_0 by done;
  rewrite ?test_set_eq, ?test_set_ne, ?test_bit_0 by done;
  try done; split; (done || lia).
Qed.

(** ** An entity with a fixed TEI and the frames of its siblings

    The lemmas for C10, which needs the locality of the routines shown
    above, and C10 itself. *)

Lemma notes_of_app i (a b : list output) :
  notes_of i (a ++ b) = notes_of i a ++ notes_of i b.
Proof. unfold notes_of. apply omap_app. Qed.

Lemma notes_of_nil i (evs : list output) : notes evs = [] -> notes_of i evs = [].
Proof.
  induction evs as [|e evs IH]; [done|].
  destruct e; cbn; try done; exact IH.
Qed.

Lemma notes_of_emitted i (w w' : world) fr :
  emitted w w' fr [] -> notes_of i (out w') = notes_of i (out w).
Proof.
  intros (evs & -> & Hn & _).
  by rewrite notes_of_app, (notes_of_nil _ _ Hn), app_nil_r.
Qed.

Lemma notes_of_put_tei_msg i k m_id r t (w : world) :
  notes_of i (out (put_tei_msg k m_id r t w)) = notes_of i (out w).
Proof.
  destruct (get_l2 k w) as [l2|] eqn:Hk.
  - eapply notes_of_emitted. by apply emitted_put_tei_msg.
  - unfold put_tei_msg. by rewrite Hk.
Qed.

Lemma notes_of_tei_l2 i k cmd arg (w : world) :
  k <> i -> notes_of i (out (tei_l2 k cmd arg w)) = notes_of i (out w).
Proof.
  intros Hk.
  assert (out (tei_l2 k cmd arg w) = out w ++ [Out_tei_l2 k cmd arg]) as ->
    by (unfold tei_l2; by destruct cmd).
  rewrite notes_of_app. cbn. rewrite decide_False by done. apply app_nil_r.
Qed.

Lemma notes_of_upd_tm i k f (w : world) :
  notes_of i (out (upd_tm k f w)) = notes_of i (out w).
Proof. done. Qed.

Lemma notes_of_random_ri i (w : world) :
  notes_of i (out (random_ri w).2) = notes_of i (out w).
Proof. done. Qed.

Lemma findtei_found (m : mISDNmanager) (t : Z) o :
  findtei m t = Some o ->
  exists l2, mgr_layer2 m !! o = Some l2
    /\ sapi l2 = 0 /\ tei l2 > 0 /\ tei l2 <> GROUP_TEI /\ tei l2 = t.
Proof.
  unfold findtei. intros Hf. apply fmap_Some in Hf as ([o' l2] & Hf & ->).
  apply list_find_Some in Hf as (Hl & Hp & _). by exists l2.
Qed.

Ltac notes_session Hne Hf Hd :=
  try rewrite random_ri_eta; cbn [fst snd];
  unfold mISDN_FsmChangeState, mISDN_FsmAddTimer, mISDN_FsmDelTimer;
  repeat first
    [ rewrite notes_of_upd_tm | rewrite notes_of_put_tei_msg
    | rewrite notes_of_random_ri | rewrite Hd
    | rewrite notes_of_tei_l2
        by first [ by intros -> | by eapply Hf ] ];
  try done.

Lemma routine_notes_of (d : dispatcher) s ev r fi ev' arg (w : world) i :
  jump TeiFnList s ev = Some r -> i <> fi ->
  (ev = EV_ASSIGN -> forall o, findtei (mgr w) (dp_tei arg) = Some o -> o <> i) ->
  (forall o w, notes_of i (out (d o EV_VERIFY [] w)) = notes_of i (out w)) ->
  notes_of i (out (r d fi ev' arg w)) = notes_of i (out w).
Proof.
  intros Hj Hne Hf Hd.
  destruct s, ev; simpl in Hj; try discriminate; injection Hj as <-;
    unfold tei_id_request, tei_id_test_dup, tei_assign_req, tei_id_verify,
      tei_id_remove, tei_id_chk_req, tei_id_req_tout, tei_id_assign,
      tei_id_denied, tei_id_ver_tout;
    open_routine; try done; notes_session Hne Hf Hd.
Qed.

Lemma verify_notes_of i o (w : world) :
  notes_of i (out (mISDN_FsmEvent_n 1 o EV_VERIFY [] w)) = notes_of i (out w).
Proof.
  simpl. destruct (get_l2 o w) as [l2|] eqn:Ho; [|done].
  destruct (tei_m_state (tm l2)); simpl; try done.
  unfold tei_id_verify. rewrite Ho.
  unfold mISDN_FsmChangeState, mISDN_FsmAddTimer.
  by rewrite !notes_of_upd_tm, notes_of_put_tei_msg.
Qed.

Lemma FsmEvent_notes_of i j ev arg (w : world) :
  j <> i ->
  (ev = EV_ASSIGN -> forall o, findtei (mgr w) (dp_tei arg) = Some o -> o <> i) ->
  notes_of i (out (mISDN_FsmEvent j ev arg w)) = notes_of i (out w).
Proof.
  intros Hne Hf. destruct (get_l2 j w) as [me|] eqn:Hj.
  - rewrite (FsmEvent_run _ _ _ _ _ Hj).
    destruct (jump TeiFnList (tei_m_state (tm me)) ev) as [r|] eqn:Hr; [|done].
    eapply routine_notes_of; [exact Hr | congruence | exact Hf |].
    intros o w'. apply verify_notes_of.
  - unfold mISDN_FsmEvent. simpl. by rewrite Hj.
Qed.

Lemma FsmEvent_assign_spares i j dp (w : world) l2 :
  j <> i -> get_l2 i w = Some l2 ->
  ~ (sapi l2 = 0 /\ tei l2 > 0 /\ tei l2 <> GROUP_TEI /\ tei l2 = dp_tei dp) ->
  get_l2 i (mISDN_FsmEvent j EV_ASSIGN dp w) = Some l2.
Proof.
  intros Hne Hi Hnot. destruct (get_l2 j w) as [me|] eqn:Hj.
  - destruct (decide (tei_m_state (tm me) = ST_TEI_NOP)) as [Hs|Hs].
    + rewrite (FsmEvent_run _ _ _ _ _ Hj), Hs.
      set (d := mISDN_FsmEvent_n 1). simpl.
      unfold tei_id_test_dup. rewrite Hj.
      destruct (findtei (mgr w) (dp_tei dp)) as [o|] eqn:Hf; [|done].
      destruct (get_l2 o w) as [other|] eqn:Ho; [|done].
      destruct (negb _); [|done].
      subst d. rewrite <- (FsmEvent_n_verify 1).
      apply verify_other; [|done]. intros ->.
      apply findtei_found in Hf as (l2' & Hl' & Hp).
      unfold get_l2 in Hi. rewrite Hi in Hl'. injection Hl' as <-. by apply Hnot.
    + rewrite FsmEvent_other_sessions; [done | congruence |].
      right. intros l2' Hl'. rewrite Hj in Hl'. by injection Hl' as <-.
  - unfold mISDN_FsmEvent. simpl. by rewrite Hj.
Qed.

(** A message delivered to another entity: the entity [i] is as it was
    and its layer 2 is told nothing, unless the message is an
    ID_ASSIGNED for the TEI of the entity. *)
Lemma sibling_delivery_spares i j mt dp len (w : world) l2 :
  j <> i -> get_l2 i w = Some l2 ->
  mt <> ID_ASSIGNED
  \/ ~ (sapi l2 = 0 /\ tei l2 > 0 /\ tei l2 <> GROUP_TEI /\ tei l2 = dp_tei dp) ->
  get_l2 i (tei_ph_data_ind j mt dp len w) = Some l2
  /\ notes_of i (out (tei_ph_data_ind j mt dp len w)) = notes_of i (out w).
Proof.
  intros Hne Hi Hc. unfold tei_ph_data_ind.
  destruct (get_l2 j w) as [me|] eqn:Hj; [|done].
  destruct (_ && _); [done|].
  destruct (Z.eqb_spec mt ID_ASSIGNED) as [Hmt|_].
  { destruct Hc as [Hc|Hc]; [done|]. split.
    - by apply FsmEvent_assign_spares.
    - apply FsmEvent_notes_of; [done|]. intros _ o Hf ->.
      apply findtei_found in Hf as (l2' & Hl' & Hp).
      unfold get_l2 in Hi. rewrite Hi in Hl'. injection Hl' as <-. by apply Hc. }
  assert (Hother : forall ev, ev <> EV_ASSIGN ->
            get_l2 i (mISDN_FsmEvent j ev dp w) = Some l2
            /\ notes_of i (out (mISDN_FsmEvent j ev dp w)) = notes_of i (out w)).
  { intros ev Hev. split.
    - rewrite FsmEvent_other_sessions; [done | congruence | by left].
    - by apply FsmEvent_notes_of. }
  destruct (mt =? ID_DENIED); [by apply Hother|].
  destruct (mt =? ID_CHK_REQ); [by apply Hother|].
  destruct (mt =? ID_REMOVE); [by apply Hother|]. done.
Qed.

(** No routine changes the flags of an entity. *)
Ltac flag_session Hd :=
  try rewrite random_ri_eta; cbn [fst snd];
  unfold mISDN_FsmChangeState, mISDN_FsmAddTimer, mISDN_FsmDelTimer;
  repeat first
    [ rewrite get_l2_upd_tm | rewrite get_l2_upd_l2
    | rewrite get_l2_put_tei_msg | rewrite get_l2_tei_l2
    | rewrite get_l2_emit | rewrite get_l2_world | rewrite get_l2_random_ri
    | rewrite Hd ];
  repeat case_decide; try done;
  match goal with |- context [get_l2 ?j ?w] => by destruct (get_l2 j w) end.

Lemma routine_keeps_flag (d : dispatcher) s ev r fi ev' arg (w : world) j :
  jump TeiFnList s ev = Some r ->
  (forall o w, flag <$> get_l2 j (d o EV_VERIFY [] w) = flag <$> get_l2 j w) ->
  flag <$> get_l2 j (r d fi ev' arg w) = flag <$> get_l2 j w.
Proof.
  intros Hj Hd.
  destruct s, ev; simpl in Hj; try discriminate; injection Hj as <-;
    unfold tei_id_request, tei_id_test_dup, tei_assign_req, tei_id_verify,
      tei_id_remove, tei_id_chk_req, tei_id_req_tout, tei_id_assign,
      tei_id_denied, tei_id_ver_tout;
    open_routine; try done; flag_session Hd.
Qed.

Lemma verify_keeps_flag o j (w : world) :
  flag <$> get_l2 j (mISDN_FsmEvent_n 1 o EV_VERIFY [] w) = flag <$> get_l2 j w.
Proof.
  simpl. destruct (get_l2 o w) as [l2|] eqn:Ho; [|done].
  destruct (tei_m_state (tm l2)); simpl; try done.
  unfold tei_id_verify. rewrite Ho.
  unfold mISDN_FsmChangeState, mISDN_FsmAddTimer.
  rewrite !get_l2_upd_tm, get_l2_put_tei_msg.
  case_decide; [|done]. by destruct (get_l2 j w).
Qed.

Lemma FsmEvent_keeps_flag i j ev arg (w : world) :
  flag <$> get_l2 j (mISDN_FsmEvent i ev arg w) = flag <$> get_l2 j w.
Proof.
  destruct (get_l2 i w) as [me|] eqn:Hi.
  - rewrite (FsmEvent_run _ _ _ _ _ Hi).
    destruct (jump TeiFnList (tei_m_state (tm me)) ev) as [r|] eqn:Hr; [|done].
    eapply routine_keeps_flag; [exact Hr|]. intros o w'. apply verify_keeps_flag.
  - unfold mISDN_FsmEvent. simpl. by rewrite Hi.
Qed.

Lemma tei_ph_data_ind_keeps_flag i j mt dp len (w : world) :
  flag <$> get_l2 j (tei_ph_data_ind i mt dp len w) = flag <$> get_l2 j w.
Proof.
  unfold tei_ph_data_ind. destruct (get_l2 i w); [|done].
  repeat match goal with
  | |- context [if ?c then _ else _] => destruct c
  end; try done; apply FsmEvent_keeps_flag.
Qed.

Lemma fold_left_inv {A B} (I : A -> Prop) (f : A -> B -> A) (l : list B) (a : A) :
  I a -> (forall a b, I a -> I (f a b)) -> I (fold_left f l a).
Proof.
  intros Ha Hf. revert a Ha.
  induction l as [|b l IH]; intros a Ha; simpl; [done|]. by apply IH, Hf.
Qed.

Lemma fold_left_ext_inv {A B} (I : A -> Prop) (f g : A -> B -> A) (l : list B)
    (a : A) :
  I a -> (forall a b, I a -> I (f a b)) ->
  (forall a b, I a -> f a b = g a b) ->
  fold_left f l a = fold_left g l a.
Proof.
  intros Ha Hf Hfg. revert a Ha.
  induction l as [|b l IH]; intros a Ha; simpl; [done|].
  rewrite <- (Hfg a b Ha). by apply IH, Hf.
Qed.

(** The world after [ph_data_ind]: as before, or after the fan-out. *)
Lemma ph_data_ind_world skb (w : world) :
  (ph_data_ind skb w).2 = w
  \/ (ph_data_ind skb w).2
     = for_each_layer2
         (fun i => tei_ph_data_ind i (nth 6 (data skb) 0) (skipn 4 (data skb))
                     (Z.of_nat (length (data skb)) - 4)) w.
Proof.
  unfold ph_data_ind, new_tei_req. cbv zeta.
  repeat match goal with
  | |- context [if ?c then _ else _] => destruct c
  end; cbn [snd]; auto.
Qed.

(** C10, amended. An entity whose own flags have FLG_FIXED_TEI set and
    FLG_LAPD_NET clear, whatever the role of the manager.

    - [tei_ph_data_ind] for the entity discards every message, whatever
      its type and its TEI: nothing reaches the state machine of the
      entity, and the world (state, timer and binding of the entity,
      what is sent, what layer 2 is told) is unchanged.
    - The fan-out of a frame to the registered entities is the fan-out
      that leaves the entity out, also after the sessions of the
      entities before it have run.
    - A whole frame in [ph_data_ind] leaves the entity (state, timer,
      binding) as it was and tells layer 2 nothing about it, if the
      frame is not an ID_ASSIGNED, or is one that does not carry the
      TEI under which [findtei] finds the entity: so for every
      ID_REMOVE and every ID_CHK_REQ.
    - The exception: an ID_ASSIGNED with the TEI of the entity and
      another reference value, delivered to another entity while
      [findtei] returns the entity for this TEI. An idle session raises
      EV_VERIFY on the entity, whose idle session then waits in
      ST_TEI_IDVERIFY with two tries and its timer; a session in
      ST_TEI_IDREQ calls [tei_l2] with MDL_ERROR_RSP for the entity. *)
Theorem C10_fixed_tei_discards i (w : world) l2 :
  get_l2 i w = Some l2 ->
  test_bit FLG_FIXED_TEI (flag l2) = true ->
  test_bit FLG_LAPD_NET (flag l2) = false ->
  (forall mt dp len,
     let w' := tei_ph_data_ind i mt dp len w in
     w' = w /\ get_l2 i w' = Some l2 /\ notes (out w') = notes (out w))
  /\
  (forall mt dp len,
     for_each_layer2 (fun j => tei_ph_data_ind j mt dp len) w
     = for_each_layer2
         (fun j w => if decide (j = i) then w else tei_ph_data_ind j mt dp len w) w)
  /\
  (forall skb,
     nth 6 (data skb) 0 <> ID_ASSIGNED
     \/ ~ (sapi l2 = 0 /\ tei l2 > 0 /\ tei l2 <> GROUP_TEI
           /\ tei l2 = dp_tei (skipn 4 (data skb))) ->
     let w' := (ph_data_ind skb w).2 in
     get_l2 i w' = Some l2 /\ notes_of i (out w') = notes_of i (out w))
  /\
  (forall j me dp len,
     get_l2 j w = Some me ->
     test_bit FLG_FIXED_TEI (flag me) && negb (test_bit FLG_LAPD_NET (flag me))
     = false ->
     findtei (mgr w) (dp_tei dp) = Some i -> ri (tm l2) <> dp_ri dp ->
     let w' := tei_ph_data_ind j ID_ASSIGNED dp len w in
     (tei_m_state (tm me) = ST_TEI_NOP ->
      w' = mISDN_FsmEvent i EV_VERIFY [] w)
     /\ (tei_m_state (tm me) = ST_TEI_NOP -> tei_m_state (tm l2) = ST_TEI_NOP ->
         get_l2 i w'
         = Some (set_tm {| ri := ri (tm l2); nval := 2; tval := tval (tm l2);
                           tei_m_state := ST_TEI_IDVERIFY;
                           timer_pending := true |} l2))
     /\ (tei_m_state (tm me) = ST_TEI_IDREQ ->
         w' = tei_l2 i MDL_ERROR_RSP 0 w)).
Proof.
  intros Hl2 Hf Hn. split_and!.
  - intros mt dp len. cbv zeta.
    by rewrite (fixed_tei_discards i w l2 mt dp len Hl2 Hf Hn).
  - intros mt dp len. unfold for_each_layer2.
    apply (fold_left_ext_inv
             (fun w' => flag <$> get_l2 i w' = Some (flag l2))).
    + by rewrite Hl2.
    + intros w' j Hw'. by rewrite tei_ph_data_ind_keeps_flag.
    + intros w' j Hw'. case_decide as Hj; [|done]. subst j.
      destruct (get_l2 i w') as [l2'|] eqn:Hl'; [|done].
      injection Hw' as Hfl.
      apply (fixed_tei_discards i w' l2'); [done | by rewrite Hfl..].
  - intros skb Hc. cbv zeta.
    destruct (ph_data_ind_world skb w) as [->| ->]; [done|].
    unfold for_each_layer2.
    apply (fold_left_inv
             (fun w' => get_l2 i w' = Some l2
                        /\ notes_of i (out w') = notes_of i (out w))); [done|].
    intros w' j [Hw' Hno]. destruct (decide (j = i)) as [->|Hj].
    + by rewrite (fixed_tei_discards i w' l2 _ _ _ Hw' Hf Hn).
    + rewrite <- Hno. by apply sibling_delivery_spares.
  - intros j me dp len Hj Hfl Hfind Hri. cbv zeta.
    assert (Hd : tei_ph_data_ind j ID_ASSIGNED dp len w
                 = mISDN_FsmEvent j EV_ASSIGN dp w).
    { unfold tei_ph_data_ind. by rewrite Hj, Hfl. }
    rewrite Hd. split_and!.
    + intros Hs. by apply (duplicate_in_NOP j i w me l2 dp).
    + intros Hs Hs2. rewrite (duplicate_in_NOP j i w me l2 dp) by done.
      exact (proj1 (verify_starts i w l2 Hl2 Hs2)).
    + intros Hs. by apply (duplicate_in_IDREQ j i w me l2 dp).
Qed.

End Proofs.

(** * The claims on concrete inputs *)

Section Runs.
#[local] Existing Instance linux_header.

(** The ids of [new_id] are odd, MISDN_ID_NONE is even. *)
Lemma linux_new_id_not_none (m : mISDNmanager) : (new_id m).1 <> MISDN_ID_NONE.
Proof.
  intros H. apply (f_equal (fun x => Z.testbit x 0)) in H. revert H.
  unfold new_id. cbn [fst]. unfold u32.
  change 4294967296 with (2 ^ 32).
  rewrite Z.mod_pow2_bits_low by lia. rewrite Z.lor_spec.
  change (Z.testbit TEI_SAPI 0) with true. by rewrite orb_true_r.
Qed.

Lemma run_A7_reachable : reachable run_A7.
Proof.
  eapply reachable_step; [|apply (step_l2_tei 1 MDL_ASSIGN_IND 0)].
  eapply reachable_step; [|apply (step_mgr_ctrl example_create_l2 true CREATE_CHANNEL (crq_TE 127))].
  eapply reachable_step;
    [|apply (step_mgr_send (msg PH_DATA_IND 0 (tei_msg_bp 0 ID_ASSIGNED 77 70)))].
  eapply reachable_step;
    [|apply (step_mgr_send (msg PH_DATA_CNF (lastid (mgr run_A3)) []))].
  eapply reachable_step; [|apply (step_mgr_send (msg PH_ACTIVATE_IND 0 []))].
  eapply reachable_step; [|apply (step_l2_tei 0 MDL_ASSIGN_IND 0)].
  eapply reachable_step; [|apply (step_mgr_ctrl example_create_l2 true CREATE_CHANNEL (crq_TE 127))].
  apply reachable_init.
Qed.

Lemma run_B2_reachable : reachable run_B2.
Proof.
  eapply reachable_step;
    [|apply (step_mgr_ctrl example_create_l2 true CREATE_CHANNEL (crq_TE 127))].
  eapply reachable_step;
    [|apply (step_mgr_ctrl example_create_l2 true CREATE_CHANNEL (crq_TE 0))].
  apply reachable_init.
Qed.

Lemma run_C5_reachable : reachable run_C5.
Proof.
  eapply reachable_step; [|apply (step_l2_tei 1 MDL_ASSIGN_IND 0)].
  eapply reachable_step;
    [|apply (step_mgr_ctrl example_create_l2 true CREATE_CHANNEL (crq_TE 127))].
  eapply reachable_step; [|apply (step_l2_tei 0 MDL_ASSIGN_IND 0)].
  eapply reachable_step;
    [|apply (step_mgr_ctrl example_create_l2 true CREATE_CHANNEL (crq_TE 127))].
  eapply reachable_step; [|apply (step_mgr_send (msg PH_ACTIVATE_IND 0 []))].
  apply reachable_init.
Qed.

Lemma run_D1_reachable : reachable run_D1.
Proof.
  eapply reachable_step;
    [|apply (step_mgr_ctrl example_create_l2 true CREATE_CHANNEL (crq_NT 5))].
  apply reachable_init.
Qed.

(** C1 at run A7: the second entity waits for its TEI with the timer
    pending, the first one is idle with no timer. *)
Lemma C1_witness :
  (timer_pending (tm (session 127 0 5 3 1000 ST_TEI_IDREQ true)) = true <->
   tei_m_state (tm (session 127 0 5 3 1000 ST_TEI_IDREQ true)) = ST_TEI_IDREQ \/
   tei_m_state (tm (session 127 0 5 3 1000 ST_TEI_IDREQ true)) = ST_TEI_IDVERIFY)
  /\
  (timer_pending (tm (session 70 0 77 3 1000 ST_TEI_NOP false)) = true <->
   tei_m_state (tm (session 70 0 77 3 1000 ST_TEI_NOP false)) = ST_TEI_IDREQ \/
   tei_m_state (tm (session 70 0 77 3 1000 ST_TEI_NOP false)) = ST_TEI_IDVERIFY).
Proof.
  split.
  - apply (C1_timer_pending_iff_waiting run_A7 run_A7_reachable 1%nat).
    vm_compute. reflexivity.
  - apply (C1_timer_pending_iff_waiting run_A7 run_A7_reachable 0%nat).
    vm_compute. reflexivity.
Defined.

(** C2 at run A1: the entity has no TEI; the request with ri = 77 is
    queued, and after three expiries layer 2 has been told once that the
    assignment failed. *)
Lemma C2_witness :
  get_l2 0 (mISDN_FsmEvent 0%nat EV_IDREQ [] run_A1)
  = Some (session 127 0 77 3 1000 ST_TEI_IDREQ true)
  /\ get_l2 0 (FsmExpireTimer 0 (FsmExpireTimer 0 (FsmExpireTimer 0
       (mISDN_FsmEvent 0%nat EV_IDREQ [] run_A1))))
     = Some (session 127 0 5 0 1000 ST_TEI_NOP false)
  /\ exists frames,
       emitted (mISDN_FsmEvent 0%nat EV_IDREQ [] run_A1)
         (FsmExpireTimer 0 (FsmExpireTimer 0 (FsmExpireTimer 0
            (mISDN_FsmEvent 0%nat EV_IDREQ [] run_A1))))
         frames [AssignmentFailed 0].
Proof.
  destruct (C2_identity_request 0 run_A1 (session 127 0 0 0 1000 ST_TEI_NOP false))
    as [_ H]; [vm_compute; reflexivity | reflexivity |].
  destruct (H eq_refl) as (H1 & _ & _ & _ & _ & _ & H4 & _ & E).
  split_and!; [exact H1 | exact H4 | exact E].
Defined.

(** C3 fails at run A7: the second entity waits with ri = 5, and
    ID_ASSIGNED(ri = 5, tei = 70) arrives while the first entity is bound
    to TEI 70: the session keeps waiting. *)
Lemma C3_counterexample : ~ assign_completes_unconditionally.
Proof.
  intros H.
  destruct (H run_A7 1%nat (session 127 0 5 3 1000 ST_TEI_IDREQ true)
              (dp_assigned 5 70))
    as (l2' & Hg & _ & Hs & _);
    [apply run_A7_reachable | vm_compute; reflexivity | reflexivity
    | reflexivity |].
  vm_compute in Hg. injection Hg as <-. discriminate Hs.
Qed.

(** C3, amended, at run A4: ID_ASSIGNED(ri = 77, tei = 70) completes the
    assignment of the waiting entity. *)
Lemma C3_witness :
  exists l2',
    get_l2 0 (mISDN_FsmEvent 0%nat EV_ASSIGN (dp_assigned 77 70) run_A4) = Some l2' /\
    timer_pending (tm l2') = false /\
    tei_m_state (tm l2') = ST_TEI_NOP /\
    tei l2' = dp_tei (dp_assigned 77 70) /\
    emitted run_A4 (mISDN_FsmEvent 0%nat EV_ASSIGN (dp_assigned 77 70) run_A4)
      [] [AssignmentComplete 0 (dp_tei (dp_assigned 77 70))].
Proof.
  apply (C3_assignment_completes 0 run_A4
           (session 127 0 77 3 1000 ST_TEI_IDREQ true) (dp_assigned 77 70));
    vm_compute; reflexivity.
Defined.

(** C4 fails, in ST_TEI_IDREQ at run A7: ID_ASSIGNED(ri = 9, tei = 70)
    arrives at the waiting entity while the first entity is bound to TEI
    70 with ri = 77; the session of the first entity stays idle, no
    verification starts. And it fails for an idle receiver at run B2: the
    first entity is bound to TEI 0, which [findtei] never finds. *)
Lemma C4_counterexample :
  ~ duplicate_raises_verify ST_TEI_IDREQ /\ ~ duplicate_raises_verify ST_TEI_NOP.
Proof.
  split; intros H.
  - destruct (H run_A7 1%nat (session 127 0 5 3 1000 ST_TEI_IDREQ true)
                0%nat (session 70 0 77 3 1000 ST_TEI_NOP false)
                (dp_assigned 9 70)) as [Ho _];
      [apply run_A7_reachable | vm_compute; reflexivity | reflexivity
      | vm_compute; reflexivity | lia | reflexivity | vm_compute; lia |].
    vm_compute in Ho. discriminate Ho.
  - destruct (H run_B2 1%nat (session 127 0 0 0 1000 ST_TEI_NOP false)
                0%nat (session 0 32768 0 0 1000 ST_TEI_NOP false)
                (dp_assigned 9 0)) as [Ho _];
      [apply run_B2_reachable | vm_compute; reflexivity | reflexivity
      | vm_compute; reflexivity | lia | reflexivity | vm_compute; lia |].
    vm_compute in Ho. discriminate Ho.
Qed.

(** C4, amended, at run A6: the second entity is idle, ID_ASSIGNED(ri = 9,
    tei = 70) arrives and the first entity, bound to TEI 70 with ri = 77,
    is made to verify its TEI. *)
Lemma C4_witness :
  mISDN_FsmEvent 1%nat EV_ASSIGN (dp_assigned 9 70) run_A6
  = mISDN_FsmEvent 0%nat EV_VERIFY [] run_A6
  /\ get_l2 1 (mISDN_FsmEvent 1%nat EV_ASSIGN (dp_assigned 9 70) run_A6)
     = Some (session 127 0 0 0 1000 ST_TEI_NOP false).
Proof.
  destruct (C4_duplicate_assignment 1 0 run_A6
              (session 127 0 0 0 1000 ST_TEI_NOP false)
              (session 70 0 77 3 1000 ST_TEI_NOP false) (dp_assigned 9 70))
    as [H _];
    [vm_compute; reflexivity | vm_compute; reflexivity | lia
    | vm_compute; reflexivity | vm_compute; lia |].
  exact (H eq_refl).
Defined.

(** C5 at run A5v: the entity bound to TEI 70 verifies it; one more
    ID_VERIFY, then layer 2 is told to remove the TEI. *)
Lemma C5_witness :
  get_l2 0 (FsmExpireTimer 0 run_A5v)
  = Some (session 70 0 77 1 1000 ST_TEI_IDVERIFY true)
  /\ get_l2 0 (FsmExpireTimer 0 (FsmExpireTimer 0 run_A5v))
     = Some (session 70 0 77 0 1000 ST_TEI_NOP false)
  /\ emitted (FsmExpireTimer 0 run_A5v)
       (FsmExpireTimer 0 (FsmExpireTimer 0 run_A5v)) [] [RemovalRequested 0].
Proof.
  destruct (C5_verify_timeouts 0 run_A5v
              (session 70 0 77 2 1000 ST_TEI_IDVERIFY true))
    as [H _]; [vm_compute; reflexivity|].
  destruct (H eq_refl eq_refl) as (H1 & _ & H2 & E2).
  split_and!; [exact H1 | exact H2 | exact E2].
Defined.

(** C6 at ID_ASSIGNED(ri = 77, tei = 70). *)
Lemma C6_witness :
  length (tei_msg_bp 0 ID_ASSIGNED 77 70) = 8%nat
  /\ tei_frame_ok (msg PH_DATA_IND 0 (tei_msg_bp 0 ID_ASSIGNED 77 70)) = true
  /\ nth 6 (tei_msg_bp 0 ID_ASSIGNED 77 70) 0 = ID_ASSIGNED
  /\ dp_ri (skipn 4 (tei_msg_bp 0 ID_ASSIGNED 77 70)) = 77
  /\ dp_tei (skipn 4 (tei_msg_bp 0 ID_ASSIGNED 77 70)) = 70.
Proof.
  assert (Hsapi : 0 <= TEI_SAPI < 64) by (change (0 <= 63 < 64); lia).
  apply (@C6_codec_roundtrip linux_header Hsapi eq_refl
           0 ID_ASSIGNED 77 70 PH_DATA_IND 0); unfold ID_ASSIGNED; lia.
Defined.

(** C7 at run A4, a manager without the network option: ID_ASSIGNED is
    handed to the sessions. *)
Lemma C7_witness :
  ph_data_ind (msg PH_DATA_IND 0 (tei_msg_bp 0 ID_ASSIGNED 77 70)) run_A4
  = (0, run_A5).
Proof.
  destruct (C7_role_direction run_A4
              (msg PH_DATA_IND 0 (tei_msg_bp 0 ID_ASSIGNED 77 70)))
    as [H _]; [vm_compute; reflexivity|].
  destruct H as [_ H]; [left; reflexivity|].
  rewrite H; [|vm_compute; reflexivity]. vm_compute; reflexivity.
Defined.

(** C8 at run A7: one request is outstanding. *)
Lemma C8_witness :
  (test_bit MGR_PH_NOTREADY (options (mgr run_A7)) = true <->
   lastid (mgr run_A7) <> MISDN_ID_NONE)
  /\ (length (inflight run_A7) <= 1)%nat.
Proof.
  exact (proj1 (proj2 (@C8_one_frame_in_flight linux_header linux_new_id_not_none))
           run_A7 run_A7_reachable).
Defined.

(** C9 fails at run C5: the confirmation of the outstanding request
    arrives, the queued request is handed to the transport, which refuses
    it: [lastid] is MISDN_ID_NONE, not the id of that frame. *)
Lemma C9_counterexample : ~ ack_chains_unconditionally.
Proof.
  intros H.
  assert (Hq : sendq (mgr run_C5)
               = [msg PH_DATA_REQ 163647 [252; 255; 3; 15; 0; 5; 1; 255]])
    by (vm_compute; reflexivity).
  destruct (H run_C5 (lastid (mgr run_C5)) _ _ run_C5_reachable
              ltac:(vm_compute; reflexivity) eq_refl
              ltac:(vm_compute; reflexivity) Hq) as [_ Hl].
  vm_compute in Hl. discriminate Hl.
Qed.

(** C9, amended, at run C5: the refused frame is dropped, NOTREADY and
    [lastid] are cleared. *)
Lemma C9_witness :
  out (do_ack (lastid (mgr run_C5)) run_C5)
  = out run_C5
    ++ [Out_recv (msg PH_DATA_REQ 163647 [252; 255; 3; 15; 0; 5; 1; 255]) 1]
  /\ lastid (mgr (do_ack (lastid (mgr run_C5)) run_C5)) = MISDN_ID_NONE
  /\ test_bit MGR_PH_NOTREADY (options (mgr (do_ack (lastid (mgr run_C5)) run_C5)))
     = false.
Proof.
  destruct (C9_confirmation (lastid (mgr run_C5)) run_C5) as [_ H].
  destruct (H ltac:(vm_compute; reflexivity) eq_refl) as [_ H'].
  destruct (H' (msg PH_DATA_REQ 163647 [252; 255; 3; 15; 0; 5; 1; 255]) []
              ltac:(vm_compute; reflexivity) ltac:(vm_compute; reflexivity))
    as (Ho & _ & _ & Hf).
  destruct Hf as (Hl & Hn & _); [vm_compute; discriminate|].
  split_and!; [exact Ho | exact Hl | exact Hn].
Defined.

Lemma run_F2_reachable : reachable run_F2.
Proof.
  eapply reachable_step;
    [|apply (step_mgr_ctrl example_create_l2 true CREATE_CHANNEL (crq_TE 127))].
  eapply reachable_step;
    [|apply (step_mgr_ctrl example_create_l2 true CREATE_CHANNEL (crq_TE 5))].
  apply reachable_init.
Qed.

(** C10 fails twice. At run D1 the manager has not the network option,
    the entity has a fixed TEI and the flag FLG_LAPD_NET; ID_REMOVE for
    its TEI reaches its state machine and layer 2 is told to remove the
    TEI. At run F2 the entity has the fixed TEI 5 and not the flag
    FLG_LAPD_NET, and an idle entity is registered beside it; the frame
    ID_ASSIGNED(ri = 9, tei = 5) is discarded by the entity itself, but
    the idle one takes it for a duplicate assignment and raises
    EV_VERIFY on the entity with the fixed TEI, which starts to verify
    its TEI. *)
Lemma C10_counterexample :
  ~ fixed_tei_discards_by_manager_role /\ ~ fixed_tei_discards_whole_frame.
Proof.
  split.
  - intros H.
    destruct (H run_D1 0%nat (session 5 294912 0 0 2000 ST_TEI_NOP false)
                ID_REMOVE (skipn 4 (tei_msg_bp 0 ID_REMOVE 0 5)) 4)
      as [_ Hn];
      [apply run_D1_reachable | vm_compute; reflexivity | reflexivity
      | reflexivity |].
    vm_compute in Hn. discriminate Hn.
  - intros H.
    destruct (H run_F2 0%nat (session 5 32768 0 0 1000 ST_TEI_NOP false)
                (msg PH_DATA_IND 0 (tei_msg_bp 0 ID_ASSIGNED 9 5)))
      as [Hl _];
      [apply run_F2_reachable | vm_compute; reflexivity | reflexivity
      | reflexivity | reflexivity |].
    vm_compute in Hl. discriminate Hl.
Qed.

(** C10, amended, at run F2: the first entity has the fixed TEI 5 and
    not the flag FLG_LAPD_NET, the second one is idle. ID_REMOVE for the
    TEI 5 is discarded by the first entity, and the whole frame leaves
    it as it was; the fan-out of the frame is the one that skips it; and
    ID_ASSIGNED(ri = 9, tei = 5), delivered to the second entity, makes
    the first one verify its TEI. *)
Lemma C10_witness :
  tei_ph_data_ind 0 ID_REMOVE (skipn 4 (tei_msg_bp 0 ID_REMOVE 0 5)) 4 run_F2
  = run_F2
  /\ for_each_layer2
       (fun j => tei_ph_data_ind j ID_REMOVE (skipn 4 (tei_msg_bp 0 ID_REMOVE 0 5)) 4)
       run_F2
     = for_each_layer2
         (fun j w => if decide (j = 0%nat) then w
                     else tei_ph_data_ind j ID_REMOVE
                            (skipn 4 (tei_msg_bp 0 ID_REMOVE 0 5)) 4 w)
         run_F2
  /\ get_l2 0 (ph_data_ind (msg PH_DATA_IND 0 (tei_msg_bp 0 ID_REMOVE 0 5)) run_F2).2
     = Some (session 5 32768 0 0 1000 ST_TEI_NOP false)
  /\ get_l2 0 (tei_ph_data_ind 1 ID_ASSIGNED (dp_assigned 9 5) 4 run_F2)
     = Some (session 5 32768 0 2 1000 ST_TEI_IDVERIFY true).
Proof.
  destruct (C10_fixed_tei_discards 0 run_F2
              (session 5 32768 0 0 1000 ST_TEI_NOP false)
              ltac:(vm_compute; reflexivity) ltac:(vm_compute; reflexivity)
              ltac:(vm_compute; reflexivity))
    as (Hown & Hskip & Hframe & Hdup).
  split_and!.
  - exact (proj1 (Hown ID_REMOVE (skipn 4 (tei_msg_bp 0 ID_REMOVE 0 5)) 4)).
  - exact (Hskip ID_REMOVE (skipn 4 (tei_msg_bp 0 ID_REMOVE 0 5)) 4).
  - refine (proj1 (Hframe (msg PH_DATA_IND 0 (tei_msg_bp 0 ID_REMOVE 0 5)) _)).
    left. vm_compute. discriminate.
  - destruct (Hdup 1%nat (session 127 0 0 0 1000 ST_TEI_NOP false)
                (dp_assigned 9 5) 4
                ltac:(vm_compute; reflexivity) ltac:(vm_compute; reflexivity)
                ltac:(vm_compute; reflexivity) ltac:(vm_compute; discriminate))
      as (_ & Hv & _).
    exact (Hv eq_refl eq_refl).
Defined.

(** * The further properties on concrete inputs *)

(** X1 at run A7, and at the step of run N0 in which [dl_unit_data]
    takes an id. *)
Lemma X1_witness :
  1 <= nextid (mgr run_A7) <= 0x7fff
  /\ 1 <= nextid (mgr (mgr_send (msg DL_UNITDATA_REQ 0 [8; 1])
                         (transport_up (msg DL_UNITDATA_REQ 0 [8; 1]) run_N0)).2)
     <= 0x7fff.
Proof.
  destruct nextid_stays_in_range as (_ & Hstep & Hreach). split.
  - exact (Hreach run_A7 run_A7_reachable).
  - apply (Hstep run_N0); [apply step_mgr_send | vm_compute; split; discriminate].
Defined.

(** X2 at a fresh manager: the first id has the counter 1 in its upper
    half, and the second id differs from it. *)
Lemma X2_witness :
  Z.shiftr (new_id (mISDN_create_manager 2)).1 16 = 1
  /\ (new_id (new_id (mISDN_create_manager 2)).2).1
     <> (new_id (mISDN_create_manager 2)).1.
Proof.
  assert (Hs : 0 <= TEI_SAPI < 65536) by (change (0 <= 63 < 65536); lia).
  assert (Hn : 1 <= nextid (mISDN_create_manager 2) <= 0x7fff)
    by (change (1 <= 1 <= 32767); lia).
  destruct (@new_id_period linux_header (mISDN_create_manager 2) Hs Hn)
    as (H1 & H2 & _).
  split; [exact H1|]. apply (H2 1). lia.
Defined.

(** X3 at the step from run A2 to run A3: the queued request is handed
    to the transport. *)
Lemma X3_witness :
  exists evs frames,
    out run_A3 = out run_A2 ++ evs /\
    handed evs ++ sendq (mgr run_A3) = sendq (mgr run_A2) ++ frames.
Proof.
  apply (send_queue_is_fifo run_A2 run_A3).
  unfold run_A3. cbv zeta. apply step_mgr_send.
Defined.

(** X4 at run A3, where a frame is outstanding, and at run A2 with the
    link active, where the queued request is handed over. *)
Lemma X4_witness :
  do_send run_A3 = run_A3
  /\ out (do_send run_A2_active)
     = out run_A2_active
       ++ [Out_recv (msg PH_DATA_REQ 98111 [252; 255; 3; 15; 0; 77; 1; 255]) 0].
Proof.
  split.
  - apply (proj1 (do_send_one_frame run_A3)). right; left.
    vm_compute; reflexivity.
  - destruct (proj2 (do_send_one_frame run_A2_active)
                (msg PH_DATA_REQ 98111 [252; 255; 3; 15; 0; 77; 1; 255]) [])
      as [H _]; [vm_compute; reflexivity..|].
    exact H.
Defined.

(** X5 at run N0 and, for the refusal, at run A0. *)
Lemma X5_witness :
  dl_unit_data (msg DL_UNITDATA_REQ 0 [8; 1]) run_A0 = (- EINVAL, run_A0)
  /\ sendq (mgr (dl_unit_data (msg DL_UNITDATA_REQ 0 [8; 1]) run_N0).2)
     = [msg PH_DATA_REQ 98111 [2; 255; 3; 8; 1]].
Proof.
  split.
  - apply (proj1 (dl_unit_data_broadcast (msg DL_UNITDATA_REQ 0 [8; 1]) run_A0)).
    vm_compute; reflexivity.
  - destruct (proj2 (dl_unit_data_broadcast (msg DL_UNITDATA_REQ 0 [8; 1]) run_N0))
      as (_ & _ & _ & H); [vm_compute; reflexivity|].
    destruct H as [_ H]; [vm_compute; reflexivity|]. exact H.
Defined.

(** X6 at the step from run A1 to run A2: the request is queued while
    the link is not active. *)
Lemma X6_witness : handed (out run_A2) = handed (out run_A1).
Proof.
  apply (inactive_link_hands_nothing run_A1 run_A2).
  - unfold run_A2. apply step_l2_tei.
  - vm_compute; reflexivity.
  - vm_compute; reflexivity.
Defined.

(** X7 at run A7: the second entity waits for its TEI. *)
Lemma X7_witness :
  tei (session 127 0 5 3 1000 ST_TEI_IDREQ true) = GROUP_TEI
  /\ 1 <= nval (tm (session 127 0 5 3 1000 ST_TEI_IDREQ true)) <= 3.
Proof.
  destruct (proj2 waiting_session_has_tries_left run_A7 1%nat
              (session 127 0 5 3 1000 ST_TEI_IDREQ true) run_A7_reachable)
    as [H _]; [vm_compute; reflexivity|].
  exact (H eq_refl).
Defined.

(** X8 at run B2, whose first entity has the TEI 0, and at run A7, whose
    first entity is bound to the TEI 70. *)
Lemma X8_witness :
  findtei (mgr run_B2) 0 = None /\ findtei (mgr run_A7) 70 = Some 0%nat.
Proof.
  split.
  - apply (proj2 (findtei_first_bound_entity (mgr run_B2) 0)). left. lia.
  - apply (proj1 (findtei_first_bound_entity (mgr run_A7) 70) 0%nat).
    split_and!; [lia | discriminate | | intros j l2' Hj; lia].
    exists (session 70 0 77 3 1000 ST_TEI_NOP false).
    split_and!; vm_compute; reflexivity.
Defined.

(** X9 at run A0: the first entity is registered. *)
Lemma X9_witness :
  exists opt l2,
    example_create_l2 (protocol (crq_TE 127)) opt (adr_tei (crq_TE 127)) = Some l2
    /\ mgr_layer2 (mgr (mgr_ctrl example_create_l2 true CREATE_CHANNEL
                          (crq_TE 127) run_A0).2)
       = mgr_layer2 (mgr run_A0) ++
         [set_tm {| ri := 0; nval := 0;
                    tval := if protocol (crq_TE 127) =? ISDN_P_LAPD_TE
                            then 1000 else 2000;
                    tei_m_state := ST_TEI_NOP;
                    timer_pending := false |} l2].
Proof.
  destruct (proj1 (create_teimgr_registers example_create_l2 true (crq_TE 127) run_A0))
    as (_ & _ & _ & _ & opt & l2 & Hc & Hl & _); [vm_compute; reflexivity|].
  exists opt, l2. split; [exact Hc | exact Hl].
Defined.

(** X10 at run A7: the first entity is released, the second one moves
    up. *)
Lemma X10_witness : get_l2 0 (release_tei 0 run_A7) = get_l2 1 run_A7.
Proof.
  destruct (release_tei_removes_entity 0 run_A7) as (_ & H & _).
  apply (H 0%nat). lia.
Defined.

(** X11 at run A0. *)
Lemma X11_witness : release_tei 0 run_A1 = run_A0.
Proof.
  apply (release_tei_undoes_create example_create_l2 true (crq_TE 127) run_A0).
  vm_compute; reflexivity.
Defined.

(** X12 at run A4, for a frame of three octets. *)
Lemma X12_witness :
  ph_data_ind (msg PH_DATA_IND 0 [252; 255; 3]) run_A4 = (- EINVAL, run_A4).
Proof.
  destruct (ph_data_ind_accepts (msg PH_DATA_IND 0 [252; 255; 3]) run_A4)
    as (_ & _ & H & _).
  apply H. cbn. lia.
Defined.

(** X13 at run N1, for an ID_VERIFY. *)
Lemma X13_witness :
  (ph_data_ind (msg PH_DATA_IND 0 (tei_msg_bp 0 ID_VERIFY 0 5)) run_N1).2 = run_N1.
Proof.
  apply network_manager_drops_inbound. vm_compute; reflexivity.
Defined.

(** X14 at run A2, where the entity waits for its TEI. *)
Lemma X14_witness :
  tei_ph_data_ind 0 ID_DENIED (skipn 4 (tei_msg_bp 0 ID_DENIED 77 0)) 4 run_A2
  = run_A2.
Proof.
  destruct (id_denied_is_ignored run_A2) as (_ & H & _). apply H.
Defined.

(** X15 at run A5: the entity bound to TEI 70 is asked with GROUP_TEI. *)
Lemma X15_witness :
  emitted run_A5
    (mISDN_FsmEvent 0%nat EV_CHKREQ (skipn 4 (tei_msg_bp 0 ID_CHK_REQ 0 127)) run_A5)
    [tei_frame (mgr run_A5) 0 ID_CHK_RES 5 70] [].
Proof.
  destruct (check_request_is_answered 0 run_A5
              (session 70 0 77 3 1000 ST_TEI_NOP false)
              (skipn 4 (tei_msg_bp 0 ID_CHK_REQ 0 127)))
    as [H _]; [vm_compute; reflexivity|].
  destruct H as (_ & H & _);
    [discriminate | vm_compute; discriminate | left; vm_compute; reflexivity|].
  exact H.
Defined.

(** X16 at run A5: the TEI 70 is removed. *)
Lemma X16_witness :
  emitted run_A5
    (mISDN_FsmEvent 0%nat EV_REMOVE (skipn 4 (tei_msg_bp 0 ID_REMOVE 0 70)) run_A5)
    [] [RemovalRequested 0].
Proof.
  destruct (remove_is_passed_to_layer2 0 run_A5
              (session 70 0 77 3 1000 ST_TEI_NOP false)
              (skipn 4 (tei_msg_bp 0 ID_REMOVE 0 70)))
    as [H _]; [vm_compute; reflexivity|].
  destruct H as (_ & H);
    [discriminate | vm_compute; discriminate | right; vm_compute; reflexivity|].
  exact H.
Defined.

(** X17 at run A5, with the reference value 9. *)
Lemma X17_witness :
  emitted run_A5 (mISDN_FsmEvent 0%nat EV_ASSIGN_REQ [0; 9; 0] run_A5)
    [tei_frame (mgr run_A5) 0 ID_ASSIGNED 9 70] [].
Proof.
  destruct (assign_request_is_answered 0 run_A5
              (session 70 0 77 3 1000 ST_TEI_NOP false) [0; 9; 0])
    as [H _]; [vm_compute; reflexivity|].
  destruct H as (_ & H); [reflexivity | vm_compute; discriminate|].
  exact H.
Defined.

(** X18 at run E1: the entity has the fixed TEI 5. *)
Lemma X18_witness :
  (l2_tei 0 MDL_ASSIGN_IND 0 run_E1).2 = emit (AssignmentComplete 0 5) run_E1.
Proof.
  destruct (l2_tei_fixed_tei 0 MDL_ASSIGN_IND 0 run_E1
              (session 5 32768 0 0 1000 ST_TEI_NOP false))
    as (_ & H & _); [vm_compute; reflexivity..|].
  exact (H eq_refl).
Defined.

(** X19 at run A2: the entity waits for its TEI. *)
Lemma X19_witness : l2_tei 0 MDL_ASSIGN_IND 0 run_A2 = (0, run_A2).
Proof.
  apply (l2_tei_while_waiting 0 MDL_ASSIGN_IND 0 run_A2
           (session 127 0 77 3 1000 ST_TEI_IDREQ true));
    [vm_compute; reflexivity | vm_compute; reflexivity | discriminate].
Defined.

(** X20 at run A5. *)
Lemma X20_witness :
  get_l2 0 run_A5v = Some (session 70 0 77 2 1000 ST_TEI_IDVERIFY true).
Proof.
  destruct (l2_tei_error_starts_verification 0 0 run_A5
              (session 70 0 77 3 1000 ST_TEI_NOP false))
    as (_ & H & _); [vm_compute; reflexivity..|].
  exact H.
Defined.

(** X21 at run A4, for PH_DATA_REQ. *)
Lemma X21_witness : mgr_send (msg PH_DATA_REQ 0 []) run_A4 = (- EINVAL, run_A4).
Proof.
  exact (proj2 (mgr_send_error_changes_nothing (msg PH_DATA_REQ 0 []) run_A4)).
Defined.

(** X22 at run A2. *)
Lemma X22_witness :
  test_bit MGR_PH_ACTIVE (options (mgr run_A3)) = true
  /\ out run_A3
     = out run_A2
       ++ [Out_recv (msg PH_DATA_REQ 98111 [252; 255; 3; 15; 0; 77; 1; 255]) 0].
Proof.
  destruct (activation_starts_the_queue (msg PH_ACTIVATE_IND 0 []) run_A2 eq_refl)
    as (_ & Ha & H & _).
  split; [exact Ha|].
  destruct (H (msg PH_DATA_REQ 98111 [252; 255; 3; 15; 0; 77; 1; 255]) [])
    as [Ho _]; [vm_compute; reflexivity..|].
  exact Ho.
Defined.

(** X23 at run A3: the request is outstanding. *)
Lemma X23_witness :
  (mgr_send (msg PH_ACTIVATE_IND 0 [])
     (mgr_send (msg PH_DEACTIVATE_IND 0 []) run_A3).2).2 = run_A3.
Proof.
  apply link_flap_keeps_outstanding_frame;
    [reflexivity | reflexivity | vm_compute; reflexivity | vm_compute; reflexivity].
Defined.

(** X24 for a TEI of 200, which is cut down to 72. *)
Lemma X24_witness :
  dp_tei (skipn 4 (tei_msg_bp 0 ID_ASSIGNED 77 200)) = 200 mod 128.
Proof.
  destruct (tei_msg_truncates 0 ID_ASSIGNED 77 200) as (_ & _ & _ & _ & H).
  exact H.
Defined.

(** X25 for an entity of the terminal side. *)
Lemma X25_witness : nth 0 (tei_msg_bp 0 ID_REQUEST 77 127) 0 = 252.
Proof.
  assert (Hs : 0 <= TEI_SAPI < 64) by (change (0 <= 63 < 64); lia).
  exact (proj1 (@cr_bit_set_by_network_only linux_header 0 ID_REQUEST 77 127 Hs)).
Defined.

(** X26 at run A7, where the first entity has the TEI 70 and the second
    one waits for a TEI: an ID_REMOVE for the TEI 70, raised as
    EV_REMOVE on the first entity, releases it and leaves the second one
    as it was; the timer of the second one expires and the first one is
    as it was. *)
Lemma X26_witness :
  get_l2 1 (mISDN_FsmEvent 0%nat EV_REMOVE (skipn 4 (tei_msg_bp 0 ID_REMOVE 0 70)) run_A7)
  = get_l2 1 run_A7
  /\ get_l2 0 (FsmExpireTimer 1 run_A7) = get_l2 0 run_A7.
Proof.
  assert (H10 : 1%nat <> 0%nat) by lia.
  assert (H01 : 0%nat <> 1%nat) by lia.
  assert (Hev : EV_REMOVE <> EV_ASSIGN) by discriminate.
  split.
  - exact (proj1 (event_touches_only_its_session 0 1 run_A7 H10)
             EV_REMOVE (skipn 4 (tei_msg_bp 0 ID_REMOVE 0 70)) Hev).
  - exact (proj2 (event_touches_only_its_session 1 0 run_A7 H01)).
Defined.

(** X27 at run A4: ID_ASSIGNED(ri = 77, tei = 70) binds the TEI 70. *)
Lemma X27_witness :
  tei_m_state (tm (session 127 0 77 3 1000 ST_TEI_IDREQ true)) = ST_TEI_IDREQ
  /\ dp_ri (dp_assigned 77 70) = 77
  /\ tei (session 70 0 77 3 1000 ST_TEI_NOP false) = dp_tei (dp_assigned 77 70).
Proof.
  destruct (assignment_binds_unused_tei 0 run_A4
              (session 127 0 77 3 1000 ST_TEI_IDREQ true)
              (session 70 0 77 3 1000 ST_TEI_NOP false) (dp_assigned 77 70))
    as (H1 & H2 & H3 & _);
    [vm_compute; reflexivity | vm_compute; reflexivity | vm_compute; discriminate|].
  split_and!; [exact H1 | exact H2 | exact H3].
Defined.

(** X28 at run A7: the second entity gives up after three expiries. *)
Lemma X28_witness :
  exists fr,
    S (length fr) = 3%nat /\ (3 <= 3)%nat
    /\ Forall (fun f => nth 6 (data f) 0 = ID_REQUEST) fr
    /\ emitted run_A7 (Nat.iter 3 (FsmExpireTimer 1) run_A7)
         fr [AssignmentFailed 1].
Proof.
  destruct (waiting_session_gives_up run_A7 1%nat
              (session 127 0 5 3 1000 ST_TEI_IDREQ true) 3)
    as [H _];
    [ vm_compute; reflexivity
    | unfold session_ok; cbn; split; [reflexivity | lia]
    | reflexivity |].
  destruct (H eq_refl) as [_ H']. exact H'.
Defined.

(** X29 at run A1: the link is not active. *)
Lemma X29_witness :
  sendq (mgr (put_tei_msg 0 ID_REQUEST 77 GROUP_TEI run_A1))
  = sendq (mgr run_A1)
    ++ [tei_frame (mgr run_A1) 0 ID_REQUEST 77 GROUP_TEI].
Proof.
  destruct (put_tei_msg_three_ways 0 ID_REQUEST 77 GROUP_TEI run_A1
              (session 127 0 0 0 1000 ST_TEI_NOP false))
    as (_ & _ & H & _); [vm_compute; reflexivity|].
  destruct H as [_ H]; [vm_compute; reflexivity|]. exact H.
Defined.

(** X30 for the request behind run E1: an entity with the fixed TEI 5. *)
Lemma X30_witness :
  exists opt l2,
    example_create_l2 (protocol (crq_TE 5)) opt (adr_tei (crq_TE 5)) = Some l2
    /\ (test_bit OPTION_L2_FIXEDTEI opt = true <-> adr_tei (crq_TE 5) < 64)
    /\ (test_bit OPTION_L2_PTP opt = true <-> adr_tei (crq_TE 5) = 0).
Proof.
  destruct (@create_teimgr_options linux_header example_create_l2 true (crq_TE 5)
              (init_world 2 rnd_77_5 (fun _ => 0)))
    as (opt & l2 & Hc & H1 & H2 & _);
    [ change (0 <= 3); lia | change (0 <= 2); lia | change (0 <= 1); lia
    | discriminate | discriminate | discriminate | vm_compute; reflexivity |].
  exists opt, l2. split_and!; [exact Hc | exact H1 | exact H2].
Defined.

End Runs.
